(** Verification of the dxCompiler test-harness glue code.

    Shallow embedding of
      - dxcint/dxcint/Dependency.py
      - dxcint/dxcint/RegisteredTestFactory.py
      - dxcint/dxcint/testclasses/ExternExpectedOutput.py
      - cwl_runner/dx_cwl_runner/output_utils.py
    Python values are an inductive type, exceptions are values of [exn],
    and every method is a function in a state-and-exception monad over
    the part of the outside world it touches. *)

From Stdlib Require Import Ascii.
From Stdlib Require DecimalString.
From stdpp Require Import gmap strings list.

Set Warnings "-register-all".
Open Scope Z_scope.

(* ===================================================================== *)
(** * Python values, exceptions and the effect monad                      *)
(* ===================================================================== *)
Module Py.

(** Python values as they occur in the sources: JSON documents returned by
    [json.loads], string literals, and the tuple / set literals of
    ExternExpectedOutput.py.  Dict keys are strings throughout. *)
Inductive pyval : Type :=
| PNone
| PBool (b : bool)
| PInt (z : Z)
| PStr (s : string)
| PList (l : list pyval)
| PTuple (l : list pyval)
| PSet (l : list pyval)
| PDict (kvs : list (string * pyval)).

(** Exceptions.  [KeyboardInterrupt] and [SystemExit] derive from
    [BaseException] only; all others derive from [Exception]. *)
Inductive exn : Type :=
| TypeError (msg : string)
| KeyError (msg : string)
| IndexError (msg : string)
| AttributeError (msg : string)
| ValueError (msg : string)
| StopIteration
| OSError (msg : string)
| CalledProcessError (returncode : Z) (cmd : list string)
                     (stdout stderr : option string)
| DependencyError (msg : string)
| RegisteredTestError (msg : string)
| DXError (msg : string)
| KeyboardInterrupt
| SystemExit (code : Z).

Definition is_Exception (e : exn) : bool :=
  match e with
  | KeyboardInterrupt | SystemExit _ => false
  | _ => true
  end.

Inductive res (A : Type) : Type :=
| Ok (a : A)
| Raise (e : exn).
Arguments Ok {A} a.
Arguments Raise {A} e.

(** Computations reading and writing a state [S] that may raise. *)
Definition M (S A : Type) : Type := S -> res A * S.

Definition ret {S A} (a : A) : M S A := fun s => (Ok a, s).
Definition raise {S A} (e : exn) : M S A := fun s => (Raise e, s).
Definition bind {S A B} (c : M S A) (k : A -> M S B) : M S B :=
  fun s => match c s with
           | (Ok a, s') => k a s'
           | (Raise e, s') => (Raise e, s')
           end.
Definition lift {S A} (r : res A) : M S A := fun s => (r, s).

(** [try: body / except <classes>: handler]: [handler e] is [None] when
    the except clause does not match [e]. *)
Definition try_except {S A} (body : M S A) (handler : exn -> option (M S A))
  : M S A :=
  fun s => match body s with
           | (Ok a, s') => (Ok a, s')
           | (Raise e, s') =>
               match handler e with
               | Some h => h s'
               | None => (Raise e, s')
               end
           end.

(** [for x in xs: results = body(results, x)] *)
Fixpoint for_each {S A B} (xs : list A) (body : B -> A -> M S B) (acc : B)
  : M S B :=
  match xs with
  | [] => ret acc
  | x :: xs' => bind (body acc x) (fun acc' => for_each xs' body acc')
  end.

Module Import Notations.
Notation "x <- c ;; k" := (bind c (fun x => k))
  (at level 100, c at next level, right associativity).
Notation "c ;;; k" := (bind c (fun _ => k))
  (at level 100, right associativity).
End Notations.

(** ** Strings *)

Definition nl : string := String (Ascii.ascii_of_nat 10) EmptyString.

(** [s.startswith(pre)] *)
Definition startswith (s pre : string) : bool := String.prefix pre s.

(** [s.endswith(suf)]: some tail of [s] is [suf]. *)
Fixpoint endswith (s suf : string) : bool :=
  String.eqb s suf ||
  match s with
  | EmptyString => false
  | String _ s' => endswith s' suf
  end.

(** [str(x)] for an optional string attribute ([None] prints as None). *)
Definition str_opt (o : option string) : string :=
  match o with
  | Some s => s
  | None => "None"
  end.

(** [posixpath.join(a, *ps)] *)
Definition join_step (path b : string) : string :=
  if startswith b "/" then b
  else if String.eqb path "" || endswith path "/" then path +:+ b
  else path +:+ "/" +:+ b.

Definition os_path_join (a : string) (ps : list string) : string :=
  fold_left join_step ps a.

(** ** Dicts with string keys, in insertion order *)

(** [d.get(k)] as an option. *)
Fixpoint dict_get {A} (d : list (string * A)) (k : string) : option A :=
  match d with
  | [] => None
  | (k', v) :: d' => if String.eqb k' k then Some v else dict_get d' k
  end.

(** [d[k] = v]: an existing key keeps its position, a new one goes last. *)
Fixpoint dict_set {A} (d : list (string * A)) (k : string) (v : A)
  : list (string * A) :=
  match d with
  | [] => [(k, v)]
  | (k', v') :: d' =>
      if String.eqb k' k then (k', v) :: d' else (k', v') :: dict_set d' k v
  end.

Definition dict_keys {A} (d : list (string * A)) : list string := map fst d.

(** ** [repr] and [str] *)

Definition backslash : ascii := ascii_of_nat 92.
Definition squote : ascii := ascii_of_nat 39.
Definition dquote : ascii := ascii_of_nat 34.

Definition hex_digit (n : nat) : ascii :=
  if (n <? 10)%nat then ascii_of_nat (48 + n) else ascii_of_nat (87 + n).

Definition escape_char (quote c : ascii) : string :=
  let n := nat_of_ascii c in
  if Ascii.eqb c backslash then String backslash (String backslash "")
  else if Ascii.eqb c quote then String backslash (String c "")
  else if (n =? 10)%nat then String backslash "n"
  else if (n =? 13)%nat then String backslash "r"
  else if (n =? 9)%nat then String backslash "t"
  else if (n <? 32)%nat || (n =? 127)%nat then
    String backslash
      (String "x" (String (hex_digit (n / 16)) (String (hex_digit (n mod 16)) "")))
  else String c "".

Fixpoint escape_all (quote : ascii) (s : string) : string :=
  match s with
  | EmptyString => ""
  | String c s' => escape_char quote c +:+ escape_all quote s'
  end.

Fixpoint contains_char (c : ascii) (s : string) : bool :=
  match s with
  | EmptyString => false
  | String c' s' => Ascii.eqb c c' || contains_char c s'
  end.

(** [repr(s)] of a string: single quotes, unless the text has a single
    quote and no double quote. *)
Definition repr_str (s : string) : string :=
  let quote :=
    if contains_char squote s && negb (contains_char dquote s)
    then dquote else squote in
  String quote (escape_all quote s +:+ String quote "").

Definition repr_int (z : Z) : string :=
  DecimalString.NilZero.string_of_int (Z.to_int z).

Fixpoint py_repr (v : pyval) : string :=
  match v with
  | PNone => "None"
  | PBool true => "True"
  | PBool false => "False"
  | PInt z => repr_int z
  | PStr s => repr_str s
  | PList l => "[" +:+ String.concat ", " (map py_repr l) +:+ "]"
  | PTuple l =>
      match l with
      | [x] => "(" +:+ py_repr x +:+ ",)"
      | _ => "(" +:+ String.concat ", " (map py_repr l) +:+ ")"
      end
  | PSet l =>
      match l with
      | [] => "set()"
      | _ => "{" +:+ String.concat ", " (map py_repr l) +:+ "}"
      end
  | PDict kvs =>
      "{" +:+
      String.concat ", "
        (map (fun kv => repr_str (fst kv) +:+ ": " +:+ py_repr (snd kv)) kvs)
      +:+ "}"
  end.

(** [str(v)], which is also what an f-string field renders. *)
Definition py_str (v : pyval) : string :=
  match v with
  | PStr s => s
  | _ => py_repr v
  end.

(** [str(d.keys())] *)
Definition repr_dict_keys (keys : list string) : string :=
  "dict_keys(" +:+ py_repr (PList (map PStr keys)) +:+ ")".

(** [" ".join(items)]: every item must be a [str]. *)
Fixpoint all_str (items : list pyval) : option (list string) :=
  match items with
  | [] => Some []
  | PStr s :: rest =>
      match all_str rest with
      | Some l => Some (s :: l)
      | None => None
      end
  | _ :: _ => None
  end.

Definition str_join (sep : string) (items : list pyval) : res string :=
  match all_str items with
  | Some l => Ok (String.concat sep l)
  | None => Raise (TypeError "sequence item: expected str instance")
  end.

(** ** Truth value, iteration, subscription *)

Definition py_truthy (v : pyval) : bool :=
  match v with
  | PNone => false
  | PBool b => b
  | PInt z => negb (z =? 0)
  | PStr s => negb (String.eqb s "")
  | PList l | PTuple l | PSet l => match l with [] => false | _ => true end
  | PDict kvs => match kvs with [] => false | _ => true end
  end.

Definition type_name (v : pyval) : string :=
  match v with
  | PNone => "NoneType"
  | PBool _ => "bool"
  | PInt _ => "int"
  | PStr _ => "str"
  | PList _ => "list"
  | PTuple _ => "tuple"
  | PSet _ => "set"
  | PDict _ => "dict"
  end.

(** The first unhashable value inside [v], if any: lists, sets and dicts
    are unhashable, a tuple is as hashable as its items. *)
Fixpoint unhashable (v : pyval) : option string :=
  match v with
  | PList _ => Some "list"
  | PSet _ => Some "set"
  | PDict _ => Some "dict"
  | PTuple l =>
      (fix first (l : list pyval) : option string :=
         match l with
         | [] => None
         | x :: l' =>
             match unhashable x with
             | Some t => Some t
             | None => first l'
             end
         end) l
  | _ => None
  end.

(** [for x in v] *)
Definition py_iter (v : pyval) : res (list pyval) :=
  match v with
  | PDict kvs => Ok (map (fun kv => PStr (fst kv)) kvs)
  | PList l | PTuple l | PSet l => Ok l
  | PStr s => Ok (map (fun c => PStr (String c "")) (String.list_ascii_of_string s))
  | _ => Raise (TypeError ("'" +:+ type_name v +:+ "' object is not iterable"))
  end.

Definition as_index (k : pyval) : option Z :=
  match k with
  | PInt i => Some i
  | PBool b => Some (if b then 1 else 0)
  | _ => None
  end.

Definition seq_index {A} (l : list A) (i : Z) : option A :=
  let n := Z.of_nat (length l) in
  let j := if i <? 0 then i + n else i in
  if (0 <=? j) && (j <? n) then l !! Z.to_nat j else None.

(** [container[key]] *)
Definition py_getitem (container key : pyval) : res pyval :=
  match container with
  | PDict kvs =>
      match unhashable key with
      | Some t => Raise (TypeError ("unhashable type: '" +:+ t +:+ "'"))
      | None =>
          match key with
          | PStr k =>
              match dict_get kvs k with
              | Some v => Ok v
              | None => Raise (KeyError (py_repr key))
              end
          | _ => Raise (KeyError (py_repr key))
          end
      end
  | PList l | PTuple l =>
      match as_index key with
      | Some i =>
          match seq_index l i with
          | Some v => Ok v
          | None => Raise (IndexError (type_name container +:+ " index out of range"))
          end
      | None =>
          Raise (TypeError (type_name container +:+ " indices must be integers or slices, not "
                            +:+ type_name key))
      end
  | PStr s =>
      match as_index key with
      | Some i =>
          match seq_index (String.list_ascii_of_string s) i with
          | Some c => Ok (PStr (String c ""))
          | None => Raise (IndexError "string index out of range")
          end
      | None =>
          Raise (TypeError ("string indices must be integers, not '" +:+ type_name key +:+ "'"))
      end
  | _ => Raise (TypeError ("'" +:+ type_name container +:+ "' object is not subscriptable"))
  end.

(** [d.get(k)] *)
Definition py_get (d : pyval) (k : string) : res pyval :=
  match d with
  | PDict kvs => Ok (default PNone (dict_get kvs k))
  | _ => Raise (AttributeError ("'" +:+ type_name d +:+ "' object has no attribute 'get'"))
  end.

(** [enumerate(l)] *)
Definition enumerate {A} (l : list A) : list (Z * A) :=
  imap (fun i x => (Z.of_nat i, x)) l.

End Py.

Import Py Py.Notations.

(* ===================================================================== *)
(** * dxcint/dxcint/Dependency.py                                         *)
(* ===================================================================== *)
Module Dependency.

(** The local file system: existing paths, each a directory or a regular
    file with its content.  Paths are compared as strings. *)
Inductive node : Type :=
| Dir
| File (content : string).

(** What the method does to the outside, in program order. *)
Inductive event : Type :=
| EvMakedirs (path : string)
| EvLog (msg : string)
| EvExec (cmd : list string)
| EvChmod (path : string) (mode : Z)
| EvAppend (path data : string).

Record World : Type := mkWorld {
  fs : gmap string node;
  trace : list event;
  stdout : list string
}.

Definition emit (e : event) : M World unit :=
  fun w => (Ok tt, mkWorld (fs w) (trace w ++ [e]) (stdout w)).

(** [print(x)] *)
Definition print (line : string) : M World unit :=
  fun w => (Ok tt, mkWorld (fs w) (trace w) (stdout w ++ [line])).

(** [logging.info(msg)] *)
Definition logging_info (msg : string) : M World unit := emit (EvLog msg).

(** [os.path.exists(p)] *)
Definition os_path_exists (p : string) : M World bool :=
  fun w => (Ok (bool_decide (is_Some (fs w !! p))), w).

(** The proper ancestors of a path, shortest first: every non-empty prefix
    that stops just before a separator. *)
Fixpoint ancestors_from (acc s : string) : list string :=
  match s with
  | EmptyString => []
  | String c s' =>
      let rest := ancestors_from (acc +:+ String c EmptyString) s' in
      if Ascii.eqb c "/"%char && negb (String.eqb acc "") then acc :: rest else rest
  end.

Definition ancestors (p : string) : list string := ancestors_from "" p.

(** Create each listed directory that is missing; a regular file in the
    way is an error. *)
Fixpoint mkdir_each (ps : list string) (m : gmap string node)
  : res (gmap string node) :=
  match ps with
  | [] => Ok m
  | a :: rest =>
      match m !! a with
      | Some Dir => mkdir_each rest m
      | Some (File _) => Raise (OSError ("[Errno 17] File exists: '" +:+ a +:+ "'"))
      | None => mkdir_each rest (<[a := Dir]> m)
      end
  end.

(** [os.makedirs(p, exist_ok=True)]: the leaf and all intermediate
    directories. *)
Definition os_makedirs (p : string) : M World unit :=
  fun w =>
    match mkdir_each (ancestors p ++ [p]) (fs w) with
    | Ok m => (Ok tt, mkWorld m (trace w ++ [EvMakedirs p]) (stdout w))
    | Raise e => (Raise e, w)
    end.

(** [os.chmod(p, mode)]; permission bits are recorded in the trace only. *)
Definition os_chmod (p : string) (mode : Z) : M World unit :=
  fun w =>
    match fs w !! p with
    | Some _ => (Ok tt, mkWorld (fs w) (trace w ++ [EvChmod p mode]) (stdout w))
    | None => (Raise (OSError ("[Errno 2] No such file or directory: '" +:+ p +:+ "'")), w)
    end.

(** [with open(p, "a") as h: h.write(data)] *)
Definition open_append (p data : string) : M World unit :=
  fun w =>
    match fs w !! p with
    | Some (File c) =>
        (Ok tt, mkWorld (<[p := File (c +:+ data)]> (fs w))
                        (trace w ++ [EvAppend p data]) (stdout w))
    | Some Dir => (Raise (OSError ("[Errno 21] Is a directory: '" +:+ p +:+ "'")), w)
    | None =>
        match last (ancestors p) with
        | Some d =>
            match fs w !! d with
            | Some Dir =>
                (Ok tt, mkWorld (<[p := File data]> (fs w))
                                (trace w ++ [EvAppend p data]) (stdout w))
            | _ => (Raise (OSError ("[Errno 2] No such file or directory: '" +:+ p +:+ "'")), w)
            end
        | None =>
            (Ok tt, mkWorld (<[p := File data]> (fs w))
                            (trace w ++ [EvAppend p data]) (stdout w))
        end
    end.

(** How a spawned program ends: it ran and exited with a status, leaving
    the file system in some state, or it could not be started. *)
Inductive proc_outcome : Type :=
| Exited (returncode : Z) (m : gmap string node)
| SpawnError (msg : string).

(** [pathlib.Path(s)] *)
Inductive PyPath : Type := Path (s : string).

Record Dependency : Type := mkDependency {
  _dependencies_root : string;
  _name : string;
  _languages : list string;
  _version : string;
  _source_link : string;
  _package_manager : option string
}.

Section Methods.

(** The behaviour of external programs ([wget]) on the file system. *)
Variable run_process : list string -> gmap string node -> proc_outcome.

(** [subprocess.check_call(cmd)]: output is not captured, so the
    [CalledProcessError] it raises has [stdout] and [stderr] set to None. *)
Definition sp_check_call (cmd : list string) : M World unit :=
  fun w =>
    let w1 := mkWorld (fs w) (trace w ++ [EvExec cmd]) (stdout w) in
    match run_process cmd (fs w) with
    | Exited rc m =>
        let w2 := mkWorld m (trace w1) (stdout w1) in
        if rc =? 0 then (Ok tt, w2)
        else (Raise (CalledProcessError rc cmd None None), w2)
    | SpawnError msg => (Raise (OSError msg), w1)
    end.

Definition local_dependency_dir (self : Dependency) : string :=
  os_path_join (_dependencies_root self)
               [_name self; _version self; _name self].

Definition download_cmd (self : Dependency) : list string :=
  ["wget"; _source_link self; "-O"; local_dependency_dir self].

(** [Dependency._get_exec] *)
Definition _get_exec (self : Dependency) : M World PyPath :=
  let dir := local_dependency_dir self in
  e <- os_path_exists dir ;;
  if e then ret (Path dir)
  else
    os_makedirs dir ;;;
    logging_info ("Downloading " +:+ _name self +:+ " version " +:+ _version self) ;;;
    try_except (sp_check_call (download_cmd self))
      (fun e => match e with
                | CalledProcessError _ _ out err =>
                    Some (print (str_opt out) ;;; print (str_opt err) ;;; raise e)
                | _ => None
                end) ;;;
    os_chmod dir 509 ;;;
    ret (Path dir).

(** [Dependency.update_dot_env]; [home_dir] is [str(home_dir)], which is
    also what [os.path.join] receives. *)
Definition update_dot_env (self : Dependency) (home_dir : string) : M World bool :=
  if negb (endswith home_dir "home/dnanexus") then
    raise (DependencyError
      ("Dependency._update_dot_env(): provided home dir does not end with `home/dnanexus` - .env file will "
       +:+ "not have a desired effect on the platform. Provided path `" +:+ home_dir +:+ "`"))
  else
    let dot_env := _name self +:+ "=" +:+ _version self +:+ nl in
    let dot_env_file := os_path_join home_dir [".env"] in
    open_append dot_env_file dot_env ;;;
    ret true.

(** Shape of a call that starts without the target. *)
Inductive absent_run (self : Dependency) (w : World) : res PyPath -> World -> Prop :=
| run_mkdir_fails e :
    os_makedirs (local_dependency_dir self) w = (Raise e, w) ->
    absent_run self w (Raise e) w
| run_spawn_fails w1 msg :
    os_makedirs (local_dependency_dir self) w = (Ok tt, w1) ->
    run_process (download_cmd self) (fs w1) = SpawnError msg ->
    absent_run self w (Raise (OSError msg))
      (mkWorld (fs w1)
         (trace w ++ [EvMakedirs (local_dependency_dir self);
                      EvLog ("Downloading " +:+ _name self +:+ " version " +:+ _version self);
                      EvExec (download_cmd self)])
         (stdout w))
| run_download_fails w1 rc m :
    os_makedirs (local_dependency_dir self) w = (Ok tt, w1) ->
    run_process (download_cmd self) (fs w1) = Exited rc m ->
    rc <> 0 ->
    absent_run self w (Raise (CalledProcessError rc (download_cmd self) None None))
      (mkWorld m
         (trace w ++ [EvMakedirs (local_dependency_dir self);
                      EvLog ("Downloading " +:+ _name self +:+ " version " +:+ _version self);
                      EvExec (download_cmd self)])
         (stdout w ++ ["None"; "None"]))
| run_download_ok w1 m n :
    os_makedirs (local_dependency_dir self) w = (Ok tt, w1) ->
    run_process (download_cmd self) (fs w1) = Exited 0 m ->
    m !! local_dependency_dir self = Some n ->
    absent_run self w (Ok (Path (local_dependency_dir self)))
      (mkWorld m
         (trace w ++ [EvMakedirs (local_dependency_dir self);
                      EvLog ("Downloading " +:+ _name self +:+ " version " +:+ _version self);
                      EvExec (download_cmd self);
                      EvChmod (local_dependency_dir self) 509])
         (stdout w))
| run_chmod_fails w1 m :
    os_makedirs (local_dependency_dir self) w = (Ok tt, w1) ->
    run_process (download_cmd self) (fs w1) = Exited 0 m ->
    m !! local_dependency_dir self = None ->
    absent_run self w
      (Raise (OSError ("[Errno 2] No such file or directory: '"
                       +:+ local_dependency_dir self +:+ "'")))
      (mkWorld m
         (trace w ++ [EvMakedirs (local_dependency_dir self);
                      EvLog ("Downloading " +:+ _name self +:+ " version " +:+ _version self);
                      EvExec (download_cmd self)])
         (stdout w)).

(** Resolving [n] more times in a row. *)
Fixpoint resolve_n (n : nat) (self : Dependency) (w : World)
  : list (res PyPath) * World :=
  match n with
  | O => ([], w)
  | S n' =>
      let '(r, w1) := _get_exec self w in
      let '(rs, w2) := resolve_n n' self w1 in
      (r :: rs, w2)
  end.

End Methods.

(** Number of download commands issued in a trace. *)
Definition is_exec (e : event) : bool :=
  match e with EvExec _ => true | _ => false end.
Definition downloads (t : list event) : nat := length (List.filter is_exec t).

(** ** A sample deployment used to exercise the methods *)

(** A downloader that writes its [-O] target, and exits with status 1
    when the target is a directory. *)
Definition wget_sample (cmd : list string) (m : gmap string node) : proc_outcome :=
  match cmd with
  | [prog; url; flag; target] =>
      if String.eqb prog "wget" && String.eqb flag "-O" then
        match m !! target with
        | Some Dir => Exited 1 m
        | _ => Exited 0 (<[target := File ("payload of " +:+ url)]> m)
        end
      else SpawnError "[Errno 2] No such file or directory"
  | _ => SpawnError "[Errno 2] No such file or directory"
  end.

Definition cromwell : Dependency :=
  mkDependency "/repo/dependencies" "cromwell" ["wdl"] "85"
               "https://example.org/cromwell-85.jar" None.

Definition empty_world : World := mkWorld ∅ [] [].

(** The executable is already in place. *)
Definition installed_world : World :=
  mkWorld (<["/repo/dependencies/cromwell/85/cromwell" := File "jar"]> ∅) [] [].

End Dependency.

(* ===================================================================== *)
(** * dxcint/dxcint/RegisteredTestFactory.py                              *)
(* ===================================================================== *)
Module RegisteredTestFactory.

(** The classes the switch refers to. *)
Inductive test_class : Type :=
| RegisteredTest
| ExpectedFailure
| ExpectedFailureMessage
| ExpectedOutput
| AnalysisFinished.

Definition test_type_switch : list (string * test_class) :=
  [ ("mock_category", RegisteredTest);
    ("expected_failure", ExpectedFailure);
    ("expected_failure_message", ExpectedFailureMessage);
    ("expected_output", ExpectedOutput);
    ("analysis_finished", AnalysisFinished) ].

Section Factory.

(** [dxcint.Context], the state that building a test may touch (remote
    project, local files), the built object, and the constructors of the
    five classes, which live in other modules of dxcint. *)
Variables (Context World Instance : Type).
Variable construct :
  test_class -> string -> string -> string -> Context -> M World Instance.

(** [RegisteredTestFactory.register_test]; a class object is always
    truthy, so [not registered_test] holds exactly for a missing key. *)
Definition register_test (src_file category test_name : string)
    (context : Context) : M World Instance :=
  let registered_test := dict_get test_type_switch category in
  match registered_test with
  | None =>
      raise (RegisteredTestError
        ("RegisteredTestFactory.register_test(): Category " +:+ category
         +:+ " is not recognized. Existing categories "
         +:+ "are " +:+ repr_dict_keys (dict_keys test_type_switch)
         +:+ ". Add new category and new test implementation as a subclass of "
         +:+ "`RegisteredTest`."))
  | Some cls => construct cls src_file category test_name context
  end.

End Factory.

(** [a] occurs in [b]. *)
Definition occurs_in (a b : string) : Prop :=
  exists pre post, b = pre +:+ a +:+ post.

(** ** A sample platform: constructors that create one remote object *)
Definition sample_construct (cls : test_class) (src_file category test_name : string)
    (context : unit) : M (list string) (test_class * string) :=
  fun remote => (Ok (cls, test_name), remote ++ [test_name]).

End RegisteredTestFactory.

(* ===================================================================== *)
(** * cwl_runner/dx_cwl_runner/output_utils.py                            *)
(* ===================================================================== *)
Module OutputUtils.

(** [next(iter(output.values()))] *)
Definition first_value (output : pyval) : res pyval :=
  match output with
  | PDict [] => Raise StopIteration
  | PDict ((_, v) :: _) => Ok v
  | _ => Raise (AttributeError ("'" +:+ type_name output +:+ "' object has no attribute 'values'"))
  end.

(** [results[key][idx] = v]; [idx] comes from [enumerate] and is never
    negative. *)
Definition store_item (results : list (string * pyval)) (key : string)
    (idx : Z) (v : pyval) : res (list (string * pyval)) :=
  match dict_get results key with
  | None => Raise (KeyError (repr_str key))
  | Some (PList l) =>
      if (0 <=? idx) && (idx <? Z.of_nat (length l))
      then Ok (dict_set results key (PList (<[Z.to_nat idx := v]> l)))
      else Raise (IndexError "list assignment index out of range")
  | Some x =>
      Raise (TypeError ("'" +:+ type_name x +:+ "' object does not support item assignment"))
  end.

(** [state == "done"] *)
Definition is_done (state : pyval) : bool :=
  match state with
  | PStr s => String.eqb s "done"
  | _ => false
  end.

Section Formatter.

(** [dx_cwl_runner.utils], [dx_cwl_runner.dx.Dx] and the [json] and [os]
    calls live outside this module: they are parameters acting on an
    arbitrary world (platform, local disk). *)
Variable World : Type.
Variable run_cmd : string -> M World string.
Variable json_loads : string -> res pyval.
Variable get_file_name : string -> pyval -> M World string.
Variable get_checksum : string -> M World pyval.
Variable getsize : string -> M World Z.

Definition download_command (file_id : pyval) (output_path : string) : string :=
  "dx download " +:+ py_str file_id +:+ " --output '" +:+ output_path
  +:+ "' --no-progress".

(** [get_modified_output(output, outdir, dx)] *)
Definition get_modified_output (output : pyval) (outdir : string) : M World pyval :=
  file_id <- lift (first_value output) ;;
  output_path <- get_file_name outdir file_id ;;
  file_id' <- lift (first_value output) ;;
  run_cmd (download_command file_id' output_path) ;;;
  checksum <- get_checksum output_path ;;
  size <- getsize output_path ;;
  ret (PDict [ ("class", PStr "File");
               ("checksum", PStr (py_str checksum));
               ("location", PStr output_path);
               ("size", PInt size) ]).

(** The body of [for output in outputs].  In the list branch the
    right-hand side [get_modified_output(outputs[outputs][idx], ...)] is
    evaluated before the target [results[key][idx]]; [by_key] is
    [outputs[outputs]].  The branch is followed by an [if]/[else], not an
    [elif], so a list value is stored once more, as it is, by the [else]. *)
Definition format_output (process_file outdir : string) (outputs : pyval)
    (results : list (string * pyval)) (output : pyval)
  : M World (list (string * pyval)) :=
  let key := process_file +:+ "." +:+ py_str output in
  value <- lift (py_getitem outputs output) ;;
  results <-
    match value with
    | PList items =>
        for_each (enumerate items)
          (fun results iv =>
             by_key <- lift (py_getitem outputs outputs) ;;
             item <- lift (py_getitem by_key (PInt (fst iv))) ;;
             modified <- get_modified_output item outdir ;;
             lift (store_item results key (fst iv) modified))
          (dict_set results key (PList []))
    | _ => ret results
    end ;;
  match value with
  | PDict _ =>
      modified <- get_modified_output value outdir ;;
      ret (dict_set results key modified)
  | _ => ret (dict_set results key value)
  end.

(** [create_dx_output(job_id, process_file, outdir, dx)] *)
Definition create_dx_output (job_id process_file outdir : string)
  : M World (list (string * pyval)) :=
  text <- run_cmd ("dx describe " +:+ job_id +:+ " --json") ;;
  description <- lift (json_loads text) ;;
  outputs <- lift (py_get description "output") ;;
  state <- lift (py_get description "state") ;;
  if is_done state then
    if py_truthy outputs then
      keys <- lift (py_iter outputs) ;;
      for_each keys (format_output process_file outdir outputs) []
    else ret []
  else ret [].

(** What the list branch is specified to compute: the per-element
    transform applied to each element of the list, in order. *)
Fixpoint map_modified (items : list pyval) (outdir : string) : M World (list pyval) :=
  match items with
  | [] => ret []
  | x :: rest =>
      y <- get_modified_output x outdir ;;
      ys <- map_modified rest outdir ;;
      ret (y :: ys)
  end.

End Formatter.

(** ** A sample platform *)

(** Remote files (id, name, bytes), downloaded files (path, bytes) and
    the commands run so far. *)
Record Platform : Type := mkPlatform {
  remote : list (string * (string * string));
  disk : list (string * string);
  commands : list string
}.

Definition sample_describe : string := "{...job-1...}".

Definition sample_description (state : string) (output : pyval) : pyval :=
  PDict [("id", PStr "job-1"); ("state", PStr state); ("output", output)].

Section Sample.

(** The document that [dx describe job-1 --json] prints. *)
Variable description : pyval.

Definition sample_run_cmd (cmd : string) : M Platform string :=
  fun w =>
    let w' := mkPlatform (remote w) (disk w) (commands w ++ [cmd]) in
    if String.eqb cmd "dx describe job-1 --json" then (Ok sample_describe, w')
    else if String.eqb cmd "dx download file-B --output 'out/b.txt' --no-progress" then
      match dict_get (remote w) "file-B" with
      | Some (_, bytes) =>
          (Ok "", mkPlatform (remote w) (dict_set (disk w) "out/b.txt" bytes) (commands w'))
      | None => (Raise (CalledProcessError 1 [cmd] None None), w')
      end
    else (Raise (CalledProcessError 1 [cmd] None None), w').

Definition sample_json_loads (text : string) : res pyval :=
  if String.eqb text sample_describe then Ok description
  else Raise (ValueError "Expecting value").

Definition sample_get_file_name (outdir : string) (file_id : pyval) : M Platform string :=
  fun w =>
    match file_id with
    | PStr id =>
        match dict_get (remote w) id with
        | Some (name, _) => (Ok (outdir +:+ "/" +:+ name), w)
        | None => (Raise (DXError "ResourceNotFound"), w)
        end
    | _ => (Raise (DXError "InvalidInput"), w)
    end.

(** A toy checksum: the length of the content, tagged. *)
Definition sample_get_checksum (path : string) : M Platform pyval :=
  fun w =>
    match dict_get (disk w) path with
    | Some bytes => (Ok (PStr ("len$" +:+ repr_int (Z.of_nat (String.length bytes)))), w)
    | None => (Raise (OSError "[Errno 2] No such file or directory"), w)
    end.

Definition sample_getsize (path : string) : M Platform Z :=
  fun w =>
    match dict_get (disk w) path with
    | Some bytes => (Ok (Z.of_nat (String.length bytes)), w)
    | None => (Raise (OSError "[Errno 2] No such file or directory"), w)
    end.

Definition sample_create_dx_output :=
  create_dx_output Platform sample_run_cmd sample_json_loads
    sample_get_file_name sample_get_checksum sample_getsize.

End Sample.

Definition sample_platform : Platform :=
  mkPlatform [("file-B", ("b.txt", "hello"))] [] [].

Definition file_ref (id : string) : pyval := PDict [("$dnanexus_link", PStr id)].

(** The sample platform after the describe command, and after the
    download of file-B. *)
Definition described : Platform :=
  mkPlatform (remote sample_platform) [] ["dx describe job-1 --json"].

Definition downloaded : Platform :=
  mkPlatform (remote sample_platform) [("out/b.txt", "hello")]
    ["dx describe job-1 --json";
     "dx download file-B --output 'out/b.txt' --no-progress"].

End OutputUtils.

(* ===================================================================== *)
(** * dxcint/dxcint/testclasses/ExternExpectedOutput.py                   *)
(* ===================================================================== *)
Module ExternExpectedOutput.

(** The fields of [dxcint.Context] the class reads.  Its lock and logger
    show up as events. *)
Record Context : Type := mkContext {
  repo_root_dir : string;
  version : string;
  platform_build_dir : string;
  project_id : string
}.

Record ExternExpectedOutput : Type := mkTest {
  context : Context;
  _compiler_jar_path : string;
  _applet_folder : string;
  _extern_path : pyval
}.

(** [ExternExpectedOutput.__init__]: the parenthesised [os.path.join(...)]
    assigned to [_extern_path] is followed by a comma, so the attribute is
    a one-element tuple holding the path. *)
Definition __init__ (ctx : Context) : ExternExpectedOutput :=
  {| context := ctx;
     _compiler_jar_path :=
       os_path_join (repo_root_dir ctx) ["dxCompiler-" +:+ version ctx +:+ ".jar"];
     _applet_folder := os_path_join (platform_build_dir ctx) ["extern_applets"];
     _extern_path :=
       PTuple [PStr (os_path_join (repo_root_dir ctx)
                       ["dxcint/resources/extern_expected_output/dx_extern.wdl"])] |}.

Inductive event : Type :=
| EvAcquire
| EvRelease
| EvLog (msg : string)
| EvFind (name folder project : string)
| EvCheckOutput (cmd : list string)
| EvSuperCompile.

(** Number of programs started through [subprocess.check_output]: the
    [dx build] and [dxni] invocations. *)
Definition is_invocation (e : event) : bool :=
  match e with EvCheckOutput _ => true | _ => false end.
Definition invocations (t : list event) : nat := length (List.filter is_invocation t).

Definition native_applets : list string :=
  [ "native_concat"; "native_diff"; "native_mk_list"; "native_sum"; "native_sum_012" ].

Definition error_creating_extern : pyval :=
  PSet [PBool false; PStr "Error creating extern"].

Section Methods.

(** The platform and the local disk are an arbitrary state [E]; the calls
    that leave the class are parameters acting on it: [os.stat] succeeding
    on a path, [dxpy.bindings.search.find_data_objects], the programs
    started by [subprocess.check_output], and the inherited
    [ExpectedOutput._compile_executable], which may also read and set
    [_test_results]. *)
Variable E : Type.
Variable stat_ok : pyval -> E -> bool.
Variable find_data_objects : string -> string -> string -> E -> res (list pyval) * E.
Variable run_program : list string -> E -> res string * E.
Variable parent_compile :
  ExternExpectedOutput -> option pyval -> E -> res string * (option pyval * E).

Record World : Type := mkWorld {
  env : E;
  _test_results : option pyval;
  trace : list event
}.

Definition emit (e : event) : M World unit :=
  fun w => (Ok tt, mkWorld (env w) (_test_results w) (trace w ++ [e])).

(** [self.context.logger.info(msg)] *)
Definition logger_info (msg : string) : M World unit := emit (EvLog msg).

(** [os.path.exists(p)]: [os.stat] inside catches [OSError] and
    [ValueError] only, so its [TypeError] for an argument that is no path
    comes out. *)
Definition os_path_exists (p : pyval) : M World bool :=
  fun w =>
    match p with
    | PStr _ | PInt _ | PBool _ => (Ok (stat_ok p (env w)), w)
    | _ =>
        (Raise (TypeError ("stat: path should be string, bytes, os.PathLike or integer, not "
                           +:+ type_name p)), w)
    end.

(** [subprocess.check_output(cmd)] *)
Definition sp_check_output (cmd : list pyval) : M World string :=
  fun w =>
    match all_str cmd with
    | None => (Raise (TypeError "expected str, bytes or os.PathLike object"), w)
    | Some args =>
        let '(r, e') := run_program args (env w) in
        (r, mkWorld e' (_test_results w) (trace w ++ [EvCheckOutput args]))
    end.

(** [list(dxpy.bindings.search.find_data_objects(classname="applet", ...))] *)
Definition find_applets (name folder project : string) : M World (list pyval) :=
  fun w =>
    let '(r, e') := find_data_objects name folder project (env w) in
    (r, mkWorld e' (_test_results w) (trace w ++ [EvFind name folder project])).

(** [with self.context.lock: body]; the lock is given back on every exit. *)
Definition with_lock {A} (body : M World A) : M World A :=
  fun w =>
    let '(r, w1) := (emit EvAcquire ;;; body) w in
    (r, mkWorld (env w1) (_test_results w1) (trace w1 ++ [EvRelease])).

(** [ExternExpectedOutput.native_call_dxni] *)
Definition native_call_dxni (self : ExternExpectedOutput) : M World unit :=
  let cmdline_common :=
    [ PStr "java"; PStr "-jar"; PStr (_compiler_jar_path self); PStr "dxni";
      PStr "-force"; PStr "-folder"; PStr (_applet_folder self);
      PStr "-project"; PStr (project_id (context self)) ] in
  let cmdline_v1 :=
    cmdline_common ++
    [ PStr "-language"; PStr "wdl_v1.0"; PStr "-output"; _extern_path self ] in
  line <- lift (str_join " " cmdline_v1) ;;
  logger_info line ;;;
  sp_check_output cmdline_v1 ;;;
  ret tt.

Definition build_cmdline (self : ExternExpectedOutput) (napl : string) : list pyval :=
  [ PStr "dx"; PStr "build";
    PStr (os_path_join (repo_root_dir (context self))
            ["dxcint/dependencies/applets/" +:+ napl]);
    PStr "--destination";
    PStr (project_id (context self) +:+ ":" +:+ _applet_folder self +:+ "/") ].

(** [ExternExpectedOutput._native_call_setup] *)
Definition _native_call_setup (self : ExternExpectedOutput) : M World unit :=
  for_each native_applets
    (fun _ napl =>
       applet <- find_applets napl (_applet_folder self) (project_id (context self)) ;;
       match applet with
       | [] => sp_check_output (build_cmdline self napl) ;;; ret tt
       | _ :: _ => ret tt
       end) tt ;;;
  native_call_dxni self.

(** The body of the [with] block of [_compile_executable]. *)
Definition setup_block (self : ExternExpectedOutput) : M World unit :=
  present <- os_path_exists (_extern_path self) ;;
  if negb present then
    logger_info "Creating dx_extern.wdl" ;;;
    _native_call_setup self ;;;
    logger_info (py_str (_extern_path self) +:+ " created")
  else ret tt.

(** [except Exception: self._test_results = {False, "Error creating extern"}] *)
Definition except_Exception (e : exn) : option (M World unit) :=
  if is_Exception e then
    Some (fun w => (Ok tt, mkWorld (env w) (Some error_creating_extern) (trace w)))
  else None.

(** [super()._compile_executable(...)] *)
Definition super_compile_executable (self : ExternExpectedOutput) : M World string :=
  fun w =>
    let '(r, (results, e')) := parent_compile self (_test_results w) (env w) in
    (r, mkWorld e' results (trace w ++ [EvSuperCompile])).

(** [ExternExpectedOutput._compile_executable] *)
Definition _compile_executable (self : ExternExpectedOutput) : M World string :=
  try_except (with_lock (setup_block self)) except_Exception ;;;
  super_compile_executable self.

(** ** Callers running side by side

    Each caller is at one of the points below; a step of the scheduler
    lets one caller move to its next point.  What happens while the lock
    is held is one step. *)
Inductive pc : Type :=
| Waiting
| Holding
| Releasing (r : res unit)
| Handling
| Compiling
| Finished (r : res string).

Record thread : Type := mkThread {
  t_self : ExternExpectedOutput;
  t_results : option pyval;
  t_pc : pc
}.

Record State : Type := mkState {
  genv : E;
  glock : option nat;
  gtrace : list (nat * event);
  gthreads : list thread
}.

Definition tagged (t : nat) (evs : list event) : list (nat * event) :=
  map (fun e => (t, e)) evs.

Definition step (t : nat) (s : State) : State :=
  match gthreads s !! t with
  | None => s
  | Some th =>
      match t_pc th with
      | Waiting =>
          match glock s with
          | Some _ => s
          | None =>
              mkState (genv s) (Some t) (gtrace s ++ [(t, EvAcquire)])
                (<[t := mkThread (t_self th) (t_results th) Holding]> (gthreads s))
          end
      | Holding =>
          let '(r, w) := setup_block (t_self th) (mkWorld (genv s) (t_results th) []) in
          mkState (env w) (glock s) (gtrace s ++ tagged t (trace w))
            (<[t := mkThread (t_self th) (_test_results w) (Releasing r)]> (gthreads s))
      | Releasing r =>
          let next :=
            match r with
            | Ok _ => Compiling
            | Raise e => if is_Exception e then Handling else Finished (Raise e)
            end in
          mkState (genv s) None (gtrace s ++ [(t, EvRelease)])
            (<[t := mkThread (t_self th) (t_results th) next]> (gthreads s))
      | Handling =>
          mkState (genv s) (glock s) (gtrace s)
            (<[t := mkThread (t_self th) (Some error_creating_extern) Compiling]> (gthreads s))
      | Compiling =>
          let '(r, w) :=
            super_compile_executable (t_self th) (mkWorld (genv s) (t_results th) []) in
          mkState (env w) (glock s) (gtrace s ++ tagged t (trace w))
            (<[t := mkThread (t_self th) (_test_results w) (Finished r)]> (gthreads s))
      | Finished _ => s
      end
  end.

Definition run (sched : list nat) (s : State) : State :=
  fold_left (fun s t => step t s) sched s.

(** Two tests built on one context, about to compile. *)
Definition two_callers (ctx : Context) (e : E) : State :=
  mkState e None []
    [ mkThread (__init__ ctx) None Waiting; mkThread (__init__ ctx) None Waiting ].

Definition is_finished (th : thread) : bool :=
  match t_pc th with Finished _ => true | _ => false end.

(** Between acquiring the lock and giving it back. *)
Definition in_critical (th : thread) : bool :=
  match t_pc th with Holding | Releasing _ => true | _ => false end.

(** The lock is held by exactly the callers inside the block. *)
Definition lock_owned (s : State) : Prop :=
  forall t th, gthreads s !! t = Some th ->
    (in_critical th = true <-> glock s = Some t).

(** A computation that only appends to the trace and never reads it. *)
Definition framed {A} (c : M World A) : Prop :=
  forall e r t0 t,
    c (mkWorld e r (t0 ++ t))
    = ((c (mkWorld e r t)).1,
       mkWorld (env (c (mkWorld e r t)).2) (_test_results (c (mkWorld e r t)).2)
               (t0 ++ trace (c (mkWorld e r t)).2)).

(** One caller alone, about to compile. *)
Definition one_caller (self : ExternExpectedOutput) (results : option pyval) (e : E)
  : State :=
  mkState e None [] [mkThread self results Waiting].

(** No build or generation has been started, and every caller is an
    object made by [__init__] on [ctx]. *)
Definition quiet (ctx : Context) (s : State) : Prop :=
  invocations (map snd (gtrace s)) = 0%nat /\
  Forall (fun th => t_self th = __init__ ctx) (gthreads s).

End Methods.

(** ** A sample platform: the names of the applets in the project and the
    files on disk; [dx build] adds an applet, [dxni] writes its output. *)
Record Remote : Type := mkRemote {
  applets : list string;
  files : list string
}.

Definition sample_stat (p : pyval) (r : Remote) : bool :=
  match p with
  | PStr s => bool_decide (s ∈ files r)
  | _ => false
  end.

Definition sample_find (name folder project : string) (r : Remote)
  : res (list pyval) * Remote :=
  (Ok (if existsb (fun a => endswith a ("/" +:+ name)) (applets r)
       then [PStr name] else []), r).

(** The search is interrupted from the keyboard. *)
Definition interrupted_find (name folder project : string) (r : Remote)
  : res (list pyval) * Remote :=
  (Raise KeyboardInterrupt, r).

Definition sample_program (args : list string) (r : Remote) : res string * Remote :=
  match args with
  | prog :: sub :: src :: _ =>
      if String.eqb prog "dx" then (Ok "", mkRemote (applets r ++ [src]) (files r))
      else (Ok "", mkRemote (applets r) (files r ++ [default "" (last args)]))
  | _ => (Raise (OSError "[Errno 2] No such file or directory"), r)
  end.

Definition sample_parent (self : ExternExpectedOutput) (results : option pyval)
    (r : Remote) : res string * (option pyval * Remote) :=
  (Ok "applet-xxxx", (results, r)).

Definition sample_context : Context := mkContext "/repo" "2.11.0" "/builds" "project-1".

Definition fresh_remote : Remote := mkRemote [] [].

(** A test object whose [_extern_path] is the path itself, not a tuple;
    [__init__] never builds it. *)
Definition with_plain_path : ExternExpectedOutput :=
  mkTest sample_context "/repo/dxCompiler-2.11.0.jar" "/builds/extern_applets"
    (PStr "/repo/dxcint/resources/extern_expected_output/dx_extern.wdl").

(** Number of [dxni] runs in a trace. *)
Definition is_generation (e : event) : bool :=
  match e with
  | EvCheckOutput (prog :: _) => String.eqb prog "java"
  | _ => false
  end.
Definition generations (t : list event) : nat := length (List.filter is_generation t).

End ExternExpectedOutput.

(* ===================================================================== *)
(** * Dependency.py: construction and linking                             *)
(* ===================================================================== *)
Module DependencyObject.
Import Dependency.

(** ** [pathlib.PurePosixPath] *)

(** [s.split("/")], with the piece read so far in [cur]. *)
Fixpoint split_from (cur s : string) : list string :=
  match s with
  | EmptyString => [cur]
  | String c s' =>
      if Ascii.eqb c "/"%char then cur :: split_from "" s'
      else split_from (cur +:+ String c EmptyString) s'
  end.

Fixpoint leading_slashes (s : string) : nat :=
  match s with
  | String c s' => if Ascii.eqb c "/"%char then S (leading_slashes s') else O
  | EmptyString => O
  end.

(** The root of a path: exactly two leading separators are kept, any
    other number collapses to one. *)
Definition path_root (raw : string) : string :=
  match leading_slashes raw with
  | O => ""
  | 2%nat => "//"
  | _ => "/"
  end.

(** The components of a path: empty pieces and [.] are dropped. *)
Definition path_parts (raw : string) : list string :=
  List.filter (fun c => negb (String.eqb c "") && negb (String.eqb c "."))
              (split_from "" raw).

(** [str(Path(raw))] *)
Definition path_str (p : PyPath) : string :=
  match p with
  | Path raw =>
      match path_root raw, path_parts raw with
      | EmptyString, [] => "."
      | root, parts => root +:+ String.concat "/" parts
      end
  end.

(** [Path(raw).name] *)
Definition path_name (p : PyPath) : string :=
  match p with
  | Path raw => default "" (last (path_parts raw))
  end.

(** The text of an [OSError] of a call on two paths: both are shown, each
    as [repr] shows it. *)
Definition two_path_error (what src dst : string) : exn :=
  OSError (what +:+ ": " +:+ repr_str src +:+ " -> " +:+ repr_str dst).

(** ** [os.link(src, dst)]

    The source is looked up first, then the directory of the new name,
    then the new name itself; a directory cannot be hard-linked. *)
Definition os_link (src dst : string) : M World unit :=
  fun w =>
    match fs w !! src with
    | None => (Raise (two_path_error "[Errno 2] No such file or directory" src dst), w)
    | Some n =>
        match match last (ancestors dst) with
              | Some d => fs w !! d
              | None => Some Dir
              end with
        | None => (Raise (two_path_error "[Errno 2] No such file or directory" src dst), w)
        | Some (File _) => (Raise (two_path_error "[Errno 20] Not a directory" src dst), w)
        | Some Dir =>
            match fs w !! dst with
            | Some _ => (Raise (two_path_error "[Errno 17] File exists" src dst), w)
            | None =>
                match n with
                | Dir => (Raise (two_path_error "[Errno 1] Operation not permitted" src dst), w)
                | File c => (Ok tt, mkWorld (<[dst := File c]> (fs w)) (trace w) (stdout w))
                end
            end
        end
    end.

(** ** The object *)

(** A [Dependency] instance; the config values are whatever the JSON
    document holds under the keys read by [__init__]. *)
Record Instance : Type := mkInstance {
  _dependencies_root : string;
  _name : pyval;
  _languages : pyval;
  _version : pyval;
  _source_link : pyval;
  _package_manager : pyval;
  _local_dir : PyPath
}.

(** [Dependency.languages] *)
Definition languages (self : Instance) : pyval := _languages self.

Fixpoint first_non_str (items : list pyval) : option pyval :=
  match items with
  | [] => None
  | PStr _ :: rest => first_non_str rest
  | v :: _ => Some v
  end.

(** [os.path.join(a, *ps)] on arbitrary values: a component that is no
    string is a [TypeError]. *)
Definition join_args (a : string) (ps : list pyval) : res string :=
  match all_str ps with
  | Some l => Ok (os_path_join a l)
  | None =>
      Raise (TypeError ("join() argument must be str, bytes, or os.PathLike object, not '"
                        +:+ type_name (default PNone (first_non_str ps)) +:+ "'"))
  end.

Section Methods.

Variable run_process : list string -> gmap string node -> proc_outcome.

(** [subprocess.check_call(cmd)] on arbitrary values: an argument that
    is no string is rejected before any process is started. *)
Definition check_call_args (cmd : list pyval) : M World unit :=
  match all_str cmd with
  | Some l => sp_check_call run_process l
  | None =>
      raise (TypeError ("expected str, bytes or os.PathLike object, not "
                        +:+ type_name (default PNone (first_non_str cmd))))
  end.

(** [Dependency._get_exec], reading the attributes as [__init__] stored
    them. *)
Definition _get_exec (dependencies_root : string) (name version source_link : pyval)
  : M World PyPath :=
  dir <- lift (join_args dependencies_root [name; version; name]) ;;
  e <- os_path_exists dir ;;
  if e then ret (Path dir)
  else
    os_makedirs dir ;;;
    logging_info ("Downloading " +:+ py_str name +:+ " version " +:+ py_str version) ;;;
    try_except (check_call_args [PStr "wget"; source_link; PStr "-O"; PStr dir])
      (fun e => match e with
                | CalledProcessError _ _ out err =>
                    Some (print (str_opt out) ;;; print (str_opt err) ;;; raise e)
                | _ => None
                end) ;;;
    os_chmod dir 509 ;;;
    ret (Path dir).

(** [Dependency.__init__].  [dependencies_root] is the resolved directory
    two levels above the config file and [config] is the document
    [json.load] read from it. *)
Definition __init__ (dependencies_root : string) (config : pyval) : M World Instance :=
  name <- lift (py_get config "name") ;;
  languages <- lift (py_get config "langauges") ;;
  version <- lift (py_get config "version") ;;
  source_link <- lift (py_get config "source_link") ;;
  package_manager <- lift (py_get config "package_manager") ;;
  local_dir <- _get_exec dependencies_root name version source_link ;;
  ret (mkInstance dependencies_root name languages version source_link
                  package_manager local_dir).

End Methods.

(** [Dependency.link]; [symlink_destination] is the directory as a string. *)
Definition link (self : Instance) (symlink_destination : string) : M World PyPath :=
  let link_path := Path (os_path_join symlink_destination [path_name (_local_dir self)]) in
  os_link (path_str (_local_dir self)) (path_str link_path) ;;;
  ret link_path.

Definition is_str (v : pyval) : bool :=
  match v with
  | PStr _ => true
  | _ => false
  end.

(** What [config.get(key)] gives for a JSON object. *)
Definition config_get (kvs : list (string * pyval)) (key : string) : pyval :=
  default PNone (dict_get kvs key).

(** Where the link of [self] goes under [symlink_destination]. *)
Definition link_target (self : Instance) (symlink_destination : string) : string :=
  path_str (Path (os_path_join symlink_destination [path_name (_local_dir self)])).

(** The text of a regular file, empty when there is none. *)
Definition content (w : World) (p : string) : string :=
  match fs w !! p with
  | Some (File c) => c
  | _ => ""
  end.

(** [update_dot_env] called [n] times in a row. *)
Fixpoint update_n (n : nat) (self : Dependency) (home_dir : string) (w : World)
  : World :=
  match n with
  | O => w
  | S n' => update_n n' self home_dir (update_dot_env self home_dir w).2
  end.

(** The same line [n] times. *)
Fixpoint lines (n : nat) (line : string) : string :=
  match n with
  | O => ""
  | S n' => line +:+ lines n' line
  end.

(** ** Samples *)

(** A downloader that always writes its [-O] target. *)
Definition wget_overwrites (cmd : list string) (m : gmap string node) : proc_outcome :=
  match cmd with
  | [prog; url; flag; target] => Exited 0 (<[target := File ("payload of " +:+ url)]> m)
  | _ => SpawnError "[Errno 2] No such file or directory"
  end.

(** No downloader is installed. *)
Definition no_wget (cmd : list string) (m : gmap string node) : proc_outcome :=
  SpawnError "[Errno 2] No such file or directory: 'wget'".

Definition cromwell_config : pyval :=
  PDict [ ("name", PStr "cromwell"); ("langauges", PList [PStr "wdl"]);
          ("version", PStr "85");
          ("source_link", PStr "https://example.org/cromwell-85.jar") ].

Definition cromwell_installed : Instance :=
  mkInstance "/repo/dependencies" (PStr "cromwell") (PList [PStr "wdl"]) (PStr "85")
    (PStr "https://example.org/cromwell-85.jar") PNone
    (Path "/repo/dependencies/cromwell/85/cromwell").

(** The executable is in place and an asset directory waits for it. *)
Definition asset_world : World :=
  mkWorld (<["/asset/resources" := Dir]>
             (<["/repo/dependencies/cromwell/85/cromwell" := File "jar"]> ∅)) [] [].

(** A home directory of an asset, without a [.env] yet. *)
Definition home_world : World :=
  mkWorld (<["/asset/resources/home/dnanexus" := Dir]> ∅) [] [].

End DependencyObject.

(* ===================================================================== *)
(** * dxcint/dxcint/RegisteredTest.py                                     *)
(* ===================================================================== *)
Module RegisteredTest.

(** [os.path.basename(p)]: what follows the last separator. *)
Fixpoint os_path_basename (p : string) : string :=
  match p with
  | EmptyString => ""
  | String c p' =>
      if contains_char "/"%char p' then os_path_basename p'
      else if Ascii.eqb c "/"%char then p'
      else p
  end.

Record RegisteredTest : Type := mkRegisteredTest {
  _src_file : string;
  _category : string;
  _test_name : string;
  _language : string;
  _exec_id : pyval;
  _job_id : pyval;
  _project_id : pyval
}.

(** [RegisteredTest._resolve_project]: the body is [pass]. *)
Definition _resolve_project : pyval := PNone.

Section Init.

(** [dxcint.utils.rm_prefix] is defined elsewhere in dxcint. *)
Variable rm_prefix : string -> string -> string.

(** [RegisteredTest.__init__] *)
Definition __init__ (src_file category test_name : string) : RegisteredTest :=
  {| _src_file := src_file;
     _category := category;
     _test_name := test_name;
     _language := rm_prefix (os_path_basename src_file) test_name;
     _exec_id := PNone;
     _job_id := PNone;
     _project_id := _resolve_project |}.

End Init.

Definition category (self : RegisteredTest) : string := _category self.
Definition name (self : RegisteredTest) : string := _test_name self.
Definition language (self : RegisteredTest) : string := _language self.

End RegisteredTest.

(* ===================================================================== *)
(** * output_utils.py: the whole loop, and [write_output]                 *)
(* ===================================================================== *)
Module OutputWriter.
Import OutputUtils.

(** Neither a dict nor a non-empty list: stored as it is. *)
Definition plain (v : pyval) : bool :=
  match v with
  | PDict _ => false
  | PList (_ :: _) => false
  | _ => true
  end.

Definition no_full_list (v : pyval) : bool :=
  match v with
  | PList (_ :: _) => false
  | _ => true
  end.

Definition qualify (process_file : string) (kv : string * pyval) : string * pyval :=
  (process_file +:+ "." +:+ fst kv, snd kv).

Section Formatter.

Variable World : Type.
Variable run_cmd : string -> M World string.
Variable get_file_name : string -> pyval -> M World string.
Variable get_checksum : string -> M World pyval.
Variable getsize : string -> M World Z.

(** One entry per output, in order: a dict goes through
    [get_modified_output], anything else is kept. *)
Fixpoint format_all (process_file outdir : string) (outs : list (string * pyval))
  : M World (list (string * pyval)) :=
  match outs with
  | [] => ret []
  | (k, v) :: rest =>
      v' <- match v with
            | PDict _ =>
                get_modified_output World run_cmd get_file_name get_checksum getsize
                  v outdir
            | _ => ret v
            end ;;
      rest' <- format_all process_file outdir rest ;;
      ret ((process_file +:+ "." +:+ k, v') :: rest')
  end.

End Formatter.

(** [open(p, "w")]: a regular file is emptied at once, a missing one is
    made, empty; a directory, or a missing or non-directory parent, is an
    error that leaves everything as it was. *)
Definition open_w (p : string) : M Dependency.World unit :=
  fun w =>
    match Dependency.fs w !! p with
    | Some Dependency.Dir =>
        (Raise (OSError ("[Errno 21] Is a directory: " +:+ repr_str p)), w)
    | _ =>
        match match last (Dependency.ancestors p) with
              | Some d => Dependency.fs w !! d
              | None => Some Dependency.Dir
              end with
        | Some Dependency.Dir =>
            (Ok tt, Dependency.mkWorld (<[p := Dependency.File ""]> (Dependency.fs w))
                      (Dependency.trace w) (Dependency.stdout w))
        | Some (Dependency.File _) =>
            (Raise (OSError ("[Errno 20] Not a directory: " +:+ repr_str p)), w)
        | None =>
            (Raise (OSError ("[Errno 2] No such file or directory: " +:+ repr_str p)), w)
        end
    end.

Section Writer.

(** [json.dumps(results, indent=4)] *)
Variable json_dumps : pyval -> res string.

(** What the system does with the data once the file is open, and with
    the text given to [print]: [None] when all of it gets through,
    otherwise the exception (a full disk, a closed pipe) and what did get
    through before it. *)
Variable file_write : string -> string -> option (exn * string).
Variable stdout_write : string -> option (exn * list string).

(** [result_file.write(data)] and the closing of the [with] block. *)
Definition write_close (p data : string) : M Dependency.World unit :=
  fun w =>
    match file_write p data with
    | None =>
        (Ok tt, Dependency.mkWorld (<[p := Dependency.File data]> (Dependency.fs w))
                  (Dependency.trace w) (Dependency.stdout w))
    | Some (e, part) =>
        (Raise e, Dependency.mkWorld (<[p := Dependency.File part]> (Dependency.fs w))
                    (Dependency.trace w) (Dependency.stdout w))
    end.

(** [print(line)] *)
Definition print (line : string) : M Dependency.World unit :=
  fun w =>
    match stdout_write line with
    | None => Dependency.print line w
    | Some (e, out) =>
        (Raise e, Dependency.mkWorld (Dependency.fs w) (Dependency.trace w)
                    (Dependency.stdout w ++ out))
    end.

(** [write_output(file_name, results, print_output)] *)
Definition write_output (file_name : string) (results : list (string * pyval))
    (print_output : bool) : M Dependency.World unit :=
  js <- lift (json_dumps (PDict results)) ;;
  open_w file_name ;;;
  write_close file_name js ;;;
  if print_output then print js else ret tt.

End Writer.

(** Nothing goes wrong while writing or printing. *)
Definition writes_all (p data : string) : option (exn * string) := None.
Definition prints_all (line : string) : option (exn * list string) := None.

(** The disk is full: nothing of the data reaches the file. *)
Definition disk_full (p data : string) : option (exn * string) :=
  Some (OSError "[Errno 28] No space left on device", "").

(** A serialiser for the samples: sets cannot be serialised. *)
Definition sample_dumps (v : pyval) : res string :=
  match v with
  | PDict [(_, PSet _)] => Raise (TypeError "Object of type set is not JSON serializable")
  | _ => Ok (py_repr v)
  end.

Definition report_world : Dependency.World :=
  Dependency.mkWorld (<["out/result.json" := Dependency.File "stale"]>
                        (<["out" := Dependency.Dir]> ∅)) [] [].

End OutputWriter.

(* ===================================================================== *)
(** * ExternExpectedOutput.py: traces and any number of callers           *)
(* ===================================================================== *)
Module ExternSetup.
Import ExternExpectedOutput.

(** Events of the setup itself. *)
Definition is_setup_event (e : event) : bool :=
  match e with
  | EvLog _ | EvFind _ _ _ | EvCheckOutput _ => true
  | _ => false
  end.

Definition is_build (e : event) : bool :=
  match e with
  | EvCheckOutput (prog :: _) => String.eqb prog "dx"
  | _ => false
  end.

Section Methods.

Variable E : Type.

(** [c] only appends to the trace: events satisfying [P], at most [n] of
    them counted by [cnt]. *)
Definition appends {A} (P cnt : event -> bool) (n : nat) (c : M (World E) A) : Prop :=
  forall w, exists evs,
    trace E (c w).2 = trace E w ++ evs /\
    forallb P evs = true /\
    (length (List.filter cnt evs) <= n)%nat.

(** The command line of [native_call_dxni] when [_extern_path] is the
    string [p]. *)
Definition dxni_args (self : ExternExpectedOutput) (p : string) : list string :=
  [ "java"; "-jar"; _compiler_jar_path self; "dxni"; "-force"; "-folder";
    _applet_folder self; "-project"; project_id (context self);
    "-language"; "wdl_v1.0"; "-output"; p ].

(** Number of [dx build] runs in a trace. *)
Definition builds (t : list event) : nat := length (List.filter is_build t).

(** The five searches of [_native_call_setup]. *)
Definition searches (self : ExternExpectedOutput) : list event :=
  map (fun napl => EvFind napl (_applet_folder self) (project_id (context self)))
      native_applets.

(** Callers built on the given objects, all about to compile. *)
Definition callers (selfs : list ExternExpectedOutput) (e : E) : State E :=
  mkState E e None [] (map (fun self => mkThread self None Waiting) selfs).

End Methods.

(** The generated file is on disk. *)
Definition generated_remote : Remote :=
  mkRemote [] ["/repo/dxcint/resources/extern_expected_output/dx_extern.wdl"].

(** All five applets are in the project. *)
Definition stocked_remote : Remote :=
  mkRemote [ "/repo/dxcint/dependencies/applets/native_concat";
             "/repo/dxcint/dependencies/applets/native_diff";
             "/repo/dxcint/dependencies/applets/native_mk_list";
             "/repo/dxcint/dependencies/applets/native_sum";
             "/repo/dxcint/dependencies/applets/native_sum_012" ] [].

End ExternSetup.

(* ===================================================================== *)
(** * Facts about strings and paths                                       *)
(* ===================================================================== *)
Module PyFacts.

Lemma endswith_unfold (s suf : string) :
  endswith s suf =
  String.eqb s suf ||
  match s with
  | EmptyString => false
  | String _ s' => endswith s' suf
  end.
Proof. destruct s; reflexivity. Qed.

Lemma endswith_app (pre suf : string) : endswith (pre +:+ suf) suf = true.
Proof.
  induction pre as [|c pre IH].
  - change ("" +:+ suf) with suf.
    rewrite endswith_unfold, String.eqb_refl. reflexivity.
  - change (String c pre +:+ suf) with (String c (pre +:+ suf)).
    rewrite endswith_unfold, IH. apply orb_true_r.
Qed.

Lemma endswith_inv (s suf : string) :
  endswith s suf = true -> exists pre, s = pre +:+ suf.
Proof.
  induction s as [|c s IH]; rewrite endswith_unfold; intros H.
  - rewrite orb_false_r in H. apply String.eqb_eq in H. subst. by exists "".
  - apply orb_true_iff in H as [H|H].
    + apply String.eqb_eq in H. subst. by exists "".
    + destruct (IH H) as [pre ->]. by exists (String c pre).
Qed.

(** [endswith] decides "is a suffix of". *)
Lemma endswith_spec (s suf : string) :
  endswith s suf = true <-> exists pre, s = pre +:+ suf.
Proof.
  split; [apply endswith_inv|]. intros [pre ->]. apply endswith_app.
Qed.

Lemma bind_ok {S A B} (c : M S A) (k : A -> M S B) s a s' :
  c s = (Ok a, s') -> bind c k s = k a s'.
Proof. unfold bind. by intros ->. Qed.

Lemma bind_raise {S A B} (c : M S A) (k : A -> M S B) s e s' :
  c s = (Raise e, s') -> bind c k s = (Raise e, s').
Proof. unfold bind. by intros ->. Qed.

Lemma append_assoc (a b c : string) : (a +:+ b) +:+ c = a +:+ b +:+ c.
Proof.
  induction a as [|x a IH]; [done|].
  change (String x ((a +:+ b) +:+ c) = String x (a +:+ b +:+ c)). by rewrite IH.
Qed.

Lemma append_nil_r (a : string) : a +:+ "" = a.
Proof.
  induction a as [|x a IH]; [done|].
  change (String x (a +:+ "") = String x a). by rewrite IH.
Qed.

Lemma append_inj_l (p a b : string) : p +:+ a = p +:+ b -> a = b.
Proof. induction p as [|x p IH]; [done|]. cbn. intros [= H]. auto. Qed.

(** Whether a text ends with a separator is decided by its last,
    non-empty piece. *)
Lemma endswith_sep_app (a b : string) :
  b <> "" -> endswith (a +:+ b) "/" = endswith b "/".
Proof.
  intros Hb. induction a as [|c a IH]; [done|].
  change (String c a +:+ b) with (String c (a +:+ b)).
  rewrite endswith_unfold, IH.
  destruct (String.eqb_spec (String c (a +:+ b)) "/") as [Heq|]; [|done].
  injection Heq as _ Heq. destruct a; [|discriminate]. by destruct Hb.
Qed.

Lemma join_step_plain (path b : string) :
  path <> "" -> endswith path "/" = false -> startswith b "/" = false ->
  join_step path b = path +:+ "/" +:+ b.
Proof.
  intros Hp Hend Hb. unfold join_step. rewrite Hb, Hend.
  destruct (String.eqb_spec path ""); [done|done].
Qed.

Lemma dict_get_None {A} (d : list (string * A)) k :
  k ∉ dict_keys d -> dict_get d k = None.
Proof.
  induction d as [|[k' v] d IH]; [done|]. cbn. intros Hk.
  apply not_elem_of_cons in Hk as [Hne Hk].
  destruct (String.eqb_spec k' k); [congruence|auto].
Qed.

Lemma dict_get_Some_key {A} (d : list (string * A)) k v :
  dict_get d k = Some v -> k ∈ dict_keys d.
Proof.
  induction d as [|[k' v'] d IH]; [done|]. cbn.
  destruct (String.eqb_spec k' k) as [->|Hne]; intros H.
  - apply elem_of_cons. by left.
  - apply elem_of_cons. right. auto.
Qed.

End PyFacts.

(* ===================================================================== *)
(** * Dependency resolution                                               *)
(* ===================================================================== *)
Module DependencyFacts.
Import Dependency.

Lemma mkdir_each_preserves ps : forall (m m' : gmap string node),
  mkdir_each ps m = Ok m' ->
  forall q n, m !! q = Some n -> m' !! q = Some n.
Proof.
  induction ps as [|a rest IH]; intros m m' H q n Hq; simpl in H.
  - by inversion H; subst.
  - destruct (m !! a) as [[|c]|] eqn:Ha; try discriminate.
    + eauto.
    + apply (IH _ _ H). rewrite lookup_insert_ne; [done|congruence].
Qed.

Lemma mkdir_each_creates ps : forall (m m' : gmap string node),
  mkdir_each ps m = Ok m' ->
  forall q, q ∈ ps -> m' !! q = Some Dir.
Proof.
  induction ps as [|a rest IH]; intros m m' H q Hq; simpl in H.
  - by apply elem_of_nil in Hq.
  - apply elem_of_cons in Hq as [->|Hq].
    + destruct (m !! a) as [[|c]|] eqn:Ha; try discriminate.
      * by apply (mkdir_each_preserves _ _ _ H).
      * apply (mkdir_each_preserves _ _ _ H). by rewrite lookup_insert_eq.
    + destruct (m !! a) as [[|c]|] eqn:Ha; try discriminate; eauto.
Qed.

(** A successful [os.makedirs(p)] leaves a directory at [p] itself. *)
Lemma makedirs_leaf p w w' :
  os_makedirs p w = (Ok tt, w') ->
  fs w' !! p = Some Dir /\ trace w' = trace w ++ [EvMakedirs p] /\ stdout w' = stdout w.
Proof.
  unfold os_makedirs. destruct (mkdir_each _ _) as [m|e] eqn:Hm; [|discriminate].
  intros [= <-]. simpl. split; [|done].
  apply (mkdir_each_creates _ _ _ Hm). apply elem_of_app. right. by apply list_elem_of_singleton.
Qed.

Lemma makedirs_raise p w e w' :
  os_makedirs p w = (Raise e, w') -> w' = w.
Proof.
  unfold os_makedirs. destruct (mkdir_each _ _); [discriminate|]. by intros [= _ <-].
Qed.


(** The target is <root>/<name>/<version>/<name> whenever the root is a
    directory path without a trailing separator and neither the name nor
    the version starts or ends with a separator. *)
Lemma local_dependency_dir_layout self :
  _dependencies_root self <> "" ->
  endswith (_dependencies_root self) "/" = false ->
  _name self <> "" -> _version self <> "" ->
  startswith (_name self) "/" = false -> endswith (_name self) "/" = false ->
  startswith (_version self) "/" = false -> endswith (_version self) "/" = false ->
  local_dependency_dir self
  = _dependencies_root self +:+ "/" +:+ _name self +:+ "/" +:+ _version self
    +:+ "/" +:+ _name self.
Proof.
  intros Hr Hre Hn Hv Hns Hne Hvs Hve.
  unfold local_dependency_dir, os_path_join. cbn [fold_left].
  assert (Hnonempty : forall a b : string, a <> "" -> a +:+ b <> "")
    by (intros [|c a] b Ha; [done|discriminate]).
  rewrite (PyFacts.join_step_plain _ _ Hr Hre Hns).
  rewrite (PyFacts.join_step_plain _ (_version self)); [|by apply Hnonempty| |exact Hvs].
  2:{ rewrite (PyFacts.endswith_sep_app (_dependencies_root self)) by done.
      by rewrite (PyFacts.endswith_sep_app "/"). }
  rewrite (PyFacts.join_step_plain _ (_name self)); [| |  |exact Hns].
  - by rewrite !PyFacts.append_assoc.
  - by apply Hnonempty, Hnonempty.
  - rewrite !PyFacts.append_assoc.
    rewrite (PyFacts.endswith_sep_app (_dependencies_root self)) by done.
    rewrite (PyFacts.endswith_sep_app "/") by (by apply Hnonempty).
    rewrite (PyFacts.endswith_sep_app (_name self)) by done.
    by rewrite (PyFacts.endswith_sep_app "/").
Qed.

Section GetExec.

Variable run_process : list string -> gmap string node -> proc_outcome.

Abbreviation get_exec := (_get_exec run_process).

(** When the target exists, the method is a pure read. *)
Lemma get_exec_present self w :
  is_Some (fs w !! local_dependency_dir self) ->
  get_exec self w = (Ok (Path (local_dependency_dir self)), w).
Proof.
  intros H. unfold _get_exec, bind, os_path_exists.
  rewrite bool_decide_eq_true_2 by done. done.
Qed.

Lemma get_exec_absent self w r w' :
  fs w !! local_dependency_dir self = None ->
  get_exec self w = (r, w') ->
  absent_run run_process self w r w'.
Proof.
  intros Habs. unfold _get_exec, bind at 1, os_path_exists.
  rewrite Habs. rewrite bool_decide_eq_false_2 by (by intros [? ?]).
  unfold bind at 1.
  destruct (os_makedirs _ w) as [[[]|e] w1] eqn:Hmk.
  - destruct (makedirs_leaf _ _ _ Hmk) as (Hleaf & Htr & Hout).
    unfold bind at 1, logging_info, emit. unfold bind at 1, try_except, sp_check_call.
    cbn [fs trace stdout].
    destruct (run_process _ (fs w1)) as [rc m|msg] eqn:Hrun.
    + destruct (Z.eqb_spec rc 0) as [->|Hrc].
      * unfold bind, os_chmod, ret. cbn [fs trace stdout].
        rewrite Htr, Hout, <- !app_assoc. cbn [app].
        destruct (m !! local_dependency_dir self) eqn:Hm; intros [= <- <-].
        -- eapply run_download_ok; eauto.
        -- eapply run_chmod_fails; eauto.
      * unfold print, raise, bind. cbn [fs trace stdout fst snd].
        rewrite Htr, Hout, <- !app_assoc. cbn [app].
        intros [= <- <-]. eapply run_download_fails; eauto.
    + cbn [fst snd]. rewrite Htr, Hout, <- !app_assoc. cbn [app].
      intros [= <- <-]. eapply run_spawn_fails; eauto.
  - pose proof (makedirs_raise _ _ _ _ Hmk) as ->. intros [= <- <-]. by constructor.
Qed.

(** A download that exits non-zero: the exception of [check_call] is
    printed and re-raised, and the directory made for it stays. *)
Lemma get_exec_download_fails self w w_mk rc m :
  fs w !! local_dependency_dir self = None ->
  os_makedirs (local_dependency_dir self) w = (Ok tt, w_mk) ->
  run_process (download_cmd self) (fs w_mk) = Exited rc m ->
  rc <> 0 ->
  get_exec self w =
    (Raise (CalledProcessError rc (download_cmd self) None None),
     mkWorld m
       (trace w ++ [EvMakedirs (local_dependency_dir self);
                    EvLog ("Downloading " +:+ _name self +:+ " version " +:+ _version self);
                    EvExec (download_cmd self)])
       (stdout w ++ [str_opt None; str_opt None])).
Proof.
  intros Habs Hmk Hrun Hrc.
  destruct (get_exec self w) as [r w'] eqn:Hget.
  destruct (get_exec_absent _ _ _ _ Habs Hget)
    as [e H|w1 msg H Hr|w1 rc' m' H Hr Hne|w1 m' n H Hr _|w1 m' H Hr _];
    rewrite H in Hmk; try discriminate; injection Hmk as <-;
    rewrite Hr in Hrun; try discriminate; injection Hrun as <- <-; done.
Qed.

Lemma resolve_n_present self w n :
  is_Some (fs w !! local_dependency_dir self) ->
  resolve_n run_process n self w =
    (replicate n (Ok (Path (local_dependency_dir self))), w).
Proof.
  intros H. induction n as [|n IH]; [done|].
  cbn [resolve_n replicate]. rewrite (get_exec_present _ _ H), IH. done.
Qed.

(** C3 (as amended). When the target is absent and the download command
    exits non-zero, [_get_exec] prints the [stdout] and [stderr]
    attributes of the exception raised by [check_call] and re-raises that
    same [CalledProcessError]; it is not a [DependencyError]. *)
Theorem get_exec_reraises_process_error self w w_mk rc m r1 w1 :
  fs w !! local_dependency_dir self = None ->
  os_makedirs (local_dependency_dir self) w = (Ok tt, w_mk) ->
  run_process (download_cmd self) (fs w_mk) = Exited rc m ->
  rc <> 0 ->
  get_exec self w = (r1, w1) ->
  (exists out err,
     r1 = Raise (CalledProcessError rc (download_cmd self) out err) /\
     stdout w1 = stdout w ++ [str_opt out; str_opt err]) /\
  (forall msg, r1 <> Raise (DependencyError msg)).
Proof.
  intros Habs Hmk Hrun Hrc Hget.
  rewrite (get_exec_download_fails _ _ _ _ _ Habs Hmk Hrun Hrc) in Hget.
  injection Hget as <- <-. split; [|done].
  exists None, None. done.
Qed.

(** The downloader leaves its [-O] target in existence. *)
Hypothesis keeps_target : forall url p m rc m',
  is_Some (m !! p) ->
  run_process ["wget"; url; "-O"; p] m = Exited rc m' ->
  is_Some (m' !! p).


(** C9. When the target is absent, [_get_exec] makes a directory at the
    full target path before it runs the download; if the download then
    exits non-zero the call raises, the path is left behind, and every
    later resolve with the same configuration returns it at once, with no
    further command. *)
Theorem get_exec_not_atomic self w w_mk rc m r1 w1 :
  fs w !! local_dependency_dir self = None ->
  os_makedirs (local_dependency_dir self) w = (Ok tt, w_mk) ->
  run_process (download_cmd self) (fs w_mk) = Exited rc m ->
  rc <> 0 ->
  get_exec self w = (r1, w1) ->
  fs w_mk !! local_dependency_dir self = Some Dir /\
  trace w1 = trace w ++ [EvMakedirs (local_dependency_dir self);
                         EvLog ("Downloading " +:+ _name self +:+ " version " +:+ _version self);
                         EvExec (download_cmd self)] /\
  (exists e, r1 = Raise e) /\
  is_Some (fs w1 !! local_dependency_dir self) /\
  forall n, resolve_n run_process n self w1 =
              (replicate n (Ok (Path (local_dependency_dir self))), w1).
Proof.
  intros Habs Hmk Hrun Hrc Hget.
  rewrite (get_exec_download_fails _ _ _ _ _ Habs Hmk Hrun Hrc) in Hget.
  injection Hget as <- <-.
  destruct (makedirs_leaf _ _ _ Hmk) as (Hleaf & _).
  assert (Hm : is_Some (m !! local_dependency_dir self)).
  { eapply keeps_target; [|exact Hrun]. rewrite Hleaf; eauto. }
  repeat split; eauto. intros n. by apply resolve_n_present.
Qed.

End GetExec.

Lemma wget_sample_keeps_target url p (m : gmap string node) rc m' :
  is_Some (m !! p) ->
  wget_sample ["wget"; url; "-O"; p] m = Exited rc m' ->
  is_Some (m' !! p).
Proof.
  intros Hp. cbn. destruct (m !! p) as [[|c]|] eqn:E.
  - intros [= <- <-]. rewrite E. eauto.
  - intros [= <- <-]. rewrite lookup_insert_eq. eauto.
  - by destruct Hp.
Qed.


(** The run in which the sample download fails. *)
Lemma get_exec_not_atomic_witness :
  fs empty_world !! local_dependency_dir cromwell = None /\
  1 <> 0 /\
  forall n,
    resolve_n wget_sample n cromwell (_get_exec wget_sample cromwell empty_world).2
    = (replicate n (Ok (Path (local_dependency_dir cromwell))),
       (_get_exec wget_sample cromwell empty_world).2).
Proof.
  split; [by vm_compute|]. split; [lia|].
  eapply (get_exec_not_atomic wget_sample wget_sample_keeps_target cromwell
            empty_world
            (os_makedirs (local_dependency_dir cromwell) empty_world).2 1
            (fs (os_makedirs (local_dependency_dir cromwell) empty_world).2)).
  - by vm_compute.
  - by vm_compute.
  - by vm_compute.
  - lia.
  - apply surjective_pairing.
Defined.

Lemma get_exec_reraises_process_error_witness :
  fs empty_world !! local_dependency_dir cromwell = None /\
  1 <> 0 /\
  forall msg, (_get_exec wget_sample cromwell empty_world).1 <> Raise (DependencyError msg).
Proof.
  split; [by vm_compute|]. split; [lia|].
  eapply (get_exec_reraises_process_error wget_sample cromwell
            empty_world
            (os_makedirs (local_dependency_dir cromwell) empty_world).2 1
            (fs (os_makedirs (local_dependency_dir cromwell) empty_world).2)).
  - by vm_compute.
  - by vm_compute.
  - by vm_compute.
  - lia.
  - apply surjective_pairing.
Defined.


(** C3 as written fails: with the target absent and the download exiting
    with status 1, the exception that leaves [_get_exec] is the
    [CalledProcessError] of [check_call], not a [DependencyError]. *)
Lemma get_exec_no_DependencyError :
  fs empty_world !! local_dependency_dir cromwell = None /\
  (_get_exec wget_sample cromwell empty_world).1
    = Raise (CalledProcessError 1
               ["wget"; "https://example.org/cromwell-85.jar"; "-O";
                "/repo/dependencies/cromwell/85/cromwell"] None None) /\
  ~ exists msg,
      (_get_exec wget_sample cromwell empty_world).1 = Raise (DependencyError msg).
Proof.
  assert (H : (_get_exec wget_sample cromwell empty_world).1
    = Raise (CalledProcessError 1
               ["wget"; "https://example.org/cromwell-85.jar"; "-O";
                "/repo/dependencies/cromwell/85/cromwell"] None None))
    by (vm_compute; reflexivity).
  split; [by vm_compute|]. split; [exact H|].
  intros [msg Hmsg]. rewrite H in Hmsg. discriminate.
Qed.

(** C7. A home directory whose string form does not end with
    home/dnanexus is rejected with a [DependencyError] naming the path,
    and the world (file system, trace, output) is left as it was: nothing
    is written. *)
Theorem update_dot_env_rejects self (home_dir : string) w :
  (forall pre, home_dir <> pre +:+ "home/dnanexus") ->
  exists msg pre,
    update_dot_env self home_dir w = (Raise (DependencyError msg), w) /\
    msg = pre +:+ home_dir +:+ "`".
Proof.
  intros Hno. unfold update_dot_env.
  destruct (endswith home_dir "home/dnanexus") eqn:E.
  - apply PyFacts.endswith_spec in E as [pre ->]. by destruct (Hno pre).
  - cbn [negb].
    exists ("Dependency._update_dot_env(): provided home dir does not end with `home/dnanexus` - .env file will "
            +:+ "not have a desired effect on the platform. Provided path `" +:+ home_dir +:+ "`"),
           ("Dependency._update_dot_env(): provided home dir does not end with `home/dnanexus` - .env file will "
            +:+ "not have a desired effect on the platform. Provided path `").
    split; reflexivity.
Qed.

Lemma not_suffix_by_endswith (s suf : string) :
  endswith s suf = false -> forall pre, s <> pre +:+ suf.
Proof.
  intros E pre ->. by rewrite PyFacts.endswith_app in E.
Qed.

(** The empty string is rejected ... *)
Lemma update_dot_env_rejects_witness :
  (forall pre, "" <> pre +:+ "home/dnanexus") /\
  exists msg pre,
    update_dot_env cromwell "" empty_world = (Raise (DependencyError msg), empty_world) /\
    msg = pre +:+ "" +:+ "`".
Proof.
  assert (H : forall pre, "" <> pre +:+ "home/dnanexus")
    by (apply not_suffix_by_endswith; vm_compute; reflexivity).
  split; [exact H|]. exact (update_dot_env_rejects cromwell "" empty_world H).
Defined.

(** ... and so is a path that differs from an accepted one by a trailing
    separator only, while the accepted one is written to. *)
Example update_dot_env_trailing_separator :
  (exists msg,
     update_dot_env cromwell "/asset/resources/home/dnanexus/" empty_world
       = (Raise (DependencyError msg), empty_world)) /\
  update_dot_env cromwell "/asset/resources/home/dnanexus"
     (mkWorld (<["/asset/resources/home/dnanexus" := Dir]> ∅) [] [])
   = (Ok true,
      mkWorld (<["/asset/resources/home/dnanexus/.env" := File ("cromwell=85" +:+ nl)]>
                 (<["/asset/resources/home/dnanexus" := Dir]> ∅))
              [EvAppend "/asset/resources/home/dnanexus/.env" ("cromwell=85" +:+ nl)] []).
Proof.
  split; [eexists|]; vm_compute; reflexivity.
Qed.

End DependencyFacts.

(* ===================================================================== *)
(** * Test registration                                                   *)
(* ===================================================================== *)
Module RegisteredTestFactoryFacts.
Import RegisteredTestFactory.

Lemma occurs_in_refl a : occurs_in a a.
Proof.
  exists "", "". change ("" +:+ a +:+ "") with (a +:+ "").
  by rewrite PyFacts.append_nil_r.
Qed.

Lemma occurs_in_app_r a b pre : occurs_in a b -> occurs_in a (pre +:+ b).
Proof.
  intros (p & q & ->). exists (pre +:+ p), q. by rewrite PyFacts.append_assoc.
Qed.

Lemma occurs_in_app_l a b post : occurs_in a b -> occurs_in a (b +:+ post).
Proof.
  intros (p & q & ->). exists p, (q +:+ post).
  by rewrite !PyFacts.append_assoc.
Qed.

Lemma occurs_in_concat sep x (l : list string) :
  x ∈ l -> occurs_in x (String.concat sep l).
Proof.
  induction l as [|y l IH]; intros Hx; [by apply elem_of_nil in Hx|].
  apply elem_of_cons in Hx as [->|Hx].
  - destruct l as [|z l]; cbn; [apply occurs_in_refl|].
    apply occurs_in_app_l, occurs_in_refl.
  - destruct l as [|z l]; [by apply elem_of_nil in Hx|].
    change (String.concat sep (y :: z :: l))
      with (y +:+ sep +:+ String.concat sep (z :: l)).
    by apply occurs_in_app_r, occurs_in_app_r, IH.
Qed.

(** Every key is shown, quoted, in the rendering of [d.keys()]. *)
Lemma occurs_in_repr_dict_keys k (keys : list string) :
  k ∈ keys -> occurs_in (repr_str k) (repr_dict_keys keys).
Proof.
  intros Hk. unfold repr_dict_keys.
  apply occurs_in_app_r, occurs_in_app_l.
  cbn [py_repr]. apply occurs_in_app_r, occurs_in_app_l.
  apply occurs_in_concat. rewrite map_map. cbn [py_repr].
  apply list_elem_of_fmap. by exists k.
Qed.

Section Factory.

Variables (Context World Instance : Type).
Variable construct :
  test_class -> string -> string -> string -> Context -> M World Instance.

(** C4. For a category that is not a key of the switch, [register_test]
    raises a [RegisteredTestError] and leaves the world as it found it (no
    constructor runs, nothing remote is touched); the message shows the
    requested category and the whole list of valid categories, each of
    them quoted. *)
Theorem register_test_unknown_category src_file category test_name context w :
  category ∉ dict_keys test_type_switch ->
  exists msg,
    register_test Context World Instance construct
      src_file category test_name context w
    = (Raise (RegisteredTestError msg), w) /\
    occurs_in category msg /\
    occurs_in (repr_dict_keys (dict_keys test_type_switch)) msg /\
    forall k, k ∈ dict_keys test_type_switch -> occurs_in (repr_str k) msg.
Proof.
  intros Hk. unfold register_test. rewrite (PyFacts.dict_get_None _ _ Hk).
  eexists. split; [reflexivity|].
  assert (Hkeys : occurs_in (repr_dict_keys (dict_keys test_type_switch))
    ("RegisteredTestFactory.register_test(): Category " +:+ category
     +:+ " is not recognized. Existing categories "
     +:+ "are " +:+ repr_dict_keys (dict_keys test_type_switch)
     +:+ ". Add new category and new test implementation as a subclass of "
     +:+ "`RegisteredTest`.")).
  { do 4 apply occurs_in_app_r. apply occurs_in_app_l, occurs_in_refl. }
  split; [|split; [exact Hkeys|]].
  - apply occurs_in_app_r, occurs_in_app_l, occurs_in_refl.
  - intros k Hin. destruct Hkeys as (p & q & ->).
    apply occurs_in_app_r, occurs_in_app_l. by apply occurs_in_repr_dict_keys.
Qed.

End Factory.

Lemma register_test_unknown_category_witness :
  ("bogus" ∉ dict_keys test_type_switch) /\
  exists msg,
    register_test unit (list string) _ sample_construct
      "tests/t.wdl" "bogus" "t" tt []
    = (Raise (RegisteredTestError msg), []) /\
    occurs_in "bogus" msg.
Proof.
  assert (H : "bogus" ∉ dict_keys test_type_switch).
  { cbn. rewrite !not_elem_of_cons. repeat split; try discriminate.
    apply not_elem_of_nil. }
  split; [exact H|].
  destruct (register_test_unknown_category unit (list string) _ sample_construct
              "tests/t.wdl" "bogus" "t" tt [] H) as (msg & Hr & Hc & _).
  exists msg. split; [exact Hr|exact Hc].
Defined.

(** A known category does reach the constructor. *)
Example register_test_known :
  register_test unit (list string) _ sample_construct
    "tests/t.wdl" "expected_output" "t" tt []
  = (Ok (ExpectedOutput, "t"), ["t"]).
Proof. reflexivity. Qed.

End RegisteredTestFactoryFacts.

(* ===================================================================== *)
(** * The output formatter                                                *)
(* ===================================================================== *)
Module OutputUtilsFacts.
Import OutputUtils.

Section Formatter.

Variable World : Type.
Variable run_cmd : string -> M World string.
Variable json_loads : string -> res pyval.
Variable get_file_name : string -> pyval -> M World string.
Variable get_checksum : string -> M World pyval.
Variable getsize : string -> M World Z.

Abbreviation modified :=
  (get_modified_output World run_cmd get_file_name get_checksum getsize).
Abbreviation format :=
  (format_output World run_cmd get_file_name get_checksum getsize).
Abbreviation create :=
  (create_dx_output World run_cmd json_loads get_file_name get_checksum getsize).

(** The head of [create_dx_output]: describe, parse, look at the state. *)
Lemma create_unfold job_id process_file outdir w text w1 kvs :
  run_cmd ("dx describe " +:+ job_id +:+ " --json") w = (Ok text, w1) ->
  json_loads text = Ok (PDict kvs) ->
  create job_id process_file outdir w =
    if is_done (default PNone (dict_get kvs "state")) then
      if py_truthy (default PNone (dict_get kvs "output")) then
        (keys <- lift (py_iter (default PNone (dict_get kvs "output"))) ;;
         for_each keys
           (format process_file outdir (default PNone (dict_get kvs "output"))) [])
        w1
      else (Ok [], w1)
    else (Ok [], w1).
Proof.
  intros Hcmd Hjson. unfold create_dx_output, bind at 1. rewrite Hcmd.
  unfold bind at 1, lift at 1. rewrite Hjson. cbn [py_get].
  unfold bind at 1, lift at 1. unfold bind at 1, lift at 1.
  destruct (is_done _); [|done]. destruct (py_truthy _); done.
Qed.

(** C5. A job description whose state is not done gives the empty
    record, whatever its output field holds; nothing but the describe
    command has run. *)
Theorem create_dx_output_not_done job_id process_file outdir w text w1 kvs :
  run_cmd ("dx describe " +:+ job_id +:+ " --json") w = (Ok text, w1) ->
  json_loads text = Ok (PDict kvs) ->
  dict_get kvs "state" <> Some (PStr "done") ->
  create job_id process_file outdir w = (Ok [], w1).
Proof.
  intros Hcmd Hjson Hstate. rewrite (create_unfold _ _ _ _ _ _ _ Hcmd Hjson).
  destruct (dict_get kvs "state") as [[| | |s| | | |]|]; cbn; try done.
  destruct (String.eqb_spec s "done") as [->|]; [congruence|done].
Qed.

(** The per-file transform when every external call succeeds. *)
Lemma get_modified_output_ok k file_id more outdir w1 path w2 out w3 checksum w4 size w5 :
  get_file_name outdir file_id w1 = (Ok path, w2) ->
  run_cmd (download_command file_id path) w2 = (Ok out, w3) ->
  get_checksum path w3 = (Ok checksum, w4) ->
  getsize path w4 = (Ok size, w5) ->
  modified (PDict ((k, file_id) :: more)) outdir w1 =
    (Ok (PDict [ ("class", PStr "File");
                 ("checksum", PStr (py_str checksum));
                 ("location", PStr path);
                 ("size", PInt size) ]), w5).
Proof.
  intros Hname Hdl Hsum Hsize. unfold get_modified_output. cbn [first_value].
  unfold bind, lift, ret. rewrite Hname, Hdl, Hsum, Hsize. done.
Qed.

(** One round of the loop on a value that is neither a list nor a dict:
    it is copied under the qualified key. *)
Lemma format_scalar process_file outdir outputs results output v w :
  py_getitem outputs output = Ok v ->
  match v with PList _ | PDict _ => False | _ => True end ->
  format process_file outdir outputs results output w
  = (Ok (dict_set results (process_file +:+ "." +:+ py_str output) v), w).
Proof.
  intros Hget Hv. unfold format_output.
  rewrite (PyFacts.bind_ok _ _ w v w) by (unfold lift; by rewrite Hget).
  destruct v; try done.
Qed.

(** One round of the loop on a dict: the value is replaced by what
    [get_modified_output] makes of it. *)
Lemma format_dict process_file outdir outputs results output d w r w' :
  py_getitem outputs output = Ok (PDict d) ->
  modified (PDict d) outdir w = (r, w') ->
  format process_file outdir outputs results output w
  = (match r with
     | Ok m => Ok (dict_set results (process_file +:+ "." +:+ py_str output) m)
     | Raise e => Raise e
     end, w').
Proof.
  intros Hget Hmod. unfold format_output.
  rewrite (PyFacts.bind_ok _ _ w (PDict d) w) by (unfold lift; by rewrite Hget).
  rewrite (PyFacts.bind_ok _ _ w results w) by done.
  unfold bind. rewrite Hmod. by destruct r.
Qed.

(** C6. For a done job with outputs a = 5 and b = a file reference, the
    record maps <process>.a to 5 and <process>.b to the File descriptor
    whose location is the path chosen for the file, whose checksum is
    taken from that path after the download, and whose size is the size of
    the downloaded file. *)
Theorem create_dx_output_scalar_and_file
    job_id process_file outdir w text w1 kvs k file_id more
    path w2 out w3 checksum w4 size w5 :
  run_cmd ("dx describe " +:+ job_id +:+ " --json") w = (Ok text, w1) ->
  json_loads text = Ok (PDict kvs) ->
  dict_get kvs "state" = Some (PStr "done") ->
  dict_get kvs "output"
    = Some (PDict [("a", PInt 5); ("b", PDict ((k, file_id) :: more))]) ->
  get_file_name outdir file_id w1 = (Ok path, w2) ->
  run_cmd (download_command file_id path) w2 = (Ok out, w3) ->
  get_checksum path w3 = (Ok checksum, w4) ->
  getsize path w4 = (Ok size, w5) ->
  create job_id process_file outdir w =
    (Ok [ (process_file +:+ ".a", PInt 5);
          (process_file +:+ ".b",
           PDict [ ("class", PStr "File");
                   ("checksum", PStr (py_str checksum));
                   ("location", PStr path);
                   ("size", PInt size) ]) ], w5).
Proof.
  intros Hcmd Hjson Hstate Houtput Hname Hdl Hsum Hsize.
  rewrite (create_unfold _ _ _ _ _ _ _ Hcmd Hjson), Hstate, Houtput.
  change (is_done _) with true. cbv iota.
  cbn [default py_truthy py_iter map fst].
  rewrite (PyFacts.bind_ok _ _ w1 [PStr "a"; PStr "b"] w1) by done.
  cbn [for_each]. unfold id.
  erewrite PyFacts.bind_ok by (by apply format_scalar).
  pose proof (get_modified_output_ok k file_id more outdir _ _ _ _ _ _ _ _ _
                Hname Hdl Hsum Hsize) as Hmod.
  assert (Hb : py_getitem (PDict [("a", PInt 5); ("b", PDict ((k, file_id) :: more))])
                 (PStr "b") = Ok (PDict ((k, file_id) :: more))) by reflexivity.
  rewrite (PyFacts.bind_ok _ _ _ _ _
             (format_dict process_file outdir _ _ _ _ _ _ _ Hb Hmod)).
  unfold ret. cbn [dict_set py_str].
  assert (Hne : String.eqb (process_file +:+ "." +:+ "a") (process_file +:+ "." +:+ "b") = false).
  { apply String.eqb_neq. intros H. by apply PyFacts.append_inj_l in H. }
  rewrite Hne. done.
Qed.

(** One round of the loop on a non-empty list: the first iteration
    subscripts [outputs] with [outputs] itself, a dict, and raises before
    [get_modified_output] is reached. *)
Lemma format_list_raises process_file outdir outs results k x xs w :
  dict_get outs k = Some (PList (x :: xs)) ->
  format process_file outdir (PDict outs) results (PStr k) w
  = (Raise (TypeError "unhashable type: 'dict'"), w).
Proof.
  intros Hk. unfold format_output.
  rewrite (PyFacts.bind_ok _ _ w (PList (x :: xs)) w)
    by (unfold lift; cbn [py_getitem unhashable]; by rewrite Hk).
  apply PyFacts.bind_raise. cbn [enumerate imap for_each fst].
  apply PyFacts.bind_raise. by apply PyFacts.bind_raise.
Qed.

Lemma for_each_list_raises process_file outdir outs k x xs keys :
  dict_get outs k = Some (PList (x :: xs)) ->
  PStr k ∈ keys ->
  forall results w, exists e w',
    for_each keys (format process_file outdir (PDict outs)) results w
    = (Raise e, w').
Proof.
  intros Hk. induction keys as [|h keys IH]; intros Hin results w.
  - by apply elem_of_nil in Hin.
  - cbn [for_each]. unfold bind.
    destruct (format process_file outdir (PDict outs) results h w)
      as [[results'|e] w'] eqn:Hh; [|by eauto].
    apply elem_of_cons in Hin as [<-|Hin]; [|by apply IH].
    rewrite (format_list_raises _ _ _ _ _ _ _ _ Hk) in Hh. discriminate.
Qed.

(** C2, on the code. A done job with a non-empty list among its outputs
    never yields a record: the call ends in an exception, and when the list
    is the first output this is the [TypeError] of the first iteration,
    raised before any download. *)
Theorem create_dx_output_list_raises
    job_id process_file outdir w text w1 kvs outs k x xs :
  run_cmd ("dx describe " +:+ job_id +:+ " --json") w = (Ok text, w1) ->
  json_loads text = Ok (PDict kvs) ->
  dict_get kvs "state" = Some (PStr "done") ->
  dict_get kvs "output" = Some (PDict outs) ->
  dict_get outs k = Some (PList (x :: xs)) ->
  (exists e w', create job_id process_file outdir w = (Raise e, w')) /\
  (forall rest, outs = (k, PList (x :: xs)) :: rest ->
     create job_id process_file outdir w
     = (Raise (TypeError "unhashable type: 'dict'"), w1)).
Proof.
  intros Hcmd Hjson Hstate Houtput Hk.
  rewrite (create_unfold _ _ _ _ _ _ _ Hcmd Hjson), Hstate, Houtput.
  change (is_done _) with true. cbv iota.
  cbn [default py_truthy py_iter]. unfold id.
  destruct outs as [|[k0 v0] outs']; [discriminate|].
  rewrite (PyFacts.bind_ok _ _ w1 (map (fun kv => PStr kv.1) ((k0, v0) :: outs')) w1) by done.
  split.
  - apply (for_each_list_raises _ _ _ _ x xs _ Hk).
    pose proof (PyFacts.dict_get_Some_key _ _ _ Hk) as Hin.
    unfold dict_keys in Hin.
    apply list_elem_of_fmap in Hin as (kv & -> & Hin).
    apply list_elem_of_fmap. by exists kv.
  - intros rest [= -> -> ->]. cbn [py_truthy map fst for_each].
    apply PyFacts.bind_raise. apply (format_list_raises _ _ _ _ k x xs).
    cbn [dict_get]. by rewrite String.eqb_refl.
Qed.

End Formatter.

Lemma create_dx_output_not_done_witness :
  dict_get [("id", PStr "job-1"); ("state", PStr "failed");
            ("output", PDict [("a", PInt 5); ("b", file_ref "file-B")])] "state"
    <> Some (PStr "done") /\
  sample_create_dx_output
    (sample_description "failed" (PDict [("a", PInt 5); ("b", file_ref "file-B")]))
    "job-1" "proc" "out" sample_platform
  = (Ok [], described).
Proof.
  split; [by vm_compute|].
  apply (create_dx_output_not_done Platform sample_run_cmd
           (sample_json_loads
              (sample_description "failed"
                 (PDict [("a", PInt 5); ("b", file_ref "file-B")])))
           sample_get_file_name sample_get_checksum sample_getsize
           "job-1" "proc" "out" sample_platform sample_describe described
           [("id", PStr "job-1"); ("state", PStr "failed");
            ("output", PDict [("a", PInt 5); ("b", file_ref "file-B")])]).
  - by vm_compute.
  - by vm_compute.
  - by vm_compute.
Defined.

Lemma create_dx_output_scalar_and_file_witness :
  sample_create_dx_output
    (sample_description "done" (PDict [("a", PInt 5); ("b", file_ref "file-B")]))
    "job-1" "proc" "out" sample_platform
  = (Ok [ ("proc.a", PInt 5);
          ("proc.b",
           PDict [ ("class", PStr "File"); ("checksum", PStr "len$5");
                   ("location", PStr "out/b.txt"); ("size", PInt 5) ]) ],
     downloaded).
Proof.
  apply (create_dx_output_scalar_and_file Platform sample_run_cmd
           (sample_json_loads
              (sample_description "done"
                 (PDict [("a", PInt 5); ("b", file_ref "file-B")])))
           sample_get_file_name sample_get_checksum sample_getsize
           "job-1" "proc" "out" sample_platform sample_describe described
           [("id", PStr "job-1"); ("state", PStr "done");
            ("output", PDict [("a", PInt 5); ("b", file_ref "file-B")])]
           "$dnanexus_link" (PStr "file-B") []
           "out/b.txt" described "" downloaded (PStr "len$5") downloaded 5 downloaded);
    by vm_compute.
Defined.

Lemma create_dx_output_list_raises_witness :
  sample_create_dx_output
    (sample_description "done" (PDict [("x", PList [file_ref "file-B"])]))
    "job-1" "proc" "out" sample_platform
  = (Raise (TypeError "unhashable type: 'dict'"), described).
Proof.
  refine (proj2 (create_dx_output_list_raises Platform sample_run_cmd
           (sample_json_loads
              (sample_description "done" (PDict [("x", PList [file_ref "file-B"])])))
           sample_get_file_name sample_get_checksum sample_getsize
           "job-1" "proc" "out" sample_platform sample_describe described
           [("id", PStr "job-1"); ("state", PStr "done");
            ("output", PDict [("x", PList [file_ref "file-B"])])]
           [("x", PList [file_ref "file-B"])] "x" (file_ref "file-B") []
           eq_refl eq_refl eq_refl eq_refl eq_refl) [] eq_refl).
Defined.

(** On that input the transform the list branch is specified to apply
    goes through and yields one File descriptor. *)
Example map_modified_sample :
  map_modified Platform sample_run_cmd sample_get_file_name sample_get_checksum
    sample_getsize [file_ref "file-B"] "out" described
  = (Ok [ PDict [ ("class", PStr "File"); ("checksum", PStr "len$5");
                  ("location", PStr "out/b.txt"); ("size", PInt 5) ] ],
     downloaded).
Proof. by vm_compute. Qed.

(** An empty list is passed through unchanged. *)
Example create_dx_output_empty_list :
  sample_create_dx_output (sample_description "done" (PDict [("x", PList [])]))
    "job-1" "proc" "out" sample_platform
  = (Ok [("proc.x", PList [])], described).
Proof. by vm_compute. Qed.

End OutputUtilsFacts.

(* ===================================================================== *)
(** * The extern fixture of ExternExpectedOutput                          *)
(* ===================================================================== *)
Module ExternExpectedOutputFacts.
Import ExternExpectedOutput.

Section Methods.

Variable E : Type.
Variable stat_ok : pyval -> E -> bool.
Variable find_data_objects : string -> string -> string -> E -> res (list pyval) * E.
Variable run_program : list string -> E -> res string * E.
Variable parent_compile :
  ExternExpectedOutput -> option pyval -> E -> res string * (option pyval * E).

Abbreviation block := (setup_block E stat_ok find_data_objects run_program).
Abbreviation compile :=
  (_compile_executable E stat_ok find_data_objects run_program parent_compile).
Abbreviation super_compile := (super_compile_executable E parent_compile).
Abbreviation step_of := (step E stat_ok find_data_objects run_program parent_compile).
Abbreviation run_of := (run E stat_ok find_data_objects run_program parent_compile).

(** C8 (as amended). Whatever exception of class [Exception] leaves the
    lock-guarded
    setup block, [_compile_executable] does not propagate it: it records
    the failure in [_test_results] and its outcome is that of the
    inherited [_compile_executable], run in the state the failed setup
    left behind. *)
Theorem compile_executable_swallows self w e w1 :
  with_lock E (block self) w = (Raise e, w1) ->
  is_Exception e = true ->
  compile self w
  = super_compile self (mkWorld E (env E w1) (Some error_creating_extern) (trace E w1)).
Proof.
  intros Hblock Hexn. unfold _compile_executable at 1.
  unfold bind at 1, try_except. rewrite Hblock.
  unfold except_Exception. rewrite Hexn. done.
Qed.

(** When the block ends normally the inherited method runs as well. *)
Lemma compile_executable_setup_ok self w w1 :
  with_lock E (block self) w = (Ok tt, w1) ->
  compile self w = super_compile self w1.
Proof.
  intros Hblock. unfold _compile_executable at 1.
  unfold bind at 1, try_except. by rewrite Hblock.
Qed.

(** [except Exception] lets [KeyboardInterrupt] and [SystemExit] through. *)
Lemma compile_executable_base_exception self w e w1 :
  with_lock E (block self) w = (Raise e, w1) ->
  is_Exception e = false ->
  compile self w = (Raise e, w1).
Proof.
  intros Hblock Hexn. unfold _compile_executable at 1.
  unfold bind at 1, try_except. rewrite Hblock.
  unfold except_Exception. by rewrite Hexn.
Qed.

(** On an object made by [__init__] the existence test is applied to a
    tuple and raises; nothing else of the block runs. *)
Lemma setup_block_built ctx w :
  block (__init__ ctx) w
  = (Raise (TypeError "stat: path should be string, bytes, os.PathLike or integer, not tuple"), w).
Proof. reflexivity. Qed.

Lemma with_lock_built ctx w :
  with_lock E (block (__init__ ctx)) w
  = (Raise (TypeError "stat: path should be string, bytes, os.PathLike or integer, not tuple"),
     mkWorld E (env E w) (_test_results E w) (trace E w ++ [EvAcquire; EvRelease])).
Proof.
  unfold with_lock, bind, emit. rewrite setup_block_built. cbn.
  by rewrite <- app_assoc.
Qed.

(** So a single caller never starts a build or a generation. *)
Lemma compile_executable_built ctx w :
  compile (__init__ ctx) w
  = super_compile (__init__ ctx)
      (mkWorld E (env E w) (Some error_creating_extern)
         (trace E w ++ [EvAcquire; EvRelease])).
Proof.
  unfold _compile_executable at 1. unfold bind at 1, try_except.
  rewrite with_lock_built. reflexivity.
Qed.

(** *** The methods only append to the trace *)

Lemma framed_ret {A} (a : A) : framed E (ret a).
Proof. by intros e r t0 t. Qed.

Lemma framed_raise {A} (x : exn) : framed E (raise (A:=A) x).
Proof. by intros e r t0 t. Qed.

Lemma framed_lift {A} (x : res A) : framed E (lift x).
Proof. by intros e r t0 t. Qed.

Lemma framed_emit ev : framed E (emit E ev).
Proof. intros e r t0 t. unfold emit. cbn. by rewrite app_assoc. Qed.

Lemma framed_bind {A B} (c : M (World E) A) (k : A -> M (World E) B) :
  framed E c -> (forall a, framed E (k a)) -> framed E (bind c k).
Proof.
  intros Hc Hk e r t0 t. unfold bind. rewrite Hc.
  destruct (c (mkWorld E e r t)) as [[a|x] [e1 r1 t1]]; cbn [fst snd env _test_results trace].
  - apply Hk.
  - done.
Qed.

Lemma framed_for_each {A B} (xs : list A) (body : B -> A -> M (World E) B) :
  (forall acc x, framed E (body acc x)) ->
  forall acc, framed E (for_each xs body acc).
Proof.
  intros Hbody. induction xs as [|x xs IH]; intros acc; cbn [for_each].
  - apply framed_ret.
  - apply framed_bind; auto.
Qed.

Lemma framed_exists p : framed E (os_path_exists E stat_ok p).
Proof. intros e r t0 t. unfold os_path_exists. by destruct p. Qed.

Lemma framed_check_output cmd : framed E (sp_check_output E run_program cmd).
Proof.
  intros e r t0 t. unfold sp_check_output. destruct (all_str cmd); [|done].
  cbn [env]. destruct (run_program _ e). cbn. by rewrite app_assoc.
Qed.

Lemma framed_find name folder project :
  framed E (find_applets E find_data_objects name folder project).
Proof.
  intros e r t0 t. unfold find_applets. cbn [env].
  destruct (find_data_objects _ _ _ e). cbn. by rewrite app_assoc.
Qed.

Lemma framed_block self : framed E (block self).
Proof.
  unfold setup_block. apply framed_bind; [apply framed_exists|].
  intros present. destruct (negb present); [|apply framed_ret].
  apply framed_bind; [apply framed_emit|]. intros _.
  apply framed_bind; [|intros _; apply framed_emit].
  unfold _native_call_setup. apply framed_bind.
  - apply framed_for_each. intros [] napl.
    apply framed_bind; [apply framed_find|]. intros [|a l]; [|apply framed_ret].
    apply framed_bind; [apply framed_check_output|]. intros _. apply framed_ret.
  - intros _. unfold native_call_dxni.
    apply framed_bind; [apply framed_lift|]. intros line.
    apply framed_bind; [apply framed_emit|]. intros _.
    apply framed_bind; [apply framed_check_output|]. intros _. apply framed_ret.
Qed.

(** [with lock:] around the block, in terms of the block run on its own. *)
Lemma with_lock_block self e r :
  with_lock E (block self) (mkWorld E e r [])
  = ((block self (mkWorld E e r [])).1,
     mkWorld E (env E (block self (mkWorld E e r [])).2)
       (_test_results E (block self (mkWorld E e r [])).2)
       ([EvAcquire] ++ trace E (block self (mkWorld E e r [])).2 ++ [EvRelease])).
Proof.
  unfold with_lock, bind at 1, emit. cbn [env _test_results trace app].
  change [EvAcquire] with ([EvAcquire] ++ @nil event) at 1.
  rewrite (framed_block self e r [EvAcquire] []).
  destruct (block self (mkWorld E e r [])) as [x [e1 r1 t1]]. done.
Qed.

(** *** Callers side by side *)

Lemma invocations_app t1 t2 :
  invocations (t1 ++ t2) = (invocations t1 + invocations t2)%nat.
Proof. unfold invocations. by rewrite List.filter_app, length_app. Qed.

Lemma map_snd_tagged t evs : map snd (tagged t evs) = evs.
Proof. unfold tagged. rewrite map_map. cbn. apply map_id. Qed.

Lemma Forall_insert_self ctx (ths : list thread) t th :
  Forall (fun th => t_self th = __init__ ctx) ths ->
  t_self th = __init__ ctx ->
  Forall (fun th => t_self th = __init__ ctx) (<[t := th]> ths).
Proof. intros. by apply Forall_insert. Qed.

Lemma step_quiet ctx t s : quiet E ctx s -> quiet E ctx (step_of t s).
Proof.
  intros [Hinv Hself]. unfold step.
  destruct (gthreads E s !! t) as [th|] eqn:Hth; [|done].
  assert (Hth_self : t_self th = __init__ ctx)
    by (eapply Forall_lookup_1 in Hself; eauto).
  destruct (t_pc th) as [| |r| | |r] eqn:Hpc.
  - destruct (glock E s); [done|]. split; cbn [gtrace gthreads].
    + rewrite map_app, invocations_app, Hinv. done.
    + by apply Forall_insert_self.
  - rewrite Hth_self, setup_block_built. split; cbn [gtrace gthreads trace].
    + cbn. by rewrite app_nil_r.
    + by apply Forall_insert_self.
  - split; cbn [gtrace gthreads].
    + rewrite map_app, invocations_app, Hinv. done.
    + by apply Forall_insert_self.
  - split; cbn [gtrace gthreads]; [done|]. by apply Forall_insert_self.
  - unfold super_compile_executable. cbn [env _test_results trace].
    destruct (parent_compile _ _ _) as [r [results e']].
    split; cbn [gtrace gthreads trace].
    + rewrite map_app, invocations_app, map_snd_tagged, Hinv. done.
    + by apply Forall_insert_self.
  - done.
Qed.

Lemma run_quiet ctx sched :
  forall s, quiet E ctx s -> quiet E ctx (run_of sched s).
Proof.
  induction sched as [|t sched IH]; intros s Hs; [done|].
  cbn. apply IH. by apply step_quiet.
Qed.

Lemma lookup_insert_thread (ths : list thread) t th x t' th' :
  ths !! t = Some th ->
  <[t := x]> ths !! t' = Some th' ->
  (t' = t /\ th' = x) \/ (t' <> t /\ ths !! t' = Some th').
Proof.
  intros Ht Hlook. destruct (decide (t' = t)) as [->|Hne].
  - left. rewrite list_lookup_insert_eq in Hlook by (by eapply lookup_lt_Some).
    by injection Hlook as <-.
  - right. by rewrite list_lookup_insert_ne in Hlook.
Qed.

(** The lock discipline of [with self.context.lock]: a step keeps the
    lock with exactly the callers inside the block. *)
Lemma step_lock_owned t s : lock_owned E s -> lock_owned E (step_of t s).
Proof.
  intros Hown. unfold step.
  destruct (gthreads E s !! t) as [th|] eqn:Hth; [|done].
  pose proof (Hown t th Hth) as Hme.
  destruct (t_pc th) as [| |r| | |r] eqn:Hpc; unfold in_critical in Hme;
    rewrite Hpc in Hme.
  - destruct (glock E s) as [holder|] eqn:Hlock; [done|].
    intros t' th' Hlook. cbn [gthreads glock] in *.
    destruct (lookup_insert_thread _ _ _ _ _ _ Hth Hlook) as [[-> ->]|[Hne Hold]].
    + done.
    + pose proof (Hown t' th' Hold) as H'. rewrite Hlock in H'.
      split; [intros Hc; apply H' in Hc; discriminate|intros [= ?]; congruence].
  - destruct (block (t_self th) _) as [r w].
    intros t' th' Hlook. cbn [gthreads glock] in *.
    destruct (lookup_insert_thread _ _ _ _ _ _ Hth Hlook) as [[-> ->]|[Hne Hold]];
      [done|by apply Hown].
  - assert (Hlock : glock E s = Some t) by (by apply Hme).
    intros t' th' Hlook. cbn [gthreads glock] in *.
    destruct (lookup_insert_thread _ _ _ _ _ _ Hth Hlook) as [[-> ->]|[Hne Hold]].
    + unfold in_critical. cbn [t_pc].
      destruct r as [[]|e]; [|destruct (is_Exception e)]; split; discriminate.
    + pose proof (Hown t' th' Hold) as H'. rewrite Hlock in H'.
      split; [intros Hc; apply H' in Hc; congruence|discriminate].
  - intros t' th' Hlook. cbn [gthreads glock] in *.
    destruct (lookup_insert_thread _ _ _ _ _ _ Hth Hlook) as [[-> ->]|[Hne Hold]];
      [done|by apply Hown].
  - destruct (super_compile (t_self th) _) as [r w].
    intros t' th' Hlook. cbn [gthreads glock] in *.
    destruct (lookup_insert_thread _ _ _ _ _ _ Hth Hlook) as [[-> ->]|[Hne Hold]];
      [done|by apply Hown].
  - done.
Qed.

Lemma run_lock_owned sched :
  forall s, lock_owned E s -> lock_owned E (run_of sched s).
Proof.
  induction sched as [|t sched IH]; intros s Hs; [done|].
  cbn. apply IH. by apply step_lock_owned.
Qed.

(** The lock serialises the block: under every schedule, two callers are
    never inside it at the same time. *)
Lemma lock_excludes ctx e0 sched t1 t2 th1 th2 :
  gthreads E (run_of sched (two_callers E ctx e0)) !! t1 = Some th1 ->
  gthreads E (run_of sched (two_callers E ctx e0)) !! t2 = Some th2 ->
  in_critical th1 = true ->
  in_critical th2 = true ->
  t1 = t2.
Proof.
  intros H1 H2 Hc1 Hc2.
  assert (Hown : lock_owned E (run_of sched (two_callers E ctx e0))).
  { apply run_lock_owned. intros t th Hth. cbn [two_callers gthreads glock] in *.
    destruct t as [|[|t]]; cbn in Hth; try discriminate;
      injection Hth as <-; by split. }
  apply (Hown _ _ H1) in Hc1. apply (Hown _ _ H2) in Hc2. congruence.
Qed.

Lemma with_lock_block_eq self e r x w :
  block self (mkWorld E e r []) = (x, w) ->
  with_lock E (block self) (mkWorld E e r [])
  = (x, mkWorld E (env E w) (_test_results E w) ([EvAcquire] ++ trace E w ++ [EvRelease])).
Proof. intros H. rewrite with_lock_block, H. done. Qed.

(** The five moves of a caller that is alone. *)
Lemma step_acquire self r e tr :
  step_of 0%nat (mkState E e None tr [mkThread self r Waiting])
  = mkState E e (Some 0%nat) (tr ++ [(0%nat, EvAcquire)]) [mkThread self r Holding].
Proof. reflexivity. Qed.

Lemma step_block self r e l tr x w :
  block self (mkWorld E e r []) = (x, w) ->
  step_of 0%nat (mkState E e l tr [mkThread self r Holding])
  = mkState E (env E w) l (tr ++ tagged 0%nat (trace E w))
      [mkThread self (_test_results E w) (Releasing x)].
Proof. intros H. unfold step. cbn [gthreads lookup list_lookup t_pc t_self t_results genv]. by rewrite H. Qed.

Lemma step_release self r e l tr x :
  step_of 0%nat (mkState E e l tr [mkThread self r (Releasing x)])
  = mkState E e None (tr ++ [(0%nat, EvRelease)])
      [mkThread self r
         match x with
         | Ok _ => Compiling
         | Raise exc => if is_Exception exc then Handling else Finished (Raise exc)
         end].
Proof. reflexivity. Qed.

Lemma step_handle self r e l tr :
  step_of 0%nat (mkState E e l tr [mkThread self r Handling])
  = mkState E e l tr [mkThread self (Some error_creating_extern) Compiling].
Proof. reflexivity. Qed.

Lemma step_compile self r e l tr x w :
  super_compile self (mkWorld E e r []) = (x, w) ->
  step_of 0%nat (mkState E e l tr [mkThread self r Compiling])
  = mkState E (env E w) l (tr ++ tagged 0%nat (trace E w))
      [mkThread self (_test_results E w) (Finished x)].
Proof. intros H. unfold step. cbn [gthreads lookup list_lookup t_pc t_self t_results genv]. by rewrite H. Qed.

Lemma step_finished self r e l tr x :
  step_of 0%nat (mkState E e l tr [mkThread self r (Finished x)])
  = mkState E e l tr [mkThread self r (Finished x)].
Proof. reflexivity. Qed.

Lemma super_compile_trace self e r t :
  super_compile self (mkWorld E e r t)
  = ((super_compile self (mkWorld E e r [])).1,
     mkWorld E (env E (super_compile self (mkWorld E e r [])).2)
       (_test_results E (super_compile self (mkWorld E e r [])).2)
       (t ++ [EvSuperCompile])).
Proof.
  unfold super_compile_executable. cbn [env _test_results trace].
  by destruct (parent_compile self r e) as [x [results e']].
Qed.

Ltac same_trace :=
  f_equal; unfold tagged; cbn [app map];
  rewrite ?map_app; cbn [app map]; rewrite <- ?app_assoc; reflexivity.

(** The steps of one caller, taken alone, add up to the method. *)
Lemma one_caller_run self e0 res0 r w :
  compile self (mkWorld E e0 res0 []) = (r, w) ->
  run_of [0; 0; 0; 0; 0]%nat (one_caller E self res0 e0)
  = mkState E (env E w) None (tagged 0%nat (trace E w))
      [mkThread self (_test_results E w) (Finished r)].
Proof.
  unfold _compile_executable, bind, try_except.
  destruct (block self (mkWorld E e0 res0 [])) as [x [e1 r1 t1]] eqn:Hb.
  rewrite (with_lock_block_eq _ _ _ _ _ Hb). cbn [env _test_results trace].
  unfold run, one_caller. cbn [fold_left].
  rewrite step_acquire, (step_block _ _ _ _ _ _ _ Hb), step_release.
  cbn [env _test_results trace].
  destruct x as [[]|exc].
  - rewrite super_compile_trace.
    destruct (super_compile self (mkWorld E e1 r1 [])) as [x2 [e2 r2 t2]] eqn:Hs.
    rewrite (step_compile _ _ _ _ _ _ _ Hs), step_finished.
    cbn [fst snd env _test_results trace]. intros [= <- <-].
    cbn [env _test_results trace].
    rewrite (super_compile_trace self e1 r1 []) in Hs.
    injection Hs as _ _ _ <-.
    same_trace.
  - unfold except_Exception. destruct (is_Exception exc).
    + rewrite step_handle. cbn [env _test_results trace].
      rewrite super_compile_trace.
      destruct (super_compile self (mkWorld E e1 (Some error_creating_extern) []))
        as [x2 [e2 r2 t2]] eqn:Hs.
      rewrite (step_compile _ _ _ _ _ _ _ Hs).
      cbn [fst snd env _test_results trace]. intros [= <- <-].
      cbn [env _test_results trace].
      rewrite (super_compile_trace self e1 _ []) in Hs.
      injection Hs as _ _ _ <-.
      same_trace.
    + rewrite !step_finished. intros [= <- <-]. cbn [env _test_results trace].
      same_trace.
Qed.

(** C10, on the code.  Two callers built on one context: under every
    schedule no build and no generation is ever started, and under the
    schedule that lets the first caller run to its end and then the second
    both callers finish.  So the fixture is set up zero times, not once. *)
Theorem two_callers_never_invoke ctx e0 :
  (forall sched,
     invocations (map snd (gtrace E (run_of sched (two_callers E ctx e0)))) = 0%nat) /\
  (forall th,
     th ∈ gthreads E (run_of [0; 0; 0; 0; 0; 1; 1; 1; 1; 1]%nat (two_callers E ctx e0)) ->
     is_finished th = true).
Proof.
  split.
  - intros sched. apply (run_quiet ctx sched). split; [done|].
    repeat constructor.
  - intros th. unfold run, two_callers. cbn [fold_left].
    unfold step at 10. cbn [gthreads lookup list_lookup t_pc glock gtrace genv].
    unfold step at 9. cbn [gthreads lookup list_lookup t_pc glock gtrace genv insert list_insert t_self].
    rewrite setup_block_built.
    unfold step at 8. cbn [gthreads lookup list_lookup t_pc glock gtrace genv insert list_insert t_self t_results env _test_results trace is_Exception].
    unfold step at 7. cbn [gthreads lookup list_lookup t_pc glock gtrace genv insert list_insert t_self t_results].
    unfold step at 6. cbn [gthreads lookup list_lookup t_pc glock gtrace genv insert list_insert t_self t_results].
    unfold super_compile_executable at 1. cbn [env _test_results trace].
    destruct (parent_compile _ _ _) as [r0 [results0 e1]].
    cbn [gthreads lookup list_lookup t_pc glock gtrace genv insert list_insert t_self t_results env _test_results trace].
    unfold step at 5. cbn [gthreads lookup list_lookup t_pc glock gtrace genv insert list_insert t_self t_results].
    unfold step at 4. cbn [gthreads lookup list_lookup t_pc glock gtrace genv insert list_insert t_self t_results].
    rewrite setup_block_built.
    unfold step at 3. cbn [gthreads lookup list_lookup t_pc glock gtrace genv insert list_insert t_self t_results env _test_results trace is_Exception].
    unfold step at 2. cbn [gthreads lookup list_lookup t_pc glock gtrace genv insert list_insert t_self t_results].
    unfold step at 1. cbn [gthreads lookup list_lookup t_pc glock gtrace genv insert list_insert t_self t_results].
    unfold super_compile_executable at 1. cbn [env _test_results trace].
    destruct (parent_compile _ _ _) as [r1 [results1 e2]].
    cbn [gthreads insert list_insert].
    rewrite !elem_of_cons, elem_of_nil. intros [->|[->|[]]]; done.
Qed.

End Methods.

(** For comparison: were [_extern_path] the path itself, the same two
    callers on the sample platform would build the five applets and run
    [dxni] once, whichever caller gets the lock first. *)
Example plain_path_one_generation :
  let start :=
    mkState Remote fresh_remote None []
      [ mkThread with_plain_path None Waiting; mkThread with_plain_path None Waiting ] in
  let go sched :=
    run Remote sample_stat sample_find sample_program sample_parent sched start in
  (generations (map snd (gtrace Remote (go [0; 1; 0; 0; 1; 1; 0; 1; 1; 0]%nat))) = 1%nat /\
   invocations (map snd (gtrace Remote (go [0; 1; 0; 0; 1; 1; 0; 1; 1; 0]%nat))) = 6%nat /\
   forallb is_finished (gthreads Remote (go [0; 1; 0; 0; 1; 1; 0; 1; 1; 0]%nat)) = true) /\
  (generations (map snd (gtrace Remote (go [1; 1; 0; 1; 0; 0; 1; 0; 0]%nat))) = 1%nat /\
   forallb is_finished (gthreads Remote (go [1; 1; 0; 1; 0; 0; 1; 0; 0]%nat)) = true).
Proof. by vm_compute. Qed.

Lemma compile_executable_swallows_witness :
  is_Exception (TypeError "stat: path should be string, bytes, os.PathLike or integer, not tuple")
    = true /\
  _compile_executable Remote sample_stat sample_find sample_program sample_parent
    (__init__ sample_context) (mkWorld Remote fresh_remote None [])
  = (Ok "applet-xxxx",
     mkWorld Remote fresh_remote (Some error_creating_extern)
       [EvAcquire; EvRelease; EvSuperCompile]).
Proof.
  split; [reflexivity|].
  rewrite (compile_executable_swallows Remote sample_stat sample_find sample_program
             sample_parent (__init__ sample_context)
             (mkWorld Remote fresh_remote None [])
             (TypeError "stat: path should be string, bytes, os.PathLike or integer, not tuple")
             (mkWorld Remote fresh_remote None [EvAcquire; EvRelease])).
  - reflexivity.
  - reflexivity.
  - reflexivity.
Defined.

(** C8 as written fails: not every exception of the setup is caught.  An
    interrupt from the keyboard during the first search leaves the block,
    the lock is given back, [except Exception] does not match, and the
    interrupt leaves [_compile_executable]: the inherited compilation is
    not run and [_test_results] is not set. *)
Lemma compile_executable_interrupted :
  is_Exception KeyboardInterrupt = false /\
  _compile_executable Remote sample_stat interrupted_find sample_program sample_parent
    with_plain_path (mkWorld Remote fresh_remote None [])
  = (Raise KeyboardInterrupt,
     mkWorld Remote fresh_remote None
       [EvAcquire; EvLog "Creating dx_extern.wdl";
        EvFind "native_concat" "/builds/extern_applets" "project-1"; EvRelease]) /\
  EvSuperCompile ∉
    trace Remote
      (_compile_executable Remote sample_stat interrupted_find sample_program
         sample_parent with_plain_path (mkWorld Remote fresh_remote None [])).2.
Proof.
  assert (H : _compile_executable Remote sample_stat interrupted_find sample_program
                sample_parent with_plain_path (mkWorld Remote fresh_remote None [])
    = (Raise KeyboardInterrupt,
       mkWorld Remote fresh_remote None
         [EvAcquire; EvLog "Creating dx_extern.wdl";
          EvFind "native_concat" "/builds/extern_applets" "project-1"; EvRelease]))
    by (by vm_compute).
  split; [reflexivity|]. split; [exact H|]. rewrite H. cbn [snd trace].
  rewrite !not_elem_of_cons. repeat split; try discriminate. apply not_elem_of_nil.
Qed.

End ExternExpectedOutputFacts.

(* ===================================================================== *)
(** * Dependency: the remaining paths of resolution                       *)
(* ===================================================================== *)
Module DependencyMoreFacts.
Import Dependency.

Section GetExec.

Variable run_process : list string -> gmap string node -> proc_outcome.

Abbreviation get_exec := (_get_exec run_process).

(** X1. A fresh target whose download exits with status 0 and leaves the
    target in place: the method returns the path after exactly four
    effects, in this order: the directories are made, the download is
    logged, the one command [wget <source_link> -O <target>] is run, and
    the target is given mode 0o775. *)
Theorem get_exec_fresh_download self w w_mk m n :
  fs w !! local_dependency_dir self = None ->
  os_makedirs (local_dependency_dir self) w = (Ok tt, w_mk) ->
  run_process ["wget"; _source_link self; "-O"; local_dependency_dir self] (fs w_mk)
    = Exited 0 m ->
  m !! local_dependency_dir self = Some n ->
  get_exec self w =
    (Ok (Path (local_dependency_dir self)),
     mkWorld m
       (trace w ++ [EvMakedirs (local_dependency_dir self);
                    EvLog ("Downloading " +:+ _name self +:+ " version " +:+ _version self);
                    EvExec ["wget"; _source_link self; "-O"; local_dependency_dir self];
                    EvChmod (local_dependency_dir self) 509])
       (stdout w)).
Proof.
  intros Habs Hmk Hrun Hn.
  destruct (get_exec self w) as [r w'] eqn:Hget.
  change ["wget"; _source_link self; "-O"; local_dependency_dir self]
    with (download_cmd self) in *.
  destruct (DependencyFacts.get_exec_absent _ _ _ _ _ Habs Hget)
    as [e H|w1 msg H Hr|w1 rc' m' H Hr Hne|w1 m' n' H Hr _|w1 m' H Hr Hgone];
    rewrite H in Hmk; try discriminate; injection Hmk as <-;
    rewrite Hr in Hrun; try discriminate.
  - injection Hrun as -> <-. done.
  - by injection Hrun as <-.
  - injection Hrun as <-. congruence.
Qed.

(** X2. When the downloader cannot be started, the [OSError] of
    [check_call] is not the exception the [except] clause names: it
    leaves the method as it is, nothing is printed, no mode is set, and
    the directory made for the download stays behind. *)
Theorem get_exec_spawn_error self w w_mk msg :
  fs w !! local_dependency_dir self = None ->
  os_makedirs (local_dependency_dir self) w = (Ok tt, w_mk) ->
  run_process (download_cmd self) (fs w_mk) = SpawnError msg ->
  get_exec self w =
    (Raise (OSError msg),
     mkWorld (fs w_mk)
       (trace w ++ [EvMakedirs (local_dependency_dir self);
                    EvLog ("Downloading " +:+ _name self +:+ " version " +:+ _version self);
                    EvExec (download_cmd self)])
       (stdout w)) /\
  fs w_mk !! local_dependency_dir self = Some Dir.
Proof.
  intros Habs Hmk Hrun.
  destruct (DependencyFacts.makedirs_leaf _ _ _ Hmk) as (Hleaf & _).
  split; [|done].
  destruct (get_exec self w) as [r w'] eqn:Hget.
  destruct (DependencyFacts.get_exec_absent _ _ _ _ _ Habs Hget)
    as [e H|w1 msg' H Hr|w1 rc' m' H Hr Hne|w1 m' n' H Hr _|w1 m' H Hr Hgone];
    rewrite H in Hmk; try discriminate; injection Hmk as <-;
    rewrite Hr in Hrun; try discriminate. by injection Hrun as <-.
Qed.

Ltac only_download Hin :=
  repeat (apply elem_of_cons in Hin as [Hin|Hin];
          [try discriminate; by injection Hin as ->|]);
  by apply elem_of_nil in Hin.

(** X3. Whatever the downloader does: a call only appends to the trace,
    runs at most one command, and that command is
    [wget <source_link> -O <target>]; and whenever the call returns, it
    returns the target path and that path exists afterwards. *)
Theorem get_exec_postcondition self w :
  (exists evs,
     trace (get_exec self w).2 = trace w ++ evs /\
     (downloads evs <= 1)%nat /\
     forall cmd, EvExec cmd ∈ evs -> cmd = download_cmd self) /\
  (forall p, (get_exec self w).1 = Ok p ->
     p = Path (local_dependency_dir self) /\
     is_Some (fs (get_exec self w).2 !! local_dependency_dir self)).
Proof.
  destruct (fs w !! local_dependency_dir self) as [n|] eqn:Hdir.
  - rewrite DependencyFacts.get_exec_present by (rewrite Hdir; eauto).
    cbn [fst snd]. split.
    + exists []. rewrite app_nil_r. split; [done|]. split; [cbn; lia|].
      intros cmd Hin. by apply elem_of_nil in Hin.
    + intros p [= <-]. rewrite Hdir. eauto.
  - destruct (get_exec self w) as [r w'] eqn:Hget. cbn [fst snd].
    destruct (DependencyFacts.get_exec_absent _ _ _ _ _ Hdir Hget)
      as [e H|w1 msg H Hr|w1 rc' m' H Hr Hne|w1 m' n' H Hr Hn|w1 m' H Hr Hgone];
      cbn [trace fs].
    + split; [|done]. exists []. rewrite app_nil_r. split; [done|].
      split; [cbn; lia|]. intros cmd Hin. by apply elem_of_nil in Hin.
    + split; [|done]. eexists. split; [reflexivity|]. split; [cbn; lia|].
      intros cmd Hin. only_download Hin.
    + split; [|done]. eexists. split; [reflexivity|]. split; [cbn; lia|].
      intros cmd Hin. only_download Hin.
    + split.
      * eexists. split; [reflexivity|]. split; [cbn; lia|].
        intros cmd Hin. only_download Hin.
      * intros p [= <-]. rewrite Hn. eauto.
    + split; [|done]. eexists. split; [reflexivity|]. split; [cbn; lia|].
      intros cmd Hin. only_download Hin.
Qed.

End GetExec.

(** *** Paths *)

Lemma ancestors_from_no_sep acc f :
  contains_char "/"%char f = false -> ancestors_from acc f = [].
Proof.
  revert acc. induction f as [|c f IH]; intros acc Hf; [done|].
  cbn [contains_char] in Hf. apply orb_false_iff in Hf as [Hc Hf].
  cbn [ancestors_from]. rewrite Ascii.eqb_sym, Hc. cbn. auto.
Qed.

Lemma append_nonempty (a b : string) : a <> "" -> a +:+ b <> "".
Proof. destruct a; [done|discriminate]. Qed.

(** The directory of <d>/<f> is <d>. *)
Lemma last_ancestors_from acc d f :
  acc +:+ d <> "" ->
  contains_char "/"%char f = false ->
  last (ancestors_from acc (d +:+ "/" +:+ f)) = Some (acc +:+ d).
Proof.
  revert acc. induction d as [|c d IH]; intros acc Hne Hf.
  - rewrite PyFacts.append_nil_r in *.
    change ("" +:+ "/" +:+ f) with (String "/"%char f). cbn [ancestors_from].
    rewrite (ancestors_from_no_sep _ _ Hf). cbn.
    destruct (String.eqb_spec acc ""); [done|done].
  - change (String c d +:+ "/" +:+ f) with (String c (d +:+ "/" +:+ f)).
    cbn [ancestors_from].
    assert (Hrest : last (ancestors_from (acc +:+ String c "") (d +:+ "/" +:+ f))
                    = Some (acc +:+ String c d)).
    { rewrite IH; [|rewrite PyFacts.append_assoc; by destruct acc|done].
      by rewrite PyFacts.append_assoc. }
    destruct (_ && _); [|done].
    destruct (ancestors_from (acc +:+ String c "") (d +:+ "/" +:+ f)); [done|done].
Qed.

Lemma last_ancestors d f :
  d <> "" -> contains_char "/"%char f = false ->
  last (ancestors (d +:+ "/" +:+ f)) = Some d.
Proof. intros. by apply (last_ancestors_from "" d f). Qed.

Lemma append_neq_self (a b : string) : b <> "" -> a +:+ b <> a.
Proof.
  intros Hb. induction a as [|c a IH]; [done|].
  change (String c a +:+ b) with (String c (a +:+ b)). intros [= H]. auto.
Qed.

Lemma dot_env_file_path pre :
  os_path_join (pre +:+ "home/dnanexus") [".env"] = (pre +:+ "home/dnanexus") +:+ "/.env".
Proof.
  unfold os_path_join. cbn [fold_left].
  rewrite PyFacts.join_step_plain; [done| | |done].
  - intros H. destruct pre; discriminate.
  - by rewrite PyFacts.endswith_sep_app.
Qed.

(** *** [update_dot_env] on an accepted home directory *)

Lemma update_dot_env_ok self pre w :
  fs w !! (pre +:+ "home/dnanexus") = Some Dir ->
  fs w !! ((pre +:+ "home/dnanexus") +:+ "/.env") <> Some Dir ->
  update_dot_env self (pre +:+ "home/dnanexus") w =
    (Ok true,
     mkWorld
       (<[(pre +:+ "home/dnanexus") +:+ "/.env" :=
            File (DependencyObject.content w ((pre +:+ "home/dnanexus") +:+ "/.env")
                  +:+ _name self +:+ "=" +:+ _version self +:+ nl)]> (fs w))
       (trace w ++ [EvAppend ((pre +:+ "home/dnanexus") +:+ "/.env")
                             (_name self +:+ "=" +:+ _version self +:+ nl)])
       (stdout w)).
Proof.
  intros Hhome Henv. unfold update_dot_env.
  rewrite PyFacts.endswith_app. cbn [negb]. rewrite dot_env_file_path.
  unfold bind, open_append, DependencyObject.content.
  destruct (fs w !! ((pre +:+ "home/dnanexus") +:+ "/.env")) as [[|c]|] eqn:Hfile.
  - done.
  - done.
  - change ((pre +:+ "home/dnanexus") +:+ "/.env")
      with ((pre +:+ "home/dnanexus") +:+ "/" +:+ ".env").
    rewrite last_ancestors; [|by destruct pre|done].
    rewrite Hhome. done.
Qed.

(** X4. On a home directory that ends with home/dnanexus and exists,
    [update_dot_env] returns True and appends the line <name>=<version>
    to <home_dir>/.env, creating the file when it is missing; every other
    path is left as it was. *)
Theorem update_dot_env_appends self pre w :
  fs w !! (pre +:+ "home/dnanexus") = Some Dir ->
  fs w !! ((pre +:+ "home/dnanexus") +:+ "/.env") <> Some Dir ->
  (update_dot_env self (pre +:+ "home/dnanexus") w).1 = Ok true /\
  fs (update_dot_env self (pre +:+ "home/dnanexus") w).2
     !! ((pre +:+ "home/dnanexus") +:+ "/.env")
  = Some (File (DependencyObject.content w ((pre +:+ "home/dnanexus") +:+ "/.env")
                +:+ _name self +:+ "=" +:+ _version self +:+ nl)) /\
  forall q, q <> (pre +:+ "home/dnanexus") +:+ "/.env" ->
    fs (update_dot_env self (pre +:+ "home/dnanexus") w).2 !! q = fs w !! q.
Proof.
  intros Hhome Henv. rewrite (update_dot_env_ok _ _ _ Hhome Henv). cbn [fst snd fs].
  split; [done|]. split; [by rewrite lookup_insert_eq|].
  intros q Hq. by rewrite lookup_insert_ne.
Qed.

(** X5. [update_dot_env] is not idempotent: [n] calls in a row leave [n]
    more copies of the line in <home_dir>/.env, after what was there. *)
Theorem update_dot_env_repeated self pre n : forall w,
  fs w !! (pre +:+ "home/dnanexus") = Some Dir ->
  fs w !! ((pre +:+ "home/dnanexus") +:+ "/.env") <> Some Dir ->
  DependencyObject.content
    (DependencyObject.update_n n self (pre +:+ "home/dnanexus") w)
    ((pre +:+ "home/dnanexus") +:+ "/.env")
  = DependencyObject.content w ((pre +:+ "home/dnanexus") +:+ "/.env")
    +:+ DependencyObject.lines n (_name self +:+ "=" +:+ _version self +:+ nl).
Proof.
  induction n as [|n IH]; intros w Hhome Henv.
  - cbn. by rewrite PyFacts.append_nil_r.
  - cbn [DependencyObject.update_n DependencyObject.lines].
    rewrite (update_dot_env_ok _ _ _ Hhome Henv). cbn [snd].
    rewrite IH.
    + unfold DependencyObject.content at 1. cbn [fs].
      rewrite lookup_insert_eq. by rewrite !PyFacts.append_assoc.
    + cbn [fs]. rewrite lookup_insert_ne; [done|].
      by apply append_neq_self.
    + cbn [fs]. by rewrite lookup_insert_eq.
Qed.

Lemma update_dot_env_appends_witness :
  (update_dot_env cromwell "/asset/resources/home/dnanexus"
     DependencyObject.home_world).1 = Ok true /\
  fs (update_dot_env cromwell "/asset/resources/home/dnanexus"
        DependencyObject.home_world).2 !! "/asset/resources/home/dnanexus/.env"
  = Some (File ("cromwell=85" +:+ nl)).
Proof.
  destruct (update_dot_env_appends cromwell "/asset/resources/"
              DependencyObject.home_world) as (H1 & H2 & _).
  - by vm_compute.
  - by vm_compute.
  - split; [exact H1|exact H2].
Defined.

Lemma update_dot_env_repeated_witness :
  DependencyObject.content
    (DependencyObject.update_n 3 cromwell "/asset/resources/home/dnanexus"
       DependencyObject.home_world)
    "/asset/resources/home/dnanexus/.env"
  = "cromwell=85" +:+ nl +:+ "cromwell=85" +:+ nl +:+ "cromwell=85" +:+ nl.
Proof.
  exact (update_dot_env_repeated cromwell "/asset/resources/" 3
           DependencyObject.home_world
           ltac:(by vm_compute) ltac:(by vm_compute)).
Defined.

Lemma get_exec_fresh_download_witness :
  _get_exec DependencyObject.wget_overwrites cromwell empty_world =
    (Ok (Path "/repo/dependencies/cromwell/85/cromwell"),
     mkWorld
       (<["/repo/dependencies/cromwell/85/cromwell" :=
            File "payload of https://example.org/cromwell-85.jar"]>
          (fs (os_makedirs "/repo/dependencies/cromwell/85/cromwell" empty_world).2))
       [EvMakedirs "/repo/dependencies/cromwell/85/cromwell";
        EvLog "Downloading cromwell version 85";
        EvExec ["wget"; "https://example.org/cromwell-85.jar"; "-O";
                "/repo/dependencies/cromwell/85/cromwell"];
        EvChmod "/repo/dependencies/cromwell/85/cromwell" 509] []).
Proof.
  apply (get_exec_fresh_download DependencyObject.wget_overwrites cromwell empty_world
           (os_makedirs (local_dependency_dir cromwell) empty_world).2 _
           (File "payload of https://example.org/cromwell-85.jar")).
  - by vm_compute.
  - by vm_compute.
  - by vm_compute.
  - by vm_compute.
Defined.

Lemma get_exec_postcondition_witness :
  is_Some (fs (_get_exec DependencyObject.wget_overwrites cromwell empty_world).2
             !! "/repo/dependencies/cromwell/85/cromwell").
Proof.
  destruct (get_exec_postcondition DependencyObject.wget_overwrites cromwell empty_world)
    as [_ H].
  destruct (H (Path "/repo/dependencies/cromwell/85/cromwell")) as [_ H2];
    [by vm_compute|exact H2].
Defined.

Lemma get_exec_spawn_error_witness :
  (_get_exec DependencyObject.no_wget cromwell empty_world).1
  = Raise (OSError "[Errno 2] No such file or directory: 'wget'") /\
  stdout (_get_exec DependencyObject.no_wget cromwell empty_world).2 = [].
Proof.
  destruct (get_exec_spawn_error DependencyObject.no_wget cromwell empty_world
              (os_makedirs (local_dependency_dir cromwell) empty_world).2
              "[Errno 2] No such file or directory: 'wget'") as [H _].
  - by vm_compute.
  - by vm_compute.
  - reflexivity.
  - rewrite H. by split.
Defined.

End DependencyMoreFacts.

(* ===================================================================== *)
(** * Dependency: construction and linking                                *)
(* ===================================================================== *)
Module DependencyObjectFacts.
Import Dependency.

Abbreviation Instance := DependencyObject.Instance.
Abbreviation link := DependencyObject.link.
Abbreviation link_target := DependencyObject.link_target.
Abbreviation config_get := DependencyObject.config_get.

(** *** [link] *)

Lemma link_ok (self : Instance) dest w c :
  fs w !! DependencyObject.path_str (DependencyObject._local_dir self) = Some (File c) ->
  fs w !! link_target self dest = None ->
  match last (ancestors (link_target self dest)) with
  | Some d => fs w !! d = Some Dir
  | None => True
  end ->
  link self dest w =
    (Ok (Path (os_path_join dest
                 [DependencyObject.path_name (DependencyObject._local_dir self)])),
     mkWorld (<[link_target self dest := File c]> (fs w)) (trace w) (stdout w)).
Proof.
  intros Hsrc Hdst Hparent. unfold DependencyObject.link, bind, DependencyObject.os_link.
  fold (link_target self dest). rewrite Hsrc, Hdst.
  destruct (last (ancestors (link_target self dest))) as [d|]; [rewrite Hparent|]; done.
Qed.

(** X6. With the resolved executable a regular file and the destination
    directory in place without an entry of that name, [link] returns
    <destination>/<name of the executable> and afterwards that path holds
    the content of the executable; nothing else changes: no other path,
    no trace entry and no output. *)
Theorem link_creates (self : Instance) dest w c :
  fs w !! DependencyObject.path_str (DependencyObject._local_dir self) = Some (File c) ->
  fs w !! link_target self dest = None ->
  match last (ancestors (link_target self dest)) with
  | Some d => fs w !! d = Some Dir
  | None => True
  end ->
  (link self dest w).1
    = Ok (Path (os_path_join dest
                  [DependencyObject.path_name (DependencyObject._local_dir self)])) /\
  fs (link self dest w).2 !! link_target self dest = Some (File c) /\
  (forall q, q <> link_target self dest ->
     fs (link self dest w).2 !! q = fs w !! q) /\
  trace (link self dest w).2 = trace w /\
  stdout (link self dest w).2 = stdout w.
Proof.
  intros Hsrc Hdst Hparent. rewrite (link_ok _ _ _ _ Hsrc Hdst Hparent).
  cbn [fst snd fs trace stdout].
  split; [done|]. split; [by rewrite lookup_insert_eq|]. split; [|done].
  intros q Hq. by rewrite lookup_insert_ne.
Qed.

Lemma link_raise_unchanged (self : Instance) dest w e w' :
  link self dest w = (Raise e, w') -> w' = w.
Proof.
  unfold DependencyObject.link, bind, DependencyObject.os_link.
  fold (link_target self dest).
  destruct (fs w !! DependencyObject.path_str _) as [[|c]|];
    [destruct (last (ancestors (link_target self dest))) as [d|];
       [destruct (fs w !! d) as [[|c']|]|];
       destruct (fs w !! link_target self dest) ..|]; intros [= ]; done.
Qed.

Lemma link_ok_inv (self : Instance) dest w p w' :
  link self dest w = (Ok p, w') ->
  exists c,
    fs w !! DependencyObject.path_str (DependencyObject._local_dir self) = Some (File c) /\
    fs w !! link_target self dest = None /\
    match last (ancestors (link_target self dest)) with
    | Some d => fs w !! d = Some Dir
    | None => True
    end /\
    w' = mkWorld (<[link_target self dest := File c]> (fs w)) (trace w) (stdout w).
Proof.
  unfold DependencyObject.link, bind, DependencyObject.os_link.
  fold (link_target self dest).
  destruct (fs w !! DependencyObject.path_str _) as [[|c]|];
    [| |intros [= ]].
  - destruct (last (ancestors (link_target self dest))) as [d|];
      [destruct (fs w !! d) as [[|c']|]|];
      destruct (fs w !! link_target self dest); intros [= ].
  - destruct (last (ancestors (link_target self dest))) as [d|];
      [destruct (fs w !! d) as [[|c']|]|];
      destruct (fs w !! link_target self dest); intros [= ]; subst;
      exists c; done.
Qed.

Lemma link_exists (self : Instance) dest w n n' :
  fs w !! DependencyObject.path_str (DependencyObject._local_dir self) = Some n ->
  fs w !! link_target self dest = Some n' ->
  match last (ancestors (link_target self dest)) with
  | Some d => fs w !! d = Some Dir
  | None => True
  end ->
  link self dest w
  = (Raise (DependencyObject.two_path_error "[Errno 17] File exists"
              (DependencyObject.path_str (DependencyObject._local_dir self))
              (link_target self dest)), w).
Proof.
  intros Hsrc Hdst Hparent. unfold DependencyObject.link, bind, DependencyObject.os_link.
  fold (link_target self dest). rewrite Hsrc, Hdst.
  destruct (last (ancestors (link_target self dest))) as [d|]; [rewrite Hparent|]; done.
Qed.

(** X7. [link] changes nothing when it fails, and it is not idempotent:
    right after a successful [link], the same call raises the
    file-exists error of [os.link], whose text names the executable and
    the link, and changes nothing. *)
Theorem link_twice_fails (self : Instance) dest w :
  (forall e, (link self dest w).1 = Raise e -> (link self dest w).2 = w) /\
  (forall p, (link self dest w).1 = Ok p ->
     link self dest (link self dest w).2
     = (Raise (OSError
                 ("[Errno 17] File exists: "
                  +:+ repr_str (DependencyObject.path_str (DependencyObject._local_dir self))
                  +:+ " -> " +:+ repr_str (link_target self dest))),
        (link self dest w).2)).
Proof.
  destruct (link self dest w) as [r w'] eqn:Hlink. cbn [fst snd]. split.
  - intros e ->. by apply link_raise_unchanged in Hlink.
  - intros p ->. apply link_ok_inv in Hlink as (c & Hsrc & Hdst & Hparent & ->).
    assert (Hne : link_target self dest
                  <> DependencyObject.path_str (DependencyObject._local_dir self))
      by congruence.
    apply (link_exists _ _ _ (File c) (File c)); cbn [fs].
    + by rewrite lookup_insert_ne.
    + by rewrite lookup_insert_eq.
    + destruct (last (ancestors (link_target self dest))) as [d|]; [|done].
      rewrite lookup_insert_ne; [done|congruence].
Qed.

Lemma link_creates_witness :
  (link DependencyObject.cromwell_installed "/asset/resources"
     DependencyObject.asset_world).1
  = Ok (Path "/asset/resources/cromwell") /\
  fs (link DependencyObject.cromwell_installed "/asset/resources"
        DependencyObject.asset_world).2 !! "/asset/resources/cromwell"
  = Some (File "jar").
Proof.
  destruct (link_creates DependencyObject.cromwell_installed "/asset/resources"
              DependencyObject.asset_world "jar") as (H1 & H2 & _).
  - by vm_compute.
  - by vm_compute.
  - by vm_compute.
  - split; [exact H1|exact H2].
Defined.

Lemma link_twice_fails_witness :
  (link DependencyObject.cromwell_installed "/asset/resources"
     (link DependencyObject.cromwell_installed "/asset/resources"
        DependencyObject.asset_world).2).1
  = Raise (OSError
             "[Errno 17] File exists: '/repo/dependencies/cromwell/85/cromwell' -> '/asset/resources/cromwell'").
Proof.
  destruct (link_twice_fails DependencyObject.cromwell_installed "/asset/resources"
              DependencyObject.asset_world) as [_ H].
  rewrite (H (Path "/asset/resources/cromwell")); [reflexivity|by vm_compute].
Defined.

(** *** [__init__] *)

Section Init.

Variable run_process : list string -> gmap string node -> proc_outcome.

Abbreviation init := (DependencyObject.__init__ run_process).

(** With string attributes the method is the one studied above. *)
Lemma get_exec_strings root n v l langs pm w :
  DependencyObject._get_exec run_process root (PStr n) (PStr v) (PStr l) w
  = _get_exec run_process (mkDependency root n langs v l pm) w.
Proof. reflexivity. Qed.

(** X8. A config whose name or version is missing, or is no string,
    cannot be constructed: [__init__] raises the [TypeError] of
    [os.path.join] before anything is created or downloaded. *)
Theorem init_needs_name_and_version root kvs w :
  DependencyObject.is_str (config_get kvs "name")
  && DependencyObject.is_str (config_get kvs "version") = false ->
  exists msg, init root (PDict kvs) w = (Raise (TypeError msg), w).
Proof.
  intros Hbad. unfold DependencyObject.__init__. cbn [py_get].
  unfold bind at 1, lift at 1. unfold bind at 1, lift at 1.
  unfold bind at 1, lift at 1. unfold bind at 1, lift at 1.
  unfold bind at 1, lift at 1. unfold bind at 1.
  unfold DependencyObject._get_exec, bind at 1, lift at 1, DependencyObject.join_args.
  fold (config_get kvs "name") (config_get kvs "version").
  destruct (config_get kvs "name") as [| | |n| | | |]; cbn [all_str];
    try (eexists; reflexivity).
  destruct (config_get kvs "version") as [| | |v| | | |]; cbn [all_str];
    try (eexists; reflexivity).
  discriminate.
Qed.

(** X9. For a config with string name, version and source link,
    constructing the object is resolving it: the outcome is that of
    [_get_exec] on these values, an error of [_get_exec] aborts the
    construction, and on success the object keeps the values read,
    [languages] being what the document holds under the key langauges
    (None when the key is absent) and [_local_dir] the resolved path. *)
Theorem init_resolves root kvs n v l w :
  dict_get kvs "name" = Some (PStr n) ->
  dict_get kvs "version" = Some (PStr v) ->
  dict_get kvs "source_link" = Some (PStr l) ->
  init root (PDict kvs) w =
    match _get_exec run_process (mkDependency root n [] v l None) w with
    | (Ok p, w') =>
        (Ok (DependencyObject.mkInstance root (PStr n) (config_get kvs "langauges")
               (PStr v) (PStr l) (config_get kvs "package_manager") p), w')
    | (Raise e, w') => (Raise e, w')
    end.
Proof.
  intros Hn Hv Hl. unfold DependencyObject.__init__. cbn [py_get].
  rewrite Hn, Hv, Hl. cbn [default from_option id].
  unfold bind at 1, lift at 1. unfold bind at 1, lift at 1.
  unfold bind at 1, lift at 1. unfold bind at 1, lift at 1.
  unfold bind at 1, lift at 1. unfold bind at 1.
  rewrite (get_exec_strings root n v l [] None).
  by destruct (_get_exec _ _ w) as [[p|e] w'].
Qed.

(** X10. The source link is only looked at when a download is needed:
    if the executable is already in place, construction succeeds with any
    [source_link], even a missing one, and touches nothing. *)
Theorem init_present_ignores_source_link root kvs n v w :
  dict_get kvs "name" = Some (PStr n) ->
  dict_get kvs "version" = Some (PStr v) ->
  is_Some (fs w !! os_path_join root [n; v; n]) ->
  init root (PDict kvs) w =
    (Ok (DependencyObject.mkInstance root (PStr n) (config_get kvs "langauges")
           (PStr v) (config_get kvs "source_link") (config_get kvs "package_manager")
           (Path (os_path_join root [n; v; n]))), w).
Proof.
  intros Hn Hv Hdir. unfold DependencyObject.__init__. cbn [py_get].
  rewrite Hn, Hv. cbn [default from_option id].
  unfold bind at 1, lift at 1. unfold bind at 1, lift at 1.
  unfold bind at 1, lift at 1. unfold bind at 1, lift at 1.
  unfold bind at 1, lift at 1. unfold bind at 1.
  unfold DependencyObject._get_exec, bind at 1, lift at 1, DependencyObject.join_args.
  cbn [all_str]. unfold bind at 1, os_path_exists.
  rewrite bool_decide_eq_true_2 by done. done.
Qed.

End Init.

Lemma init_needs_name_and_version_witness :
  exists msg,
    DependencyObject.__init__ wget_sample "/repo/dependencies"
      (PDict [("name", PStr "cromwell")]) empty_world
    = (Raise (TypeError msg), empty_world).
Proof.
  apply (init_needs_name_and_version wget_sample "/repo/dependencies"
           [("name", PStr "cromwell")] empty_world).
  reflexivity.
Defined.

Lemma init_resolves_witness :
  DependencyObject.__init__ wget_sample "/repo/dependencies"
    DependencyObject.cromwell_config installed_world
  = (Ok DependencyObject.cromwell_installed, installed_world).
Proof.
  refine (eq_trans
            (init_resolves wget_sample "/repo/dependencies"
               [ ("name", PStr "cromwell"); ("langauges", PList [PStr "wdl"]);
                 ("version", PStr "85");
                 ("source_link", PStr "https://example.org/cromwell-85.jar") ]
               "cromwell" "85" "https://example.org/cromwell-85.jar" installed_world
               eq_refl eq_refl eq_refl) _).
  by vm_compute.
Defined.

(** A document that spells the key languages, and has no source link. *)
Lemma init_present_ignores_source_link_witness :
  DependencyObject.__init__ wget_sample "/repo/dependencies"
    (PDict [ ("name", PStr "cromwell"); ("languages", PList [PStr "wdl"]);
             ("version", PStr "85") ]) installed_world
  = (Ok (DependencyObject.mkInstance "/repo/dependencies" (PStr "cromwell") PNone
           (PStr "85") PNone PNone
           (Path "/repo/dependencies/cromwell/85/cromwell")), installed_world).
Proof.
  refine (eq_trans
            (init_present_ignores_source_link wget_sample "/repo/dependencies"
               [ ("name", PStr "cromwell"); ("languages", PList [PStr "wdl"]);
                 ("version", PStr "85") ]
               "cromwell" "85" installed_world eq_refl eq_refl _) _).
  - vm_compute. eauto.
  - reflexivity.
Defined.

End DependencyObjectFacts.

(* ===================================================================== *)
(** * RegisteredTest                                                      *)
(* ===================================================================== *)
Module RegisteredTestFacts.
Import RegisteredTest.

Lemma contains_char_app c (a b : string) :
  contains_char c (a +:+ String c b) = true.
Proof.
  induction a as [|x a IH].
  - change ("" +:+ String c b) with (String c b). cbn [contains_char].
    by rewrite Ascii.eqb_refl.
  - change (String x a +:+ String c b) with (String x (a +:+ String c b)).
    cbn [contains_char]. rewrite IH. apply orb_true_r.
Qed.

Lemma basename_no_sep f :
  contains_char "/"%char f = false -> os_path_basename f = f.
Proof.
  destruct f as [|c f]; [done|]. cbn [contains_char os_path_basename].
  intros H. apply orb_false_iff in H as [Hc Hf].
  rewrite Hf. rewrite Ascii.eqb_sym in Hc. by rewrite Hc.
Qed.

Lemma basename_app d f :
  contains_char "/"%char f = false ->
  os_path_basename (d +:+ "/" +:+ f) = f.
Proof.
  intros Hf. induction d as [|c d IH].
  - change ("" +:+ "/" +:+ f) with (String "/"%char f). cbn [os_path_basename].
    by rewrite Hf.
  - change (String c d +:+ "/" +:+ f) with (String c (d +:+ String "/"%char f)).
    cbn [os_path_basename]. rewrite contains_char_app. exact IH.
Qed.

Section Init.

Variable rm_prefix : string -> string -> string.

(** X11. The language of a test is derived from the base name of its
    source file and the test name only: the directory the file lies in
    does not matter.  A new test has no executable, job or project id. *)
Theorem init_language dir file category test_name :
  contains_char "/"%char file = false ->
  __init__ rm_prefix (dir +:+ "/" +:+ file) category test_name
  = mkRegisteredTest (dir +:+ "/" +:+ file) category test_name
      (rm_prefix file test_name) PNone PNone PNone /\
  language (__init__ rm_prefix (dir +:+ "/" +:+ file) category test_name)
  = language (__init__ rm_prefix file category test_name).
Proof.
  intros Hf. unfold __init__, language. cbn [_language].
  rewrite (basename_app _ _ Hf), (basename_no_sep _ Hf). done.
Qed.

End Init.

Lemma init_language_witness :
  language (__init__ (fun file test => String.substring (String.length test)
                                         (String.length file - String.length test)%nat file)
              "tests/wdl/hello.wdl" "expected_output" "hello")
  = ".wdl".
Proof.
  destruct (init_language
              (fun file test => String.substring (String.length test)
                                  (String.length file - String.length test)%nat file)
              "tests/wdl" "hello.wdl" "expected_output" "hello") as [_ H].
  - reflexivity.
  - exact (eq_trans H eq_refl).
Defined.

End RegisteredTestFacts.

(* ===================================================================== *)
(** * The output formatter: the loop as a whole, and [write_output]       *)
(* ===================================================================== *)
Module OutputWriterFacts.
Import OutputUtils OutputWriter.

Lemma dict_set_fresh {A} (d : list (string * A)) k v :
  k ∉ dict_keys d -> dict_set d k v = d ++ [(k, v)].
Proof.
  induction d as [|[k' v'] d IH]; [done|]. cbn. intros Hk.
  apply not_elem_of_cons in Hk as [Hne Hk].
  destruct (String.eqb_spec k' k); [congruence|]. by rewrite IH.
Qed.

Lemma dict_set_last {A} (d : list (string * A)) k x v :
  k ∉ dict_keys d -> dict_set (d ++ [(k, x)]) k v = d ++ [(k, v)].
Proof.
  induction d as [|[k' v'] d IH]; cbn.
  - intros _. by rewrite String.eqb_refl.
  - intros Hk. apply not_elem_of_cons in Hk as [Hne Hk].
    destruct (String.eqb_spec k' k); [congruence|]. by rewrite IH.
Qed.

(** In a dict with distinct keys every entry is found under its key. *)
Lemma dict_get_NoDup {A} (d : list (string * A)) k v :
  NoDup (dict_keys d) -> (k, v) ∈ d -> dict_get d k = Some v.
Proof.
  induction d as [|[k' v'] d IH]; intros Hnd Hin; [by apply elem_of_nil in Hin|].
  cbn in *. apply NoDup_cons in Hnd as [Hk' Hnd].
  apply elem_of_cons in Hin as [[= -> ->]|Hin].
  - by rewrite String.eqb_refl.
  - destruct (String.eqb_spec k' k) as [->|]; [|auto].
    destruct Hk'. apply list_elem_of_fmap. by exists (k, v).
Qed.

Lemma qualified_inj (process_file k1 k2 : string) :
  process_file +:+ "." +:+ k1 = process_file +:+ "." +:+ k2 -> k1 = k2.
Proof.
  intros H. apply PyFacts.append_inj_l in H.
  by apply (PyFacts.append_inj_l ".") in H.
Qed.

Section Formatter.

Variable World : Type.
Variable run_cmd : string -> M World string.
Variable json_loads : string -> res pyval.
Variable get_file_name : string -> pyval -> M World string.
Variable get_checksum : string -> M World pyval.
Variable getsize : string -> M World Z.

Abbreviation modified :=
  (get_modified_output World run_cmd get_file_name get_checksum getsize).
Abbreviation format :=
  (format_output World run_cmd get_file_name get_checksum getsize).
Abbreviation create :=
  (create_dx_output World run_cmd json_loads get_file_name get_checksum getsize).
Abbreviation all := (format_all World run_cmd get_file_name get_checksum getsize).

(** One round of the loop on a value that is no non-empty list, under a
    key that is new to the record. *)
Lemma format_step process_file outdir outs acc k v w :
  dict_get outs k = Some v ->
  no_full_list v = true ->
  process_file +:+ "." +:+ k ∉ dict_keys acc ->
  format process_file outdir (PDict outs) acc (PStr k) w =
    match v with
    | PDict _ =>
        match modified v outdir w with
        | (Ok m, w') => (Ok (acc ++ [(process_file +:+ "." +:+ k, m)]), w')
        | (Raise e, w') => (Raise e, w')
        end
    | _ => (Ok (acc ++ [(process_file +:+ "." +:+ k, v)]), w)
    end.
Proof.
  intros Hk Hv Hfresh.
  assert (Hget : py_getitem (PDict outs) (PStr k) = Ok v)
    by (cbn [py_getitem unhashable]; by rewrite Hk).
  destruct v as [| | | |l| | |d];
    try (rewrite (OutputUtilsFacts.format_scalar _ _ _ _ _ _ _ _ _ _ _ _ Hget I);
         cbn [py_str]; by rewrite dict_set_fresh).
  - destruct l as [|x l]; [|discriminate].
    unfold format_output. rewrite (PyFacts.bind_ok _ _ w (PList []) w)
      by (unfold lift; by rewrite Hget).
    cbn [enumerate imap for_each py_str]. unfold bind, ret.
    rewrite (dict_set_fresh acc) by done. by rewrite dict_set_last.
  - destruct (modified (PDict d) outdir w) as [r w'] eqn:Hmod.
    rewrite (OutputUtilsFacts.format_dict _ _ _ _ _ _ _ _ _ _ _ _ _ _ Hget Hmod).
    cbn [py_str]. destruct r; [by rewrite dict_set_fresh|done].
Qed.

(** The loop over a stretch of the outputs adds what [format_all] computes
    for that stretch. *)
Lemma loop_format_all process_file outdir outs : forall rest acc w,
  (forall k v, (k, v) ∈ rest -> dict_get outs k = Some v) ->
  NoDup (dict_keys rest) ->
  (forall k, k ∈ dict_keys rest -> process_file +:+ "." +:+ k ∉ dict_keys acc) ->
  forallb (fun kv => no_full_list (snd kv)) rest = true ->
  for_each (map (fun kv => PStr (fst kv)) rest)
    (format process_file outdir (PDict outs)) acc w =
    match all process_file outdir rest w with
    | (Ok l, w') => (Ok (acc ++ l), w')
    | (Raise e, w') => (Raise e, w')
    end.
Proof.
  induction rest as [|[k v] rest IH]; intros acc w Hin Hnd Hfresh Hok.
  - cbn. unfold ret. by rewrite app_nil_r.
  - cbn [map fst for_each format_all]. cbn [forallb snd] in Hok.
    apply andb_true_iff in Hok as [Hv Hok].
    cbn [dict_keys map fst] in Hnd. apply NoDup_cons in Hnd as [Hk Hnd].
    assert (Hstep := format_step process_file outdir outs acc k v w
                       (Hin k v ltac:(apply elem_of_cons; by left)) Hv
                       (Hfresh k ltac:(apply elem_of_cons; by left))).
    assert (Hnext : forall m w',
      for_each (map (fun kv => PStr (fst kv)) rest)
        (format process_file outdir (PDict outs))
        (acc ++ [(process_file +:+ "." +:+ k, m)]) w' =
      match all process_file outdir rest w' with
      | (Ok l, w'') => (Ok (acc ++ (process_file +:+ "." +:+ k, m) :: l), w'')
      | (Raise e, w'') => (Raise e, w'')
      end).
    { intros m w'. rewrite IH; [| |done| |done].
      - destruct (all process_file outdir rest w') as [[l|e] w'']; [|done].
        by rewrite <- app_assoc.
      - intros k' v' Hin'. apply Hin. apply elem_of_cons. by right.
      - intros k' Hk'. unfold dict_keys. rewrite map_app. cbn [map fst].
        intros Hbad. apply elem_of_app in Hbad as [Hbad|Hbad].
        + apply (Hfresh k'); [apply elem_of_cons; by right|done].
        + apply list_elem_of_singleton in Hbad. apply qualified_inj in Hbad.
          subst. done. }
    unfold bind at 1. rewrite Hstep. unfold bind at 1.
    destruct v as [| | | |l| | |d]; unfold ret at 1;
      try (rewrite Hnext; unfold bind, ret;
           destruct (all process_file outdir rest w) as [[l'|e] w'']; done).
    destruct (modified (PDict d) outdir w) as [[m|e] w']; [|done].
    rewrite Hnext. unfold bind, ret.
    destruct (all process_file outdir rest w') as [[l'|e] w'']; done.
Qed.

Lemma for_each_app {S A B} (xs ys : list A) (body : B -> A -> M S B) acc s :
  for_each (xs ++ ys) body acc s =
    match for_each xs body acc s with
    | (Ok acc', s') => for_each ys body acc' s'
    | (Raise e, s') => (Raise e, s')
    end.
Proof.
  revert acc s. induction xs as [|x xs IH]; intros acc s; [done|].
  cbn [app for_each]. unfold bind.
  destruct (body acc x s) as [[acc'|e] s']; [apply IH|done].
Qed.

Lemma format_all_plain process_file outdir outs w :
  forallb (fun kv => plain (snd kv)) outs = true ->
  all process_file outdir outs w = (Ok (map (qualify process_file) outs), w).
Proof.
  induction outs as [|[k v] outs IH]; [done|]. cbn [forallb snd].
  intros H. apply andb_true_iff in H as [Hv H].
  cbn [format_all map].
  destruct v as [| | | |[|x l]| | |d]; try discriminate;
    unfold bind, ret; by rewrite (IH H).
Qed.

Lemma format_all_keys process_file outdir outs : forall w l w',
  all process_file outdir outs w = (Ok l, w') ->
  dict_keys l = map (fun kv => process_file +:+ "." +:+ fst kv) outs.
Proof.
  induction outs as [|[k v] outs IH]; intros w l w'.
  - by intros [= <- <-].
  - cbn [format_all map fst]. unfold bind at 1.
    destruct ((match v with
               | PDict _ => modified v outdir
               | _ => ret v
               end) w) as [[v'|e] w1]; [|done].
    unfold bind.
    destruct (all process_file outdir outs w1) as [[l'|e] w2] eqn:Hrest; [|done].
    intros [= <- <-]. cbn. f_equal. eapply IH, Hrest.
Qed.

Lemma plain_no_full_list (outs : list (string * pyval)) :
  forallb (fun kv => plain (snd kv)) outs = true ->
  forallb (fun kv => no_full_list (snd kv)) outs = true.
Proof.
  intros H. apply forallb_forall. intros [k v] Hin.
  rewrite forallb_forall in H. specialize (H _ Hin). cbn in *.
  by destruct v as [| | | |[|x l]| | |d].
Qed.

(** A done job whose outputs hold no non-empty list: the record is what
    [format_all] computes after the describe command. *)
Lemma create_is_format_all job_id process_file outdir w text w1 kvs outs :
  run_cmd ("dx describe " +:+ job_id +:+ " --json") w = (Ok text, w1) ->
  json_loads text = Ok (PDict kvs) ->
  dict_get kvs "state" = Some (PStr "done") ->
  dict_get kvs "output" = Some (PDict outs) ->
  NoDup (dict_keys outs) ->
  forallb (fun kv => no_full_list (snd kv)) outs = true ->
  create job_id process_file outdir w = all process_file outdir outs w1.
Proof.
  intros Hcmd Hjson Hstate Houtput Hnd Hok.
  rewrite (OutputUtilsFacts.create_unfold _ _ _ _ _ _ _ _ _ _ _ _ _ Hcmd Hjson),
    Hstate, Houtput.
  change (is_done _) with true. cbv iota. cbn [default from_option]. unfold id.
  destruct outs as [|kv outs']; [done|].
  cbn [py_truthy py_iter].
  rewrite (PyFacts.bind_ok _ _ w1 (map (fun kv => PStr (fst kv)) (kv :: outs')) w1)
    by done.
  rewrite (loop_format_all process_file outdir (kv :: outs') (kv :: outs') [] w1);
    [| |done| |done].
  - by destruct (all process_file outdir (kv :: outs') w1) as [[l|e] w'].
  - intros k v Hin. by apply dict_get_NoDup.
  - intros k _ Hbad. by apply elem_of_nil in Hbad.
Qed.

(** X12. For a done job whose outputs (distinct keys) hold no non-empty
    list, [create_dx_output] is [format_all] run after the describe
    command: outputs are handled one by one in their order, a dict goes
    through [get_modified_output] and anything else is copied, the first
    exception ends the call; and a returned record has exactly one entry
    per output, under <process>.<key>, in the order of the outputs. *)
Theorem create_dx_output_refines job_id process_file outdir w text w1 kvs outs :
  run_cmd ("dx describe " +:+ job_id +:+ " --json") w = (Ok text, w1) ->
  json_loads text = Ok (PDict kvs) ->
  dict_get kvs "state" = Some (PStr "done") ->
  dict_get kvs "output" = Some (PDict outs) ->
  NoDup (dict_keys outs) ->
  forallb (fun kv => no_full_list (snd kv)) outs = true ->
  create job_id process_file outdir w = all process_file outdir outs w1 /\
  forall l w', create job_id process_file outdir w = (Ok l, w') ->
    dict_keys l = map (fun kv => process_file +:+ "." +:+ fst kv) outs.
Proof.
  intros Hcmd Hjson Hstate Houtput Hnd Hok.
  rewrite (create_is_format_all _ _ _ _ _ _ _ _ Hcmd Hjson Hstate Houtput Hnd Hok).
  split; [done|]. intros l w'. apply format_all_keys.
Qed.

(** X13. For a done job whose outputs are all plain (neither a dict nor a
    non-empty list), the record is the outputs themselves under their
    qualified keys, and nothing runs after the describe command: no
    download, no checksum. *)
Theorem create_dx_output_plain job_id process_file outdir w text w1 kvs outs :
  run_cmd ("dx describe " +:+ job_id +:+ " --json") w = (Ok text, w1) ->
  json_loads text = Ok (PDict kvs) ->
  dict_get kvs "state" = Some (PStr "done") ->
  dict_get kvs "output" = Some (PDict outs) ->
  NoDup (dict_keys outs) ->
  forallb (fun kv => plain (snd kv)) outs = true ->
  create job_id process_file outdir w = (Ok (map (qualify process_file) outs), w1).
Proof.
  intros Hcmd Hjson Hstate Houtput Hnd Hplain.
  rewrite (create_is_format_all _ _ _ _ _ _ _ _ Hcmd Hjson Hstate Houtput Hnd
             (plain_no_full_list _ Hplain)).
  by apply format_all_plain.
Qed.

(** X14. A done job without outputs (the field is missing, null, or an
    empty object) gives the empty record. *)
Theorem create_dx_output_no_outputs job_id process_file outdir w text w1 kvs :
  run_cmd ("dx describe " +:+ job_id +:+ " --json") w = (Ok text, w1) ->
  json_loads text = Ok (PDict kvs) ->
  dict_get kvs "state" = Some (PStr "done") ->
  py_truthy (default PNone (dict_get kvs "output")) = false ->
  create job_id process_file outdir w = (Ok [], w1).
Proof.
  intros Hcmd Hjson Hstate Hout.
  rewrite (OutputUtilsFacts.create_unfold _ _ _ _ _ _ _ _ _ _ _ _ _ Hcmd Hjson),
    Hstate, Hout. done.
Qed.

(** X15. An output whose value is an empty object ends the call with
    [StopIteration]: with plain outputs before it, that is the outcome,
    and nothing has run after the describe command. *)
Theorem create_dx_output_empty_object
    job_id process_file outdir w text w1 kvs pre k post :
  run_cmd ("dx describe " +:+ job_id +:+ " --json") w = (Ok text, w1) ->
  json_loads text = Ok (PDict kvs) ->
  dict_get kvs "state" = Some (PStr "done") ->
  dict_get kvs "output" = Some (PDict (pre ++ (k, PDict []) :: post)) ->
  NoDup (dict_keys (pre ++ (k, PDict []) :: post)) ->
  forallb (fun kv => plain (snd kv)) pre = true ->
  create job_id process_file outdir w = (Raise StopIteration, w1).
Proof.
  intros Hcmd Hjson Hstate Houtput Hnd Hplain.
  rewrite (OutputUtilsFacts.create_unfold _ _ _ _ _ _ _ _ _ _ _ _ _ Hcmd Hjson),
    Hstate, Houtput.
  change (is_done _) with true. cbv iota. cbn [default from_option]. unfold id.
  assert (Htruthy : py_truthy (PDict (pre ++ (k, PDict []) :: post)) = true)
    by (by destruct pre).
  rewrite Htruthy. cbn [py_iter].
  rewrite (PyFacts.bind_ok _ _ w1
             (map (fun kv => PStr (fst kv)) (pre ++ (k, PDict []) :: post)) w1) by done.
  rewrite map_app, for_each_app.
  assert (Hnd' := Hnd). unfold dict_keys in Hnd'. rewrite map_app in Hnd'.
  apply NoDup_app in Hnd' as (Hnd_pre & Hdisj & Hnd_post).
  rewrite (loop_format_all process_file outdir (pre ++ (k, PDict []) :: post) pre [] w1).
  - rewrite (format_all_plain _ _ _ _ Hplain). cbn [app map fst for_each].
    apply PyFacts.bind_raise.
    rewrite (format_step process_file outdir _ _ k (PDict []) w1); [done| |done|].
    + apply dict_get_NoDup; [done|]. apply elem_of_app. right.
      apply elem_of_cons. by left.
    + unfold dict_keys. rewrite map_map. cbn [qualify fst].
      intros Hbad. apply list_elem_of_fmap in Hbad as (kv & Heq & Hin).
      apply qualified_inj in Heq. apply (Hdisj k).
      * apply list_elem_of_fmap. exists kv. by split.
      * cbn [map fst]. apply elem_of_cons. by left.
  - intros k' v' Hin. apply dict_get_NoDup; [done|]. apply elem_of_app. by left.
  - exact Hnd_pre.
  - intros k' _ Hbad. by apply elem_of_nil in Hbad.
  - by apply plain_no_full_list.
Qed.

(** X16. When the describe command has run, a document that does not
    parse ends the call with the parser's exception, and a document that
    is no object (a list, a number, null) with the [AttributeError] of
    its missing [get]; in both cases nothing else has run. *)
Theorem create_dx_output_bad_description job_id process_file outdir w text w1 :
  run_cmd ("dx describe " +:+ job_id +:+ " --json") w = (Ok text, w1) ->
  (forall e, json_loads text = Raise e ->
     create job_id process_file outdir w = (Raise e, w1)) /\
  (forall d, json_loads text = Ok d ->
     match d with PDict _ => False | _ => True end ->
     create job_id process_file outdir w
     = (Raise (AttributeError ("'" +:+ type_name d +:+ "' object has no attribute 'get'")),
        w1)).
Proof.
  intros Hcmd. split.
  - intros e Hjson. unfold create_dx_output, bind at 1. rewrite Hcmd.
    unfold bind at 1, lift at 1. by rewrite Hjson.
  - intros d Hjson Hd. unfold create_dx_output, bind at 1. rewrite Hcmd.
    unfold bind at 1, lift at 1. rewrite Hjson.
    unfold bind at 1, lift at 1. by destruct d.
Qed.

End Formatter.

(** *** [write_output] *)

Section Writer.

Variable json_dumps : pyval -> res string.
Variable file_write : string -> string -> option (exn * string).
Variable stdout_write : string -> option (exn * list string).

Abbreviation write := (write_output json_dumps file_write stdout_write).

Lemma open_w_raise p w e w' : open_w p w = (Raise e, w') -> w' = w.
Proof.
  unfold open_w.
  destruct (Dependency.fs w !! p) as [[|c]|];
    [|destruct (last _) as [d|]; [destruct (Dependency.fs w !! d) as [[|c']|]|]..];
    by intros [= ].
Qed.

Lemma open_w_ok p w w' :
  open_w p w = (Ok tt, w') ->
  w' = Dependency.mkWorld (<[p := Dependency.File ""]> (Dependency.fs w))
         (Dependency.trace w) (Dependency.stdout w).
Proof.
  unfold open_w.
  destruct (Dependency.fs w !! p) as [[|c]|];
    [|destruct (last _) as [d|]; [destruct (Dependency.fs w !! d) as [[|c']|]|]..];
    by intros [= ].
Qed.

(** X17. [write_output] gives no protection against a partial write, and
    what a failed call leaves behind depends on where it failed.  If the
    record cannot be serialised or the file cannot be opened, nothing has
    changed: an existing report is intact and nothing is printed.  If
    writing fails once the file is open, the report holds only what got
    through, its old content is gone, and nothing is printed.  If only
    the printing fails, the report is complete. *)
Theorem write_output_failures file_name results print_output w e w' :
  write_output json_dumps file_write stdout_write file_name results print_output w
  = (Raise e, w') ->
  (json_dumps (PDict results) = Raise e /\ w' = w) \/
  exists js, json_dumps (PDict results) = Ok js /\
    ((open_w file_name w = (Raise e, w) /\ w' = w) \/
     (exists part,
        file_write file_name js = Some (e, part) /\
        Dependency.fs w' = <[file_name := Dependency.File part]> (Dependency.fs w) /\
        Dependency.stdout w' = Dependency.stdout w) \/
     (exists out,
        print_output = true /\ stdout_write js = Some (e, out) /\
        Dependency.fs w' = <[file_name := Dependency.File js]> (Dependency.fs w))).
Proof.
  unfold write_output, bind at 1, lift.
  destruct (json_dumps (PDict results)) as [js|e0]; [|intros [= <- <-]; by left].
  intros Hrun. right. exists js. split; [done|]. revert Hrun. unfold bind at 1.
  destruct (open_w file_name w) as [[[]|e1] w1] eqn:Hopen.
  - apply open_w_ok in Hopen as ->. unfold bind, write_close.
    cbn [Dependency.fs Dependency.trace Dependency.stdout].
    destruct (file_write file_name js) as [[e2 part]|] eqn:Hwrite.
    + intros [= <- <-]. right. left. exists part.
      cbn [Dependency.fs Dependency.stdout]. by rewrite insert_insert_eq.
    + destruct print_output; [|by intros [= ]]. unfold print.
      destruct (stdout_write js) as [[e3 out]|] eqn:Hprint; [|by intros [= ]].
      intros [= <- <-]. right. right. exists out.
      cbn [Dependency.fs]. by rewrite insert_insert_eq.
  - pose proof (open_w_raise _ _ _ _ Hopen) as ->. intros [= <- <-]. by left.
Qed.

(** X18. When the record serialises to [js], the file can be opened, and
    neither the writing nor (if asked for) the printing fails, the file
    holds exactly [js] afterwards, whatever it held before; no other path
    changes; and [js] is printed when [print_output] is set and nothing is
    printed otherwise. *)
Theorem write_output_writes file_name results print_output w js :
  json_dumps (PDict results) = Ok js ->
  Dependency.fs w !! file_name <> Some Dependency.Dir ->
  match last (Dependency.ancestors file_name) with
  | Some d => Dependency.fs w !! d = Some Dependency.Dir
  | None => True
  end ->
  file_write file_name js = None ->
  (print_output = true -> stdout_write js = None) ->
  write file_name results print_output w =
    (Ok tt,
     Dependency.mkWorld (<[file_name := Dependency.File js]> (Dependency.fs w))
       (Dependency.trace w)
       (Dependency.stdout w ++ if print_output then [js] else [])).
Proof.
  intros Hjs Hfile Hparent Hwrite Hprint. unfold write_output, bind at 1, lift.
  rewrite Hjs. unfold bind, open_w, write_close, print. rewrite Hwrite.
  destruct (Dependency.fs w !! file_name) as [[|c]|]; [done| |];
    (destruct (last _) as [d|]; [rewrite Hparent|]);
    destruct print_output; rewrite ?Hprint by done; cbn;
    by rewrite ?app_nil_r, insert_insert_eq.
Qed.

End Writer.

Ltac distinct_keys := apply (bool_decide_unpack _); by vm_compute.

Lemma create_dx_output_refines_witness :
  sample_create_dx_output
    (sample_description "done" (PDict [("a", PInt 5); ("b", file_ref "file-B")]))
    "job-1" "proc" "out" sample_platform
  = (Ok [ ("proc.a", PInt 5);
          ("proc.b",
           PDict [ ("class", PStr "File"); ("checksum", PStr "len$5");
                   ("location", PStr "out/b.txt"); ("size", PInt 5) ]) ],
     downloaded).
Proof.
  refine (eq_trans
    (proj1 (create_dx_output_refines Platform sample_run_cmd
       (sample_json_loads
          (sample_description "done" (PDict [("a", PInt 5); ("b", file_ref "file-B")])))
       sample_get_file_name sample_get_checksum sample_getsize
       "job-1" "proc" "out" sample_platform sample_describe described
       [("id", PStr "job-1"); ("state", PStr "done");
        ("output", PDict [("a", PInt 5); ("b", file_ref "file-B")])]
       [("a", PInt 5); ("b", file_ref "file-B")]
       eq_refl eq_refl eq_refl eq_refl ltac:(distinct_keys) eq_refl)) _).
  by vm_compute.
Defined.

Lemma create_dx_output_plain_witness :
  sample_create_dx_output
    (sample_description "done"
       (PDict [("a", PInt 5); ("n", PNone); ("e", PList []); ("s", PStr "x")]))
    "job-1" "proc" "out" sample_platform
  = (Ok [("proc.a", PInt 5); ("proc.n", PNone); ("proc.e", PList []);
         ("proc.s", PStr "x")], described).
Proof.
  exact (create_dx_output_plain Platform sample_run_cmd
       (sample_json_loads
          (sample_description "done"
             (PDict [("a", PInt 5); ("n", PNone); ("e", PList []); ("s", PStr "x")])))
       sample_get_file_name sample_get_checksum sample_getsize
       "job-1" "proc" "out" sample_platform sample_describe described
       [("id", PStr "job-1"); ("state", PStr "done");
        ("output", PDict [("a", PInt 5); ("n", PNone); ("e", PList []); ("s", PStr "x")])]
       [("a", PInt 5); ("n", PNone); ("e", PList []); ("s", PStr "x")]
       eq_refl eq_refl eq_refl eq_refl ltac:(distinct_keys) eq_refl).
Defined.

Lemma create_dx_output_no_outputs_witness :
  sample_create_dx_output (sample_description "done" PNone)
    "job-1" "proc" "out" sample_platform
  = (Ok [], described).
Proof.
  exact (create_dx_output_no_outputs Platform sample_run_cmd
       (sample_json_loads (sample_description "done" PNone))
       sample_get_file_name sample_get_checksum sample_getsize
       "job-1" "proc" "out" sample_platform sample_describe described
       [("id", PStr "job-1"); ("state", PStr "done"); ("output", PNone)]
       eq_refl eq_refl eq_refl eq_refl).
Defined.

Lemma create_dx_output_empty_object_witness :
  sample_create_dx_output
    (sample_description "done" (PDict [("a", PInt 5); ("e", PDict []); ("b", file_ref "file-B")]))
    "job-1" "proc" "out" sample_platform
  = (Raise StopIteration, described).
Proof.
  exact (create_dx_output_empty_object Platform sample_run_cmd
       (sample_json_loads
          (sample_description "done"
             (PDict [("a", PInt 5); ("e", PDict []); ("b", file_ref "file-B")])))
       sample_get_file_name sample_get_checksum sample_getsize
       "job-1" "proc" "out" sample_platform sample_describe described
       [("id", PStr "job-1"); ("state", PStr "done");
        ("output", PDict [("a", PInt 5); ("e", PDict []); ("b", file_ref "file-B")])]
       [("a", PInt 5)] "e" [("b", file_ref "file-B")]
       eq_refl eq_refl eq_refl eq_refl ltac:(distinct_keys) eq_refl).
Defined.

Lemma create_dx_output_bad_description_witness :
  sample_create_dx_output (PList [PInt 1]) "job-1" "proc" "out" sample_platform
  = (Raise (AttributeError "'list' object has no attribute 'get'"), described).
Proof.
  exact (proj2 (create_dx_output_bad_description Platform sample_run_cmd
       (sample_json_loads (PList [PInt 1]))
       sample_get_file_name sample_get_checksum sample_getsize
       "job-1" "proc" "out" sample_platform sample_describe described eq_refl)
       (PList [PInt 1]) eq_refl I).
Defined.

Lemma write_output_failures_witness :
  (sample_dumps (PDict [("proc.x", PSet [PInt 1])])
   = Raise (TypeError "Object of type set is not JSON serializable") /\
   report_world = report_world) \/
  exists js, sample_dumps (PDict [("proc.x", PSet [PInt 1])]) = Ok js /\
    ((open_w "out/result.json" report_world
      = (Raise (TypeError "Object of type set is not JSON serializable"), report_world) /\
      report_world = report_world) \/
     (exists part,
        writes_all "out/result.json" js
        = Some (TypeError "Object of type set is not JSON serializable", part) /\
        Dependency.fs report_world
        = <["out/result.json" := Dependency.File part]> (Dependency.fs report_world) /\
        Dependency.stdout report_world = Dependency.stdout report_world) \/
     (exists out,
        true = true /\
        prints_all js
        = Some (TypeError "Object of type set is not JSON serializable", out) /\
        Dependency.fs report_world
        = <["out/result.json" := Dependency.File js]> (Dependency.fs report_world))).
Proof.
  apply (write_output_failures sample_dumps writes_all prints_all "out/result.json"
           [("proc.x", PSet [PInt 1])] true report_world
           (TypeError "Object of type set is not JSON serializable") report_world).
  reflexivity.
Defined.

(** The third case does occur: with the disk full, the report that was
    there is lost. *)
Example write_output_disk_full :
  write_output sample_dumps disk_full prints_all "out/result.json"
    [("proc.a", PInt 5)] true report_world
  = (Raise (OSError "[Errno 28] No space left on device"),
     Dependency.mkWorld
       (<["out/result.json" := Dependency.File ""]> (Dependency.fs report_world))
       [] []).
Proof. by vm_compute. Qed.

Lemma write_output_writes_witness :
  write_output sample_dumps writes_all prints_all "out/result.json"
    [("proc.a", PInt 5)] true report_world
  = (Ok tt,
     Dependency.mkWorld
       (<["out/result.json" := Dependency.File "{'proc.a': 5}"]>
          (Dependency.fs report_world))
       [] ["{'proc.a': 5}"]).
Proof.
  apply (write_output_writes sample_dumps writes_all prints_all "out/result.json"
           [("proc.a", PInt 5)] true report_world "{'proc.a': 5}").
  - reflexivity.
  - by vm_compute.
  - by vm_compute.
  - reflexivity.
  - intros _. reflexivity.
Defined.

End OutputWriterFacts.

(* ===================================================================== *)
(** * The extern fixture: traces, bounds and the lock                     *)
(* ===================================================================== *)
Module ExternSetupFacts.
Import ExternExpectedOutput ExternSetup.

Section Methods.

Variable E : Type.
Variable stat_ok : pyval -> E -> bool.
Variable find_data_objects : string -> string -> string -> E -> res (list pyval) * E.
Variable run_program : list string -> E -> res string * E.
Variable parent_compile :
  ExternExpectedOutput -> option pyval -> E -> res string * (option pyval * E).

Abbreviation block := (setup_block E stat_ok find_data_objects run_program).
Abbreviation setup := (_native_call_setup E find_data_objects run_program).
Abbreviation dxni := (native_call_dxni E run_program).
Abbreviation compile :=
  (_compile_executable E stat_ok find_data_objects run_program parent_compile).
Abbreviation step_of := (step E stat_ok find_data_objects run_program parent_compile).
Abbreviation run_of := (run E stat_ok find_data_objects run_program parent_compile).

(** *** What a computation adds to the trace *)

Section Appends.

Variables P cnt : event -> bool.

Lemma appends_ret {A} (a : A) n : appends E P cnt n (ret a).
Proof. intros w. exists []. cbn. rewrite app_nil_r. repeat split; lia. Qed.

Lemma appends_lift {A} (r : res A) n : appends E P cnt n (lift r).
Proof. intros w. exists []. cbn. rewrite app_nil_r. repeat split; lia. Qed.

Lemma appends_mono {A} (c : M (World E) A) n m :
  (n <= m)%nat -> appends E P cnt n c -> appends E P cnt m c.
Proof.
  intros Hnm Hc w. destruct (Hc w) as (evs & Ht & HP & Hn).
  exists evs. repeat split; [done|done|lia].
Qed.

Lemma appends_emit ev :
  P ev = true -> cnt ev = false -> appends E P cnt 0 (emit E ev).
Proof.
  intros HP Hc w. exists [ev]. cbn. rewrite HP, Hc. repeat split; cbn; lia.
Qed.

Lemma appends_bind {A B} (c : M (World E) A) (k : A -> M (World E) B) n m :
  appends E P cnt n c -> (forall a, appends E P cnt m (k a)) ->
  appends E P cnt (n + m) (bind c k).
Proof.
  intros Hc Hk w. unfold bind. destruct (Hc w) as (evs & Ht & HP & Hn).
  destruct (c w) as [[a|e] w1]; cbn [snd] in *.
  - destruct (Hk a w1) as (evs' & Ht' & HP' & Hn').
    exists (evs ++ evs'). rewrite Ht', Ht, app_assoc. split; [done|].
    rewrite forallb_app, HP, HP', List.filter_app, length_app. split; [done|lia].
  - exists evs. repeat split; [done|done|lia].
Qed.

Lemma appends_bind' {A B} (c : M (World E) A) (k : A -> M (World E) B) n m t :
  appends E P cnt n c -> (forall a, appends E P cnt m (k a)) ->
  (n + m <= t)%nat ->
  appends E P cnt t (bind c k).
Proof. intros Hc Hk Ht. eapply appends_mono; [exact Ht|by apply appends_bind]. Qed.

Lemma appends_for_each {A B} (xs : list A) (body : B -> A -> M (World E) B) n :
  (forall acc x, appends E P cnt n (body acc x)) ->
  forall acc, appends E P cnt (length xs * n) (for_each xs body acc).
Proof.
  intros Hbody. induction xs as [|x xs IH]; intros acc; cbn [for_each length].
  - apply appends_ret.
  - change (S (length xs) * n)%nat with (n + length xs * n)%nat.
    apply appends_bind; auto.
Qed.

Lemma appends_find name folder project :
  P (EvFind name folder project) = true ->
  cnt (EvFind name folder project) = false ->
  appends E P cnt 0 (find_applets E find_data_objects name folder project).
Proof.
  intros HP Hc w. unfold find_applets.
  destruct (find_data_objects name folder project (env E w)) as [r e'].
  exists [EvFind name folder project]. cbn. rewrite HP, Hc. repeat split; cbn; lia.
Qed.

Lemma appends_check_output cmd n :
  (forall args, all_str cmd = Some args ->
     P (EvCheckOutput args) = true /\
     (length (List.filter cnt [EvCheckOutput args]) <= n)%nat) ->
  appends E P cnt n (sp_check_output E run_program cmd).
Proof.
  intros H w. unfold sp_check_output. destruct (all_str cmd) as [args|].
  - destruct (H args eq_refl) as [HP Hn].
    destruct (run_program args (env E w)) as [r e'].
    exists [EvCheckOutput args]. cbn [snd trace forallb]. rewrite HP.
    repeat split; done.
  - exists []. cbn. rewrite app_nil_r. repeat split; lia.
Qed.

Lemma appends_exists p : appends E P cnt 0 (os_path_exists E stat_ok p).
Proof.
  intros w. exists []. unfold os_path_exists.
  destruct p; cbn; rewrite app_nil_r; repeat split; lia.
Qed.

End Appends.

(** *** [_native_call_setup] *)

Lemma build_args self napl args :
  all_str (build_cmdline self napl) = Some args ->
  is_setup_event (EvCheckOutput args) = true /\
  is_build (EvCheckOutput args) = true /\
  is_generation (EvCheckOutput args) = false.
Proof. intros [= <-]. done. Qed.

Lemma dxni_cmd_args self args :
  all_str
    ([ PStr "java"; PStr "-jar"; PStr (_compiler_jar_path self); PStr "dxni";
       PStr "-force"; PStr "-folder"; PStr (_applet_folder self);
       PStr "-project"; PStr (project_id (context self)) ] ++
     [ PStr "-language"; PStr "wdl_v1.0"; PStr "-output"; _extern_path self ])
  = Some args ->
  exists p, _extern_path self = PStr p /\ args = dxni_args self p.
Proof.
  cbn [app all_str]. destruct (_extern_path self) as [| | |p| | | |]; try done.
  cbn [all_str]. intros [= <-]. by exists p.
Qed.

(** The searches and builds of the five applets. *)
Lemma appends_loop self cnt n :
  (forall name folder project, cnt (EvFind name folder project) = false) ->
  (forall napl args, all_str (build_cmdline self napl) = Some args ->
     (length (List.filter cnt [EvCheckOutput args]) <= n)%nat) ->
  appends E is_setup_event cnt (5 * n)
    (for_each native_applets
       (fun (_ : unit) napl =>
          applet <- find_applets E find_data_objects napl (_applet_folder self)
                      (project_id (context self)) ;;
          match applet with
          | [] => sp_check_output E run_program (build_cmdline self napl) ;;; ret tt
          | _ :: _ => ret tt
          end) tt).
Proof.
  intros Hfind Hbuild.
  apply (appends_for_each is_setup_event cnt native_applets _ n).
  intros [] napl.
  apply (appends_bind' _ _ _ _ 0 n); [by apply appends_find| |lia].
  intros [|a l]; [|apply appends_ret].
  apply (appends_bind' _ _ _ _ n 0); [|intros; apply appends_ret|lia].
  apply appends_check_output. intros args Hargs. split; [|by apply (Hbuild napl)].
  by apply (build_args self napl).
Qed.

Lemma appends_dxni self cnt n :
  (forall msg, cnt (EvLog msg) = false) ->
  (forall p, (length (List.filter cnt [EvCheckOutput (dxni_args self p)]) <= n)%nat) ->
  appends E is_setup_event cnt n (dxni self).
Proof.
  intros Hlog Hrun. unfold native_call_dxni.
  apply (appends_bind' _ _ _ _ 0 n); [apply appends_lift| |lia]. intros line.
  apply (appends_bind' _ _ _ _ 0 n); [by apply appends_emit| |lia]. intros _.
  apply (appends_bind' _ _ _ _ n 0); [|intros; apply appends_ret|lia].
  apply appends_check_output. intros args Hargs.
  apply dxni_cmd_args in Hargs as (p & _ & ->). split; [done|apply Hrun].
Qed.

Lemma appends_setup self cnt n m :
  (forall name folder project, cnt (EvFind name folder project) = false) ->
  (forall msg, cnt (EvLog msg) = false) ->
  (forall napl args, all_str (build_cmdline self napl) = Some args ->
     (length (List.filter cnt [EvCheckOutput args]) <= n)%nat) ->
  (forall p, (length (List.filter cnt [EvCheckOutput (dxni_args self p)]) <= m)%nat) ->
  appends E is_setup_event cnt (5 * n + m) (setup self).
Proof.
  intros Hfind Hlog Hbuild Hrun. unfold _native_call_setup.
  apply appends_bind; [by apply appends_loop|]. intros _. by apply appends_dxni.
Qed.

(** X19. Whatever the platform answers, one run of [_native_call_setup]
    only adds searches, log lines and program starts to the trace, among
    them at most five [dx build] runs and at most one [dxni] run. *)
Theorem native_call_setup_bound self w :
  exists evs,
    trace E (setup self w).2 = trace E w ++ evs /\
    forallb is_setup_event evs = true /\
    (builds evs <= 5)%nat /\
    (generations evs <= 1)%nat.
Proof.
  destruct (appends_setup self is_build 1 0) with (w := w)
    as (evs & Ht & HP & Hb); try done.
  { intros napl args Hargs. cbn [List.filter].
    destruct (is_build _); cbn; lia. }
  destruct (appends_setup self is_generation 0 1) with (w := w)
    as (evs' & Ht' & _ & Hg); try done.
  { intros napl args Hargs.
    destruct (build_args self napl args Hargs) as (_ & _ & Hgen).
    cbn [List.filter]. by rewrite Hgen. }
  rewrite Ht in Ht'. apply app_inv_head in Ht' as <-.
  exists evs. unfold builds, generations. repeat split; [done|done|lia|lia].
Qed.

(** X20. On an object made by [__init__], [_native_call_setup] cannot
    succeed and never starts [dxni]: after the searches and builds, the
    command line holds the tuple [_extern_path], and joining it for the
    log raises before the program is started. *)
Theorem native_call_setup_built ctx w :
  (exists e, (setup (__init__ ctx) w).1 = Raise e) /\
  generations (trace E (setup (__init__ ctx) w).2) = generations (trace E w).
Proof.
  destruct (setup (__init__ ctx) w) as [r w'] eqn:Hrun. cbn [fst snd].
  revert Hrun. unfold _native_call_setup. unfold bind at 1.
  destruct (appends_loop (__init__ ctx) is_generation 0) with (w := w)
    as (evs & Ht & _ & Hg); try done.
  { intros napl args Hargs.
    destruct (build_args _ napl args Hargs) as (_ & _ & Hgen).
    cbn [List.filter]. by rewrite Hgen. }
  assert (Hsame : generations (trace E w ++ evs) = generations (trace E w)).
  { unfold generations. rewrite List.filter_app, length_app. lia. }
  destruct (for_each native_applets _ tt w) as [[[]|e] w1]; cbn [snd] in Ht.
  - change (dxni (__init__ ctx) w1)
      with (Raise (A:=unit) (TypeError "sequence item: expected str instance"), w1).
    intros [= <- <-]. split; [by eexists|]. by rewrite Ht.
  - intros [= <- <-]. split; [by eexists|]. by rewrite Ht.
Qed.

(** X21. With [_extern_path] a plain string and all five applets found
    by the search, [_native_call_setup] builds nothing: it searches five
    times, logs the [dxni] command line and runs exactly that command,
    whose outcome is the outcome of the setup. *)
Theorem native_call_setup_all_present self p w :
  _extern_path self = PStr p ->
  (forall napl, napl ∈ native_applets ->
     exists x l,
       find_data_objects napl (_applet_folder self) (project_id (context self))
         (env E w)
       = (Ok (x :: l), env E w)) ->
  setup self w =
    (match (run_program (dxni_args self p) (env E w)).1 with
     | Ok _ => Ok tt
     | Raise e => Raise e
     end,
     mkWorld E (run_program (dxni_args self p) (env E w)).2 (_test_results E w)
       (trace E w ++ searches self
        ++ [EvLog (String.concat " " (dxni_args self p));
            EvCheckOutput (dxni_args self p)])).
Proof.
  intros Hpath Hfound. unfold _native_call_setup.
  unfold native_applets at 1. cbn [for_each]. unfold find_applets, bind, ret.
  destruct w as [e r t]. cbn [env _test_results trace] in Hfound |- *.
  destruct (Hfound "native_concat") as (x1 & l1 & ->); [unfold native_applets; repeat constructor|].
  cbn [env _test_results trace].
  destruct (Hfound "native_diff") as (x2 & l2 & ->); [unfold native_applets; repeat constructor|].
  cbn [env _test_results trace].
  destruct (Hfound "native_mk_list") as (x3 & l3 & ->); [unfold native_applets; repeat constructor|].
  cbn [env _test_results trace].
  destruct (Hfound "native_sum") as (x4 & l4 & ->); [unfold native_applets; repeat constructor|].
  cbn [env _test_results trace].
  destruct (Hfound "native_sum_012") as (x5 & l5 & ->); [unfold native_applets; repeat constructor|].
  cbn [env _test_results trace].
  unfold native_call_dxni. rewrite Hpath. cbn [app str_join all_str].
  unfold bind, lift, logger_info, emit, sp_check_output.
  cbn [env _test_results trace all_str].
  fold (dxni_args self p).
  destruct (run_program (dxni_args self p) e) as [[out|x] e']; cbn [fst snd];
    unfold ret; unfold searches, native_applets; cbn [map];
    by rewrite <- !app_assoc.
Qed.

(** *** [_compile_executable] *)

Lemma appends_block self :
  appends E is_setup_event (fun _ => false) 0 (block self).
Proof.
  unfold setup_block.
  apply (appends_bind' _ _ _ _ 0 0); [apply appends_exists| |lia].
  intros present. destruct (negb present); [|apply appends_ret].
  apply (appends_bind' _ _ _ _ 0 0); [by apply appends_emit| |lia]. intros _.
  apply (appends_bind' _ _ _ _ 0 0); [|intros _; by apply appends_emit|lia].
  by apply (appends_setup self (fun _ => false) 0 0).
Qed.

Lemma with_lock_trace self w :
  exists evs,
    trace E (with_lock E (block self) w).2
    = trace E w ++ [EvAcquire] ++ evs ++ [EvRelease] /\
    forallb is_setup_event evs = true.
Proof.
  destruct (appends_block self
              (mkWorld E (env E w) (_test_results E w) (trace E w ++ [EvAcquire])))
    as (evs & Ht & HP & _).
  exists evs. split; [|done].
  unfold with_lock, bind, emit.
  destruct (block self _) as [r w1]. cbn [snd trace] in *.
  destruct r; cbn [snd trace]; rewrite Ht; by rewrite <- !app_assoc.
Qed.

(** X22. Whatever happens inside, [_compile_executable] takes the lock
    once and gives it back before anything else: its trace is the
    acquisition, events of the setup, the release, and then the inherited
    compilation, which is left out only when the block raised something
    that is no [Exception]; that exception is then the outcome. *)
Theorem compile_executable_lock_released self w :
  exists evs tail,
    trace E (compile self w).2
    = trace E w ++ [EvAcquire] ++ evs ++ [EvRelease] ++ tail /\
    forallb is_setup_event evs = true /\
    (tail = [EvSuperCompile] \/
     tail = [] /\
     exists e, (compile self w).1 = Raise e /\ is_Exception e = false).
Proof.
  destruct (with_lock_trace self w) as (evs & Ht & HP).
  exists evs. unfold _compile_executable, bind, try_except.
  destruct (with_lock E (block self) w) as [[[]|e] w1]; cbn [snd] in Ht.
  - exists [EvSuperCompile]. unfold super_compile_executable.
    destruct (parent_compile self _ _) as [x [results e']].
    cbn [snd trace]. rewrite Ht, <- !app_assoc. by auto.
  - unfold except_Exception. destruct (is_Exception e) eqn:He.
    + exists [EvSuperCompile]. cbn [env _test_results trace].
      unfold super_compile_executable. cbn [env _test_results trace].
      destruct (parent_compile self _ _) as [x [results e']].
      cbn [snd trace]. rewrite Ht, <- !app_assoc. by auto.
    + exists []. cbn [fst snd]. rewrite Ht, !app_nil_r.
      split; [done|]. split; [done|]. right. split; [done|]. by exists e.
Qed.

(** X23. When [_extern_path] is a string naming an existing file,
    [_compile_executable] only takes and gives back the lock and goes on to
    the inherited compilation: nothing is searched, built or generated and
    [_test_results] is not touched. *)
Theorem compile_executable_extern_present self p w :
  _extern_path self = PStr p ->
  stat_ok (PStr p) (env E w) = true ->
  compile self w
  = super_compile_executable E parent_compile self
      (mkWorld E (env E w) (_test_results E w)
         (trace E w ++ [EvAcquire; EvRelease])).
Proof.
  intros Hpath Hstat. unfold _compile_executable at 1.
  unfold bind at 1, try_except, with_lock, setup_block, os_path_exists.
  unfold bind, emit. cbn [env _test_results trace]. rewrite Hpath, Hstat.
  cbn [negb ret]. unfold ret. cbn [env _test_results trace].
  by rewrite <- app_assoc.
Qed.

(** *** Any number of callers *)




(** X25. Any number of callers built by [__init__] on one context, under
    every schedule: no [dx build] and no [dxni] is ever started. *)
Theorem callers_never_invoke ctx n e sched :
  invocations
    (map snd (gtrace E (run_of sched (callers E (replicate n (__init__ ctx)) e))))
  = 0%nat.
Proof.
  apply (ExternExpectedOutputFacts.run_quiet E stat_ok find_data_objects
           run_program parent_compile ctx sched).
  split; [done|]. cbn [callers gthreads].
  apply Forall_fmap, Forall_forall. intros self Hself.
  by apply elem_of_replicate in Hself as [-> _].
Qed.

End Methods.

Lemma native_call_setup_all_present_witness :
  _native_call_setup Remote sample_find sample_program with_plain_path
    (mkWorld Remote stocked_remote None [])
  = (Ok tt,
     mkWorld Remote
       (mkRemote (applets stocked_remote)
          ["/repo/dxcint/resources/extern_expected_output/dx_extern.wdl"])
       None
       (searches with_plain_path ++
        [EvLog (String.concat " "
                  (dxni_args with_plain_path
                     "/repo/dxcint/resources/extern_expected_output/dx_extern.wdl"));
         EvCheckOutput
           (dxni_args with_plain_path
              "/repo/dxcint/resources/extern_expected_output/dx_extern.wdl")])).
Proof.
  refine (eq_trans
    (native_call_setup_all_present Remote sample_find sample_program
       with_plain_path
       "/repo/dxcint/resources/extern_expected_output/dx_extern.wdl"
       (mkWorld Remote stocked_remote None []) eq_refl _) _).
  - intros napl Hin. unfold native_applets in Hin.
    repeat (apply elem_of_cons in Hin as [->|Hin]);
      [by eexists _, _ ..|by apply elem_of_nil in Hin].
  - reflexivity.
Defined.

Lemma compile_executable_extern_present_witness :
  _compile_executable Remote sample_stat sample_find sample_program sample_parent
    with_plain_path (mkWorld Remote generated_remote None [])
  = (Ok "applet-xxxx",
     mkWorld Remote generated_remote None [EvAcquire; EvRelease; EvSuperCompile]).
Proof.
  refine (eq_trans
    (compile_executable_extern_present Remote sample_stat sample_find
       sample_program sample_parent with_plain_path
       "/repo/dxcint/resources/extern_expected_output/dx_extern.wdl"
       (mkWorld Remote generated_remote None []) eq_refl _) _).
  - by vm_compute.
  - reflexivity.
Defined.

End ExternSetupFacts.
